(** * Partnership dashboard and edit form: a shallow embedding

    The development follows three source units of the front end:

    - the [Dashboard] component: the record fetcher [fetchPartnerships] and
      the aggregators [processChartData], [processLineData] and
      [processHeatmapData] with its local [normalizeCountryName];
    - the [EditPartnership] page: [getChangedFields] with its local
      [compareObjects], and [handleSubmit];
    - the thin REST client, which only appears through the calls the two
      components make.

    Conventions of the embedding.

    - A JavaScript string is a [string] of code units in the ASCII range;
      [toLowerCase], [toUpperCase] and [trim] are the ASCII restrictions of
      the built-ins (code units above 127 are left alone).
    - A [Date] is its time value in milliseconds since the epoch, or
      [InvalidDate] for the NaN time value.  Calendar fields are read in
      UTC: the host time zone is taken to be UTC.
    - A record field that the code only tests for truthiness and then hands
      to [new Date] is represented by the [Date] so constructed.
    - A plain object used as a dictionary is a [gmap string _] of its own
      properties; reading a key goes through [getProp], which also knows the
      names every plain object inherits from [Object.prototype].  The form
      objects of the edit page, which are enumerated with [for ... in], are
      lists of properties in enumeration order.
    - Component state is a record, a state setter a function on it, and
      what a handler does besides (toasts, requests, navigation) a list of
      effects; an awaited request enters as the way it settles.
    - Code that can throw returns a [Completion]. *)

From Stdlib Require Import ZArith NArith Lia List Bool Ascii String.
From stdpp Require Import base option strings list gmap fin_maps.

Local Open Scope string_scope.
Local Open Scope Z_scope.

(** ** Completions *)

(** How the evaluation of a piece of code ends.  [Exotic] marks an
    evaluation that leaves the fragment the embedding describes: it goes on
    with one of the built-in values inherited from [Object.prototype]
    (string concatenation with a function's source text, properties written
    on a built-in), or it reads a property of a string or a number. *)
Inductive Completion (A : Type) : Type :=
| Normal (a : A)
| ThrowTypeError
| Exotic.

Arguments Normal {A} a.
Arguments ThrowTypeError {A}.
Arguments Exotic {A}.

Definition cbind {A B} (c : Completion A) (k : A -> Completion B) : Completion B :=
  match c with
  | Normal a => k a
  | ThrowTypeError => ThrowTypeError
  | Exotic => Exotic
  end.

#[global] Instance Completion_bind : MBind Completion := fun A B k c => cbind c k.
#[global] Instance Completion_ret : MRet Completion := fun A a => Normal a.

(** [Array.prototype.forEach] (and [reduce]) with a callback that may throw:
    the elements are visited in order and the first abrupt completion ends
    the loop. *)
Fixpoint forEach {A S} (f : S -> A -> Completion S) (l : list A) (s : S) : Completion S :=
  match l with
  | [] => Normal s
  | x :: l' => s' ← f s x; forEach f l' s'
  end.

(** ** Strings *)

Module Js.

(** The case mappings on the ASCII range.  A code unit above 127 is left
    alone, where the built-ins map some of them (U+017F, the long s,
    uppercases to "S"): a statement that depends on a case mapping is
    about strings in the ASCII range. *)
Definition lowerAscii (c : ascii) : ascii :=
  let n := N_of_ascii c in
  if ((65 <=? n) && (n <=? 90))%N then ascii_of_N (n + 32) else c.

Definition upperAscii (c : ascii) : ascii :=
  let n := N_of_ascii c in
  if ((97 <=? n) && (n <=? 122))%N then ascii_of_N (n - 32) else c.

Fixpoint toLowerCase (s : string) : string :=
  match s with
  | EmptyString => EmptyString
  | String c s' => String (lowerAscii c) (toLowerCase s')
  end.

Fixpoint toUpperCase (s : string) : string :=
  match s with
  | EmptyString => EmptyString
  | String c s' => String (upperAscii c) (toUpperCase s')
  end.

(** White space and line terminators of the ASCII range: TAB, LF, VT, FF,
    CR and SP. *)
Definition isSpace (c : ascii) : bool :=
  let n := N_of_ascii c in
  (((9 <=? n) && (n <=? 13)) || (n =? 32))%N.

Fixpoint trimStart (s : string) : string :=
  match s with
  | EmptyString => EmptyString
  | String c s' => if isSpace c then trimStart s' else s
  end.

(** [trimEnd] keeps a character when it is not a space or when something
    survives to its right. *)
Fixpoint trimEnd (s : string) : string :=
  match s with
  | EmptyString => EmptyString
  | String c s' =>
      match trimEnd s' with
      | EmptyString => if isSpace c then EmptyString else String c EmptyString
      | t => String c t
      end
  end.

Definition trim (s : string) : string := trimEnd (trimStart s).

(** [s.charAt(0)] *)
Definition charAt0 (s : string) : string :=
  match s with
  | EmptyString => EmptyString
  | String c _ => String c EmptyString
  end.

(** [s.slice(1)] *)
Definition slice1 (s : string) : string :=
  match s with
  | EmptyString => EmptyString
  | String _ s' => s'
  end.

(** [!!s] for a value that is a string or absent ([undefined]/[null]). *)
Definition truthy (s : option string) : bool :=
  match s with
  | Some (String _ _) => true
  | _ => false
  end.

(** *** Property reads on plain objects *)

(** The property names that an object literal inherits from
    [Object.prototype]. *)
Definition objectPrototypeKeys : list string :=
  [ "constructor"; "__defineGetter__"; "__defineSetter__"; "hasOwnProperty";
    "__lookupGetter__"; "__lookupSetter__"; "isPrototypeOf";
    "propertyIsEnumerable"; "toString"; "valueOf"; "__proto__";
    "toLocaleString" ].

Definition isPrototypeKey (k : string) : bool :=
  existsb (String.eqb k) objectPrototypeKeys.

(** Result of [o[k]] on a plain object: an own property, a built-in found
    on the prototype (a function, or the prototype itself for [__proto__];
    always truthy, never a string, number or array), or [undefined]. *)
Inductive Property (A : Type) : Type :=
| Own (a : A)
| Inherited
| Undefined.

Arguments Own {A} a.
Arguments Inherited {A}.
Arguments Undefined {A}.

Definition getProp {A} (o : gmap string A) (k : string) : Property A :=
  match o !! k with
  | Some a => Own a
  | None => if isPrototypeKey k then Inherited else Undefined
  end.

End Js.

(** ** Dates *)

Module JsDate.

Inductive Date : Type :=
| Time (t : Z)
| InvalidDate.

Definition msPerDay : Z := 86400000.

(** Day number and time within the day of a time value. *)
Definition Day (t : Z) : Z := t / msPerDay.
Definition TimeWithinDay (t : Z) : Z := t mod msPerDay.

(** Days since the epoch of the civil date [y]-[m]-[d] of the proleptic
    Gregorian calendar, [m] counted from 1. *)
Definition daysFromCivil (y m d : Z) : Z :=
  let y' := if m <=? 2 then y - 1 else y in
  let era := y' / 400 in
  let yoe := y' - era * 400 in
  let mp := if m <=? 2 then m + 9 else m - 3 in
  let doy := (153 * mp + 2) / 5 + d - 1 in
  let doe := yoe * 365 + yoe / 4 - yoe / 100 + doy in
  era * 146097 + doe - 719468.

(** The civil date (year, month from 1, day of month) of a day number. *)
Definition civilFromDays (z : Z) : Z * Z * Z :=
  let z' := z + 719468 in
  let era := z' / 146097 in
  let doe := z' - era * 146097 in
  let yoe := (doe - doe / 1460 + doe / 36524 - doe / 146096) / 365 in
  let doy := doe - (365 * yoe + yoe / 4 - yoe / 100) in
  let mp := (5 * doy + 2) / 153 in
  let d := doy - (153 * mp + 2) / 5 + 1 in
  let m := if mp <? 10 then mp + 3 else mp - 9 in
  let y := yoe + era * 400 in
  ((if m <=? 2 then y + 1 else y), m, d).

Definition YearFromTime (t : Z) : Z := (civilFromDays (Day t)).1.1.
(** Months are counted from 0, as [getMonth] does. *)
Definition MonthFromTime (t : Z) : Z := (civilFromDays (Day t)).1.2 - 1.
Definition DateFromTime (t : Z) : Z := (civilFromDays (Day t)).2.

(** [MakeDay(year, month, date)]: [month] is counted from 0 and may lie
    outside [0, 11], [date] may lie outside the month. *)
Definition MakeDay (year month date : Z) : Z :=
  let ym := year + month / 12 in
  let mn := month mod 12 in
  daysFromCivil ym (mn + 1) 1 + date - 1.

Definition MakeDate (day time : Z) : Z := day * msPerDay + time.

(** [d.setDate(x)], [d.setMonth(x)] and [d.setFullYear(x)] on a valid date:
    the new time value of [d]. *)
Definition setDate (t x : Z) : Z :=
  MakeDate (MakeDay (YearFromTime t) (MonthFromTime t) x) (TimeWithinDay t).
Definition setMonth (t x : Z) : Z :=
  MakeDate (MakeDay (YearFromTime t) x (DateFromTime t)) (TimeWithinDay t).
Definition setFullYear (t x : Z) : Z :=
  MakeDate (MakeDay x (MonthFromTime t) (DateFromTime t)) (TimeWithinDay t).

(** [d >= t0] for a date [d] and the time value [t0] of a valid date: the
    comparison is on time values and is false on NaN. *)
Definition geTime (d : Date) (t0 : Z) : bool :=
  match d with
  | Time t => t0 <=? t
  | InvalidDate => false
  end.

End JsDate.

Import Js JsDate.

(** ** Partnership records *)

Record AauContact := {
  interestedCollegeOrDepartment : option string
}.

Record PartnerInstitution := {
  country : option string
}.

(** The fields of a fetched record that the dashboard reads.  [None] is an
    absent ([undefined] or [null]) field; a date field is [None] when the
    field is falsy and otherwise the date that [new Date] builds from it. *)
Record Partnership := {
  createdAt : option Date;
  expirationDate : option Date;
  status : option string;
  aauContact : option AauContact;
  partnerInstitution : option PartnerInstitution
}.

(** [p.aauContact?.interestedCollegeOrDepartment] *)
Definition collegeOf (p : Partnership) : option string :=
  match aauContact p with
  | Some c => interestedCollegeOrDepartment c
  | None => None
  end.

(** [p.partnerInstitution?.country] *)
Definition countryOf (p : Partnership) : option string :=
  match partnerInstitution p with
  | Some i => country i
  | None => None
  end.

(** ** Status derivation *)

(** Truthiness of a field that holds a date object or [null]. *)
Definition isPresent {A} (o : option A) : bool :=
  match o with Some _ => true | None => false end.

(** [daysUntilExpiration <= 30], where [daysUntilExpiration] is
    [(expirationDate - now) / (1000 * 60 * 60 * 24)].  The difference of two
    time values is an integer, and for an integer [x] the double
    [x / 86400000] is at most 30 exactly when [x <= 30 * 86400000]; on an
    invalid date the quotient is NaN and the comparison is false. *)
Definition expiresWithin30Days (expiration : Date) (now : Z) : bool :=
  match expiration with
  | Time t => t - now <=? 30 * (1000 * 60 * 60 * 24)
  | InvalidDate => false
  end.

(** The body shared, word for word, by the [map] callback of
    [processChartData] and the [forEach] callback of [processLineData];
    [now] is the time value of the [now] object in scope when it runs. *)
Definition derivedStatus (now : Z) (p : Partnership) : string :=
  let derived :=
    if truthy (status p) then toLowerCase (default "" (status p)) else "pending" in
  if isPresent (expirationDate p) && bool_decide (status p = Some "Active") then
    match expirationDate p with
    | Some expiration =>
        if expiresWithin30Days expiration now then "expiringSoon" else "active"
    | None => derived
    end
  else if String.eqb derived "rejected" then "expired"
  else if String.eqb derived "pending" then "prospect"
  else derived.

(** The precedence rule as the specification words it, as a relation
    between a record and a status.  An expiration date is within thirty
    days when it is valid and at most thirty days of 86400 seconds after
    [now]; a status is missing when it is absent or empty. *)
Definition within30Days (expiration : Date) (now : Z) : Prop :=
  exists t, expiration = Time t /\ t - now <= 30 * msPerDay.

Definition activeWithExpiration (p : Partnership) : Prop :=
  (exists expiration, expirationDate p = Some expiration) /\ status p = Some "Active".

Definition statusMissing (p : Partnership) : Prop :=
  status p = None \/ status p = Some "".

Inductive DerivedStatus (now : Z) (p : Partnership) : string -> Prop :=
| derive_expiringSoon expiration :
    expirationDate p = Some expiration ->
    status p = Some "Active" ->
    within30Days expiration now ->
    DerivedStatus now p "expiringSoon"
| derive_active expiration :
    expirationDate p = Some expiration ->
    status p = Some "Active" ->
    ~ within30Days expiration now ->
    DerivedStatus now p "active"
| derive_expired s :
    ~ activeWithExpiration p ->
    status p = Some s ->
    toLowerCase s = "rejected" ->
    DerivedStatus now p "expired"
| derive_prospect_pending s :
    ~ activeWithExpiration p ->
    status p = Some s ->
    toLowerCase s = "pending" ->
    DerivedStatus now p "prospect"
| derive_prospect_missing :
    ~ activeWithExpiration p ->
    statusMissing p ->
    DerivedStatus now p "prospect"
| derive_literal s :
    ~ activeWithExpiration p ->
    status p = Some s ->
    ~ statusMissing p ->
    toLowerCase s <> "rejected" ->
    toLowerCase s <> "pending" ->
    DerivedStatus now p (toLowerCase s).

(** ** The dashboard aggregators *)

Module Dashboard.

Definition colleges : list string :=
  [ "All Colleges";
    "Central";
    "College of Business and Economics";
    "College of Social Science, Arts and Humanities";
    "College of Veterinary Medicine and Agriculture";
    "School of Law";
    "College of Technology and Built Environment";
    "College of Education and Language Studies";
    "College of Health Science" ].

(** *** Time window *)

(** The [if]/[else if] chain on [timeFilter] that opens [processChartData]
    and [processHeatmapData].  [setDate], [setMonth] and [setFullYear]
    update the [now] object in place and return its new time value, from
    which [startDate] is built; the pair is the time value of [now] after
    the chain and the time value of [startDate]. *)
Definition timeWindow (timeFilter : string) (clock : Z) : Z * Z :=
  if String.eqb timeFilter "Weekly" then
    let now' := setDate clock (DateFromTime clock - 7) in (now', now')
  else if String.eqb timeFilter "Monthly" then
    let now' := setMonth clock (MonthFromTime clock - 1) in (now', now')
  else if String.eqb timeFilter "Yearly" then
    let now' := setFullYear clock (YearFromTime clock - 1) in (now', now')
  else (clock, 0).

(** [p.createdAt && new Date(p.createdAt) >= startDate] *)
Definition createdSince (startDate : Z) (p : Partnership) : bool :=
  match createdAt p with
  | Some d => geTime d startDate
  | None => false
  end.

(** *** Status and college aggregation *)

Record StatusCounts := {
  active : nat;
  expiringSoon : nat;
  expired : nat;
  prospect : nat
}.

Record ChartData := {
  collegeData : gmap string StatusCounts;
  totalData : gmap string nat
}.

(** [l.filter((p) => p.derivedStatus === s).length] on processed records,
    kept as pairs of a record and its [derivedStatus]. *)
Definition countStatus (s : string) (l : list (Partnership * string)) : nat :=
  length (filter (fun q => q.2 = s) l).

(** One step of the [reduce] that builds [totalData]:
    [acc[p.derivedStatus] = (acc[p.derivedStatus] || 0) + 1]. *)
Definition tally (acc : gmap string nat) (key : string) : Completion (gmap string nat) :=
  match getProp acc key with
  | Own n => Normal (<[key := S n]> acc)
  | Undefined => Normal (<[key := 1%nat]> acc)
  | Inherited => Exotic
  end.

Definition processChartData (clock : Z) (timeFilter collegeFilter : string)
    (partnerships : list Partnership) : Completion ChartData :=
  let '(now, startDate) := timeWindow timeFilter clock in
  let filteredPartnerships := filter (fun p => createdSince startDate p = true) partnerships in
  let processedPartnerships :=
    map (fun p => (p, derivedStatus now p)) filteredPartnerships in
  let collegeData :=
    foldl (fun (acc : gmap string StatusCounts) college =>
             if String.eqb college "All Colleges" then acc
             else
               let collegePartnerships :=
                 filter (fun q : Partnership * string =>
                           collegeOf q.1 = Some college
                           ∨ collegeFilter = "All Colleges")
                        processedPartnerships in
               <[college := {| active := countStatus "active" collegePartnerships;
                               expiringSoon := countStatus "expiringSoon" collegePartnerships;
                               expired := countStatus "expired" collegePartnerships;
                               prospect := countStatus "prospect" collegePartnerships |}]> acc)
          ∅ colleges in
  totalData ← forEach (fun acc (q : Partnership * string) => tally acc q.2)
                 processedPartnerships
                 (<["active" := 0%nat]> (<["expiringSoon" := 0%nat]>
                    (<["expired" := 0%nat]> (<["prospect" := 0%nat]> ∅))));
  mret {| collegeData := collegeData; totalData := totalData |}.

(** *** Monthly time series *)

(** [new Array(12).fill(0)] *)
Definition zeros12 : list Z := replicate 12 0.

Definition emptySeries : gmap string (list Z) :=
  <["active" := zeros12]> (<["expired" := zeros12]>
    (<["expiringSoon" := zeros12]> (<["prospect" := zeros12]> ∅))).

(** The object that the [reduce] over [colleges] builds before any record
    is visited. *)
Definition lineDataByCollege : gmap string (gmap string (list Z)) :=
  foldl (fun acc college =>
           if String.eqb college "All Colleges" then acc
           else <[college := emptySeries]> acc)
        (<["All Colleges" := emptySeries]> ∅) colleges.

(** [data[college][derivedStatus][monthIndex]++].  The index is a natural
    number below 12 at every call and every array has 12 slots, so the
    increment always hits an existing slot. *)
Definition increment (data : gmap string (gmap string (list Z)))
    (college derived : string) (monthIndex : nat)
  : Completion (gmap string (gmap string (list Z))) :=
  match getProp data college with
  | Undefined => ThrowTypeError
  | Inherited => Exotic
  | Own series =>
      match getProp series derived with
      | Undefined => ThrowTypeError
      | Inherited => Exotic
      | Own slots =>
          Normal (<[college := <[derived := alter Z.succ monthIndex slots]> series]> data)
      end
  end.

(** [monthIndex] of a record created at [created], or [None] when the
    creation date is invalid (every field of it is NaN and both comparisons
    of the guard fail). *)
Definition monthIndexOf (now : Z) (created : Date) : option Z :=
  match created with
  | Time c =>
      Some ((YearFromTime c - YearFromTime now) * 12 + MonthFromTime c
            - (MonthFromTime now - 11))
  | InvalidDate => None
  end.

(** The [forEach] callback of [processLineData]. *)
Definition visit (now : Z) (collegeFilter : string)
    (data : gmap string (gmap string (list Z))) (p : Partnership)
  : Completion (gmap string (gmap string (list Z))) :=
  match createdAt p, collegeOf p with
  | Some created, Some (String c0 cs) =>
      let college := String c0 cs in
      let derived := derivedStatus now p in
      match monthIndexOf now created with
      | Some monthIndex =>
          if (0 <=? monthIndex) && (monthIndex <? 12) then
            if String.eqb collegeFilter "All Colleges" || String.eqb college collegeFilter
            then
              data' ← increment data college derived (Z.to_nat monthIndex);
              increment data' "All Colleges" derived (Z.to_nat monthIndex)
            else Normal data
          else Normal data
      | None => Normal data
      end
  | _, _ => Normal data
  end.

Definition processLineData (clock : Z) (collegeFilter : string)
    (partnerships : list Partnership)
  : Completion (gmap string (gmap string (list Z))) :=
  forEach (visit clock collegeFilter) partnerships lineDataByCollege.

(** *** Country heat map *)

Definition countryMap : gmap string string :=
  list_to_map
    [ ("united states", "United States");
      ("usa", "United States");
      ("united states of america", "United States");
      ("united kingdom", "United Kingdom");
      ("uk", "United Kingdom");
      ("great britain", "United Kingdom");
      ("south korea", "South Korea");
      ("korea, republic of", "South Korea");
      ("russia", "Russian Federation");
      ("china", "China");
      ("taiwan", "Taiwan");
      ("ethiopia", "Ethiopia") ].

(** [s.charAt(0).toUpperCase() + s.slice(1)] *)
Definition capitalize (s : string) : string :=
  toUpperCase (charAt0 s) +:+ slice1 s.

Definition normalizeCountryName (name : option string) : Completion string :=
  match name with
  | Some (String c0 cs) =>
      let name := String c0 cs in
      let normalized := toLowerCase (trim name) in
      match getProp countryMap normalized with
      | Own mappedName =>
          if truthy (Some mappedName) then Normal (capitalize mappedName)
          else Normal (capitalize name)
      | Inherited => ThrowTypeError
      | Undefined => Normal (capitalize name)
      end
  | _ => Normal "Unknown"
  end.

Record HeatmapData := {
  countryCounts : gmap string nat;
  maxCount : nat
}.

Definition processHeatmapData (clock : Z) (timeFilter collegeFilter : string)
    (partnerships : list Partnership) : Completion HeatmapData :=
  let '(now, startDate) := timeWindow timeFilter clock in
  let filteredPartnerships :=
    filter (fun p => createdSince startDate p = true
                     ∧ (collegeFilter = "All Colleges"
                        ∨ collegeOf p = Some collegeFilter))
           partnerships in
  countryCounts ←
    forEach (fun acc p =>
               normalized ← normalizeCountryName (countryOf p);
               let country := if truthy (Some normalized) then normalized else "Unknown" in
               tally acc country)
            filteredPartnerships ∅;
  mret {| countryCounts := countryCounts;
          maxCount := map_fold (fun _ n m => Nat.max n m) 1%nat countryCounts |}.

End Dashboard.

(** ** The record fetcher *)

Module Fetcher.

(** The part of the dashboard state the fetcher reads and writes. *)
Record State := {
  partnerships : list Partnership;
  loading : bool;
  collegeFilter : string
}.

Definition setPartnerships (l : list Partnership) (st : State) : State :=
  {| partnerships := l; loading := loading st; collegeFilter := collegeFilter st |}.
Definition setLoading (b : bool) (st : State) : State :=
  {| partnerships := partnerships st; loading := b; collegeFilter := collegeFilter st |}.
Definition setCollegeFilter (c : string) (st : State) : State :=
  {| partnerships := partnerships st; loading := loading st; collegeFilter := c |}.

(** [getPartnerships(params)], where [params.college] is set or not, and
    the error toast. *)
Inductive Effect : Type :=
| GetPartnerships (college : option string)
| ToastError (message : string).

(** [response.data] of a resolved request: [null] or [undefined], or a
    value whose [partnerships] property is an array ([Some]) or anything
    else ([None]). *)
Inductive ResponseData : Type :=
| NoData
| Data (partnerships : option (list Partnership)).

(** How [getPartnerships] settles.  The HTTP client rejects with an error
    object; [message] is its [response?.data?.message], when there is
    one. *)
Inductive Settled : Type :=
| Resolved (data : ResponseData)
| Rejected (message : option string).

(** The [catch] block. *)
Definition fetchFailed (message : option string) (st : State) : State * list Effect :=
  (setLoading false (setPartnerships [] st),
   [ToastError (if truthy message then default "" message
                else "Failed to fetch partnerships")]).

(** [fetchPartnerships] up to its [await]. *)
Definition fetchStart (st : State) : State * list Effect :=
  (setLoading true st,
   [GetPartnerships (if String.eqb (collegeFilter st) "All Colleges" then None
                     else Some (collegeFilter st))]).

(** [fetchPartnerships] from its [await] on.  Reading [partnerships] of a
    [null] or [undefined] [response.data] throws a TypeError inside the
    [try] block; the error caught has no [response]. *)
Definition fetchSettle (outcome : Settled) (st : State) : State * list Effect :=
  match outcome with
  | Resolved NoData => fetchFailed None st
  | Resolved (Data (Some data)) => (setLoading false (setPartnerships data st), [])
  | Resolved (Data None) => (setLoading false (setPartnerships [] st), [])
  | Rejected message => fetchFailed message st
  end.

(** One whole fetch, with nothing in between. *)
Definition fetchPartnerships (outcome : Settled) (st : State) : State * list Effect :=
  let '(st1, effects1) := fetchStart st in
  let '(st2, effects2) := fetchSettle outcome st1 in
  (st2, (effects1 ++ effects2)%list).

(** What can happen to the component: the user picks a college, which
    runs the effect and starts a fetch, or a fetch in flight settles. *)
Inductive Event : Type :=
| ChangeCollege (college : string)
| Settle (outcome : Settled).

Definition step (st : State) (e : Event) : State :=
  match e with
  | ChangeCollege college => (fetchStart (setCollegeFilter college st)).1
  | Settle outcome => (fetchSettle outcome st).1
  end.

Definition run (events : list Event) (st : State) : State := foldl step st events.

(** The state of the first render, before the effect runs. *)
Definition initialState : State :=
  {| partnerships := []; loading := true; collegeFilter := "All Colleges" |}.

End Fetcher.

(** ** The edit form *)

Module EditPartnership.

#[local] Set Warnings "-register-all".

(** Values held by the form state: primitives and plain objects.  An
    object is the list of its own enumerable properties in the order
    [for ... in] visits them. *)
Inductive JsVal : Type :=
| VUndefined
| VNull
| VStr (s : string)
| VNum (n : Z)
| VObj (fields : list (string * JsVal)).

(** [!!v] *)
Definition truthyVal (v : JsVal) : bool :=
  match v with
  | VUndefined | VNull => false
  | VStr s => truthy (Some s)
  | VNum n => negb (n =? 0)
  | VObj _ => true
  end.

(** The own property [k] of an object. *)
Fixpoint ownProp (fields : list (string * JsVal)) (k : string) : option JsVal :=
  match fields with
  | [] => None
  | (k', v) :: rest => if String.eqb k' k then Some v else ownProp rest k
  end.

(** [o[k]] on a plain object. *)
Definition getField (fields : list (string * JsVal)) (k : string) : Property JsVal :=
  match ownProp fields k with
  | Some v => Own v
  | None => if isPrototypeKey k then Inherited else Undefined
  end.

(** [o[k] = v] on a plain object, for a key other than [__proto__]: an
    existing property keeps its place, a new one goes last (names that are
    array indices, which an object enumerates first, do not occur in the
    form). *)
Fixpoint setProp (k : string) (v : JsVal) (fields : list (string * JsVal))
  : list (string * JsVal) :=
  match fields with
  | [] => [(k, v)]
  | (k', v') :: rest =>
      if String.eqb k' k then (k, v) :: rest else (k', v') :: setProp k v rest
  end.

(** [o[k]] on any value: [null] and [undefined] have no properties. *)
Definition readProp (o : JsVal) (k : string) : Completion (Property JsVal) :=
  match o with
  | VObj fields => Normal (getField fields k)
  | VUndefined | VNull => ThrowTypeError
  | VStr _ | VNum _ => Exotic
  end.

(** [a !== b] for a primitive [a]. *)
Definition strictNe (a b : JsVal) : bool :=
  match a, b with
  | VUndefined, VUndefined => false
  | VNull, VNull => false
  | VStr s, VStr t => negb (String.eqb s t)
  | VNum n, VNum m => negb (n =? m)
  | _, _ => true
  end.

(** [s.includes(".")] *)
Fixpoint includesDot (s : string) : bool :=
  match s with
  | EmptyString => false
  | String c s' => Ascii.eqb c "." || includesDot s'
  end.

(** [s.split(".")] *)
Fixpoint splitDot (s : string) : list string :=
  match s with
  | EmptyString => [EmptyString]
  | String c s' =>
      if Ascii.eqb c "." then EmptyString :: splitDot s'
      else match splitDot s' with
           | h :: t => String c h :: t
           | [] => [String c EmptyString]
           end
  end.

(** The body of the [else if] branch of [compareObjects]: the value [v] of
    [obj1[key]] has changed and is written into [changes], under
    [changes[section][field]] for a dotted path and under [changes[key]]
    otherwise.  The page is module code, hence strict: creating a property
    on a string or number throws. *)
Definition recordChange (changes : list (string * JsVal))
    (currentPath key : string) (v : JsVal) : Completion (list (string * JsVal)) :=
  if includesDot currentPath then
    match splitDot currentPath with
    | section :: field :: _ =>
        let changes :=
          match getField changes section with
          | Own x => if truthyVal x then changes else setProp section (VObj []) changes
          | Inherited => changes
          | Undefined => setProp section (VObj []) changes
          end in
        match getField changes section with
        | Own (VObj fields) =>
            if String.eqb field "__proto__" then Exotic
            else Normal (setProp section (VObj (setProp field v fields)) changes)
        | Own _ => ThrowTypeError
        | Inherited => Exotic
        | Undefined => ThrowTypeError
        end
    | _ => Normal changes
    end
  else if String.eqb key "__proto__" then Exotic
  else Normal (setProp key v changes).

(** [path ? `${path}.${key}` : key] *)
Definition pathTo (path key : string) : string :=
  if truthy (Some path) then path +:+ "." +:+ key else key.

(** The value of [obj2[key]] handed to the recursive call. *)
Definition argument (o : Property JsVal) : Completion JsVal :=
  match o with
  | Own v => Normal v
  | Undefined => Normal VUndefined
  | Inherited => Exotic
  end.

(** [obj1[key] !== obj2[key]] for a primitive [obj1[key]]: a built-in found
    on the prototype differs from every primitive. *)
Definition differs (v : JsVal) (o : Property JsVal) : bool :=
  match o with
  | Own v2 => strictNe v v2
  | Undefined => strictNe v VUndefined
  | Inherited => true
  end.

(** The helper of [getChangedFields].  The [changes] object it closes over
    and updates is threaded through; the [for ... in] loop is the inner
    [loop].  Only objects are ever passed as [obj1]. *)
Fixpoint compareObjects (obj1 obj2 : JsVal) (path : string)
    (changes : list (string * JsVal)) {struct obj1}
  : Completion (list (string * JsVal)) :=
  match obj1 with
  | VObj fields =>
      (fix loop (fs : list (string * JsVal)) (changes : list (string * JsVal))
           {struct fs} : Completion (list (string * JsVal)) :=
         match fs with
         | [] => Normal changes
         | (key, v) :: rest =>
             let currentPath := pathTo path key in
             changes' ←
               match v with
               | VObj _ =>
                   o2 ← readProp obj2 key;
                   v2 ← argument o2;
                   compareObjects v v2 currentPath changes
               | _ =>
                   o2 ← readProp obj2 key;
                   if differs v o2 then recordChange changes currentPath key v
                   else Normal changes
               end;
             loop rest changes'
         end) fields changes
  | _ => Normal changes
  end.

(** The [for ... in] loop of [compareObjects] on its own, from any point
    of the enumeration. *)
Definition compareFields (obj2 : JsVal) (path : string)
  : list (string * JsVal) -> list (string * JsVal) -> Completion (list (string * JsVal)) :=
  fix loop (fs : list (string * JsVal)) (changes : list (string * JsVal))
      {struct fs} : Completion (list (string * JsVal)) :=
    match fs with
    | [] => Normal changes
    | (key, v) :: rest =>
        let currentPath := pathTo path key in
        changes' ←
          match v with
          | VObj _ =>
              o2 ← readProp obj2 key;
              v2 ← argument o2;
              compareObjects v v2 currentPath changes
          | _ =>
              o2 ← readProp obj2 key;
              if differs v o2 then recordChange changes currentPath key v
              else Normal changes
          end;
        loop rest changes'
    end.

Definition getChangedFields (formData : list (string * JsVal)) (originalData : JsVal)
  : Completion (list (string * JsVal)) :=
  compareObjects (VObj formData) originalData "" [].

(** *** Component state *)

(** [err.message]: the text of a rejected request, or the engine's text
    for a TypeError. *)
Inductive Message : Type :=
| TypeErrorMessage
| Text (s : string).

Record State := {
  loading : bool;
  submitting : bool;
  error : option Message;
  originalData : JsVal;
  formData : list (string * JsVal)
}.

Definition setLoading (b : bool) (st : State) : State :=
  {| loading := b; submitting := submitting st; error := error st;
     originalData := originalData st; formData := formData st |}.
Definition setSubmitting (b : bool) (st : State) : State :=
  {| loading := loading st; submitting := b; error := error st;
     originalData := originalData st; formData := formData st |}.
Definition setError (e : option Message) (st : State) : State :=
  {| loading := loading st; submitting := submitting st; error := e;
     originalData := originalData st; formData := formData st |}.
Definition setOriginalData (o : JsVal) (st : State) : State :=
  {| loading := loading st; submitting := submitting st; error := error st;
     originalData := o; formData := formData st |}.
Definition setFormData (f : list (string * JsVal)) (st : State) : State :=
  {| loading := loading st; submitting := submitting st; error := error st;
     originalData := originalData st; formData := f |}.

Definition emptyContact : JsVal :=
  VObj [("name", VStr ""); ("email", VStr ""); ("phone", VStr "");
        ("title", VStr ""); ("address", VStr "")].

(** The state of the first render. *)
Definition initialState : State :=
  {| loading := true;
     submitting := false;
     error := None;
     originalData := VNull;
     formData :=
       [ ("name", VStr ""); ("type", VStr ""); ("signedDate", VStr "");
         ("endDate", VStr ""); ("region", VStr ""); ("country", VStr "");
         ("college", VStr ""); ("status", VStr ""); ("description", VStr "");
         ("partnerInstitution",
          VObj [("name", VStr ""); ("website", VStr ""); ("address", VStr "");
                ("country", VStr "")]);
         ("aauContact", emptyContact);
         ("partnerContactPerson", emptyContact);
         ("potentialStartDate", VStr "") ] |}.

(** What the page does besides updating its state. *)
Inductive ToastKind : Type := Success | Error | Info.

Inductive Effect : Type :=
| Toast (kind : ToastKind) (message : string)
| UpdatePartnership (id : string) (payload : list (string * JsVal))
| Navigate (to : string).

(** How an awaited request settles. *)
Inductive Settled (A : Type) : Type :=
| Resolved (a : A)
| Rejected (message : Message).

Arguments Resolved {A} a.
Arguments Rejected {A} message.

(** [fetchPartnership], from the point where [getPartnershipById] settles.
    A resolved request carries the [formattedData] object built from the
    response; building it may itself throw, which the [catch] block treats
    like a rejection. *)
Definition fetchPartnership (outcome : Settled (list (string * JsVal))) (st : State)
  : State * list Effect :=
  match outcome with
  | Resolved formattedData =>
      (setLoading false (setOriginalData (VObj formattedData)
                           (setFormData formattedData st)), [])
  | Rejected message =>
      (setLoading false (setError (Some message) st),
       [Toast Error "Failed to load partnership details"])
  end.

(** [handleChange] for an input named [name] whose new value is [value]. *)
Definition handleChange (name value : string) (prev : list (string * JsVal))
  : Completion (list (string * JsVal)) :=
  if includesDot name then
    match splitDot name with
    | section :: field :: _ =>
        match getField prev section with
        | Own (VObj fields) =>
            Normal (setProp section (VObj (setProp field (VStr value) fields)) prev)
        | Own VUndefined | Own VNull | Undefined =>
            Normal (setProp section (VObj [(field, VStr value)]) prev)
        | Own (VStr _) | Own (VNum _) | Inherited => Exotic
        end
    | _ => Normal prev
    end
  else Normal (setProp name (VStr value) prev).

(** The [catch] block of [handleSubmit] followed by its [finally] block. *)
Definition submitFailed (message : Message) (st : State) : State * list Effect :=
  (setSubmitting false (setError (Some message) st),
   [Toast Error "Failed to update partnership"]).

(** [handleSubmit] for the record [id].  [toastHasInfo] tells whether the
    [toast] function of the notification library has an [info] method
    (react-hot-toast, which the page imports, documents [success], [error],
    [loading], [custom], [promise], [dismiss] and [remove]); without it the
    call [toast.info(...)] throws a TypeError inside the [try] block.
    [answer] is how [updatePartnership] settles if it is called. *)
Definition handleSubmit (toastHasInfo : bool) (id : string)
    (answer : Settled unit) (st : State) : Completion (State * list Effect) :=
  let st := setError None (setSubmitting true st) in
  match getChangedFields (formData st) (originalData st) with
  | Normal [] =>
      if toastHasInfo then
        Normal (setSubmitting false (setSubmitting false st),
                [Toast Info "No changes to save"])
      else Normal (submitFailed TypeErrorMessage st)
  | Normal changedFields =>
      match answer with
      | Resolved _ =>
          Normal (setSubmitting false st,
                  [UpdatePartnership id changedFields;
                   Toast Success "Partnership updated successfully";
                   Navigate "/partnership"])
      | Rejected message =>
          let '(st', effects) := submitFailed message st in
          Normal (st', UpdatePartnership id changedFields :: effects)
      end
  | ThrowTypeError => Normal (submitFailed TypeErrorMessage st)
  | Exotic => Exotic
  end.

(** A run of [handleChange] events, each given by the name of its input
    and the value typed. *)
Definition edit (events : list (string * string)) (formData : list (string * JsVal))
  : Completion (list (string * JsVal)) :=
  forEach (fun prev e => handleChange e.1 e.2 prev) events formData.

(** Objects have each property name once, at every depth. *)
Fixpoint wellFormed (v : JsVal) : Prop :=
  match v with
  | VObj fields =>
      NoDup (map fst fields) /\
      (fix all (fs : list (string * JsVal)) : Prop :=
         match fs with
         | [] => True
         | (_, v') :: rest => wellFormed v' /\ all rest
         end) fields
  | _ => True
  end.

End EditPartnership.

(** ** Vocabulary of the statements *)

Module DashboardSpec.
Import Dashboard.

(** The count that [totalData] holds for a bucket, when the aggregation
    completes normally and has the bucket. *)
Definition counted (c : Completion ChartData) (bucket : string) : option nat :=
  match c with
  | Normal r => totalData r !! bucket
  | _ => None
  end.

(** The four status buckets each series is created with. *)
Definition buckets : list string := ["active"; "expired"; "expiringSoon"; "prospect"].

(** The eight named colleges: [colleges] without the "All Colleges"
    sentinel at its head. *)
Definition namedColleges : list string := tail colleges.

(** The counter of a college, status and month, when it exists. *)
Definition slot (data : gmap string (gmap string (list Z)))
    (college derived : string) (i : nat) : option Z :=
  series ← data !! college; slots ← series !! derived; slots !! i.

(** The keys of the accumulator are those of [colleges], and each entry
    holds twelve counters for each bucket and for nothing else. *)
Definition shaped (data : gmap string (gmap string (list Z))) : Prop :=
  forall c : string,
    match data !! c with
    | Some series =>
        c ∈ colleges /\
        forall s : string,
          match series !! s with
          | Some slots => s ∈ buckets /\ length slots = 12%nat
          | None => s ∉ buckets
          end
    | None => c ∉ colleges
    end.

End DashboardSpec.

(** ** Sample data *)

Module Sample.

(** 2023-11-14T22:13:20Z *)
Definition clock : Z := 1700000000000.

Definition days (n : Z) : Z := n * msPerDay.

Definition contactOf (college : string) : option AauContact :=
  Some {| interestedCollegeOrDepartment := Some college |}.

Definition institutionIn (name : string) : option PartnerInstitution :=
  Some {| country := Some name |}.

(** An active agreement of the School of Law, created now and expiring in
    ten days. *)
Definition expiringLaw : Partnership :=
  {| createdAt := Some (Time clock);
     expirationDate := Some (Time (clock + days 10));
     status := Some "Active";
     aauContact := contactOf "School of Law";
     partnerInstitution := institutionIn "Ethiopia" |}.

(** The same agreement with sixty days left. *)
Definition activeLaw : Partnership :=
  {| createdAt := Some (Time clock);
     expirationDate := Some (Time (clock + days 60));
     status := Some "Active";
     aauContact := contactOf "School of Law";
     partnerInstitution := institutionIn "Ethiopia" |}.

(** A pending request created on 2022-11-20, twelve calendar months before
    the month of [clock]. *)
Definition pendingLastYear : Partnership :=
  {| createdAt := Some (Time (clock - days 359));
     expirationDate := None;
     status := Some "Pending";
     aauContact := contactOf "Central";
     partnerInstitution := institutionIn "uk" |}.

(** A pending request of a department that is not in [colleges]. *)
Definition pendingPhysics : Partnership :=
  {| createdAt := Some (Time clock);
     expirationDate := None;
     status := Some "Pending";
     aauContact := contactOf "Department of Physics";
     partnerInstitution := institutionIn "China" |}.

(** A second record of such a department, created a month earlier. *)
Definition rejectedMusic : Partnership :=
  {| createdAt := Some (Time (clock - days 30));
     expirationDate := None;
     status := Some "Rejected";
     aauContact := contactOf "School of Music";
     partnerInstitution := institutionIn "Taiwan" |}.

(** A record without creation date. *)
Definition undatedLaw : Partnership :=
  {| createdAt := None;
     expirationDate := None;
     status := Some "Pending";
     aauContact := contactOf "School of Law";
     partnerInstitution := institutionIn "Ethiopia" |}.

(** A loaded form: the [formattedData] of a partnership with the
    University of Nairobi. *)
Definition nairobi : list (string * EditPartnership.JsVal) :=
  let str := EditPartnership.VStr in
  [ ("name", str "University of Nairobi"); ("type", str "MOU");
    ("signedDate", str "2023-01-15"); ("endDate", str "2026-01-15");
    ("region", str "Africa"); ("country", str "Kenya");
    ("college", str "School of Law"); ("status", str "Active");
    ("description", str "Staff exchange");
    ("partnerInstitution",
     EditPartnership.VObj
       [("name", str "University of Nairobi"); ("website", str "uonbi.ac.ke");
        ("address", str "Nairobi"); ("country", str "Kenya")]);
    ("aauContact",
     EditPartnership.VObj
       [("name", str "Abebe"); ("email", str "abebe@aau.edu.et");
        ("phone", str "0911"); ("title", str "Dr"); ("address", str "Addis Ababa")]);
    ("partnerContactPerson",
     EditPartnership.VObj
       [("name", str "Wanjiru"); ("email", str "wanjiru@uonbi.ac.ke");
        ("phone", str "0722"); ("title", str "Prof"); ("address", str "Nairobi")]);
    ("potentialStartDate", str "2023-02-01") ].

(** The page after the sample form was loaded, a save of an edited region
    was rejected, and the region was typed back to what it was. *)
Definition afterFailedSave : EditPartnership.State :=
  {| EditPartnership.loading := false;
     EditPartnership.submitting := false;
     EditPartnership.error := Some (EditPartnership.Text "Network Error");
     EditPartnership.originalData := EditPartnership.VObj nairobi;
     EditPartnership.formData := nairobi |}.

End Sample.


(** ** Bounded checks *)

(** [P] holds of the [n] integers from [z] on. *)
Fixpoint allFrom (n : nat) (z : Z) (P : Z -> bool) : bool :=
  match n with
  | O => true
  | S n' => P z && allFrom n' (z + 1) P
  end.

(** The civil date of day [z] is a date (month in 1..12, day in 1..31)
    whose day number is [z]. *)
Definition civilRoundTrip (z : Z) : bool :=
  let '(y, m, d) := civilFromDays z in
  (daysFromCivil y m d =? z) && (1 <=? m) && (m <=? 12) && (1 <=? d) && (d <=? 31).

(** For the month [i mod 12] of the year [i / 12]: the month before it has
    28 to 31 days and the twelve months before it 365 or 366. *)
Definition monthSteps (i : Z) : bool :=
  let y := i / 12 in
  let m := i mod 12 in
  let first := MakeDay y m 1 in
  (28 <=? first - MakeDay y (m - 1) 1) && (first - MakeDay y (m - 1) 1 <=? 31)
  && (365 <=? first - MakeDay (y - 1) m 1) && (first - MakeDay (y - 1) m 1 <=? 366).

(** Moving a year [k] eras on moves its era by [k] and leaves its place in
    the era. *)
Definition daysFromCivil_from (y k : Z) : Prop :=
  (y + k * 400) / 400 = y / 400 + k /\
  y + k * 400 - (y / 400 + k) * 400 = y - y / 400 * 400.

(** ** Vocabulary of the further statements *)

(** Every code unit of the string lies in the ASCII range, the strings on
    which [toLowerCase], [toUpperCase] and [trim] are the built-ins. *)
Fixpoint isAscii (s : string) : bool :=
  match s with
  | EmptyString => true
  | String c s' => (N_of_ascii c <? 128)%N && isAscii s'
  end.

Module DashboardTerms.
Import Dashboard DashboardSpec.

(** The records that pass the time window of [processChartData]. *)
Definition windowed (clock : Z) (timeFilter : string) (partnerships : list Partnership)
  : list Partnership :=
  filter (fun p => createdSince (timeWindow timeFilter clock).2 p = true) partnerships.

(** The sum of the counts an object holds. *)
Definition sumCounts (counts : gmap string nat) : nat :=
  map_fold (fun _ n total => (n + total)%nat) 0%nat counts.

(** The record is "Active" and has a valid expiration date no later than
    [limit]. *)
Definition expiresBy (limit : Z) (p : Partnership) : bool :=
  bool_decide (status p = Some "Active")
  && match expirationDate p with
     | Some (Time t) => t <=? limit
     | _ => false
     end.

(** The counter of a college, status and month, read as 0 when absent. *)
Definition slotOr0 (data : gmap string (gmap string (list Z)))
    (college derived : string) (i : nat) : Z :=
  default 0 (slot data college derived i).

(** No counter is negative. *)
Definition counters_nonneg (data : gmap string (gmap string (list Z))) : Prop :=
  forall c s i n, slot data c s i = Some n -> 0 <= n.

(** The counters of the named colleges added up. *)
Definition sumNamed (data : gmap string (gmap string (list Z)))
    (derived : string) (i : nat) : Z :=
  foldr (fun college total => slotOr0 data college derived i + total) 0 namedColleges.

(** [processLineData] passes over the record without touching a counter:
    it lacks a creation date or a college, its creation date is invalid or
    falls outside the twelve months that end with the current one, or its
    college is not the one the filter names. *)
Definition passedOver (clock : Z) (collegeFilter : string) (p : Partnership) : bool :=
  match createdAt p, collegeOf p with
  | Some created, Some (String c0 cs) =>
      match monthIndexOf clock created with
      | Some monthIndex =>
          negb ((0 <=? monthIndex) && (monthIndex <? 12))
          || negb (String.eqb collegeFilter "All Colleges"
                   || String.eqb (String c0 cs) collegeFilter)
      | None => true
      end
  | _, _ => true
  end.

(** The records that pass both filters of [processHeatmapData]. *)
Definition mapped (clock : Z) (timeFilter collegeFilter : string)
    (partnerships : list Partnership) : list Partnership :=
  filter (fun p => createdSince (timeWindow timeFilter clock).2 p = true
                   /\ (collegeFilter = "All Colleges"
                       \/ collegeOf p = Some collegeFilter))
         partnerships.

End DashboardTerms.

(** The evaluation ends normally. *)
Definition completes {A} (c : Completion A) : bool :=
  match c with
  | Normal _ => true
  | _ => false
  end.

(** ** The distribution chart *)

Module Pie.
Import Dashboard DashboardSpec.

(** [o[k] = v] on an object kept as the list of its properties in
    insertion order, which is the order of [Object.keys] and
    [Object.values] for names that are not array indices. *)
Fixpoint assign {V} (k : string) (v : V) (o : list (string * V)) : list (string * V) :=
  match o with
  | [] => [(k, v)]
  | (k', v') :: rest =>
      if String.eqb k' k then (k, v) :: rest else (k', v') :: assign k v rest
  end.

Record PieData := {
  labels : list string;
  data : list nat;
  backgroundColor : list string
}.

(** [partnerships.filter((p) => p.aauContact?.interestedCollegeOrDepartment
    === college).length] *)
Definition countCollege (partnerships : list Partnership) (college : string) : nat :=
  length (filter (fun p => collegeOf p = Some college) partnerships).

Definition processPieData (partnerships : list Partnership) : PieData :=
  let collegeCounts :=
    foldl (fun (acc : list (string * nat)) college =>
             if negb (String.eqb college "All Colleges") then
               let count := countCollege partnerships college in
               if (0 <? count)%nat then assign college count acc else acc
             else acc)
          [] colleges in
  {| labels := map fst collegeCounts;
     data := map snd collegeCounts;
     backgroundColor :=
       [ "#1F2A44"; "#3B82F6"; "#93C5FD"; "#D1D5DB";
         "#A855F7"; "#F59E0B"; "#10B981"; "#F472B6" ] |}.

(** The record's college is one of [names]. *)
Definition collegeIn (names : list string) (p : Partnership) : bool :=
  match collegeOf p with
  | Some college => bool_decide (college ∈ names)
  | None => false
  end.

End Pie.

(** ** Vocabulary for the edit form *)

Module EditTerms.
Import EditPartnership.

(** The value an input named [name] shows: [formData[name]], or
    [formData[section][field]] for a dotted name, of which [handleChange]
    uses the first two parts. *)
Definition fieldOf (name : string) (form : list (string * JsVal)) : option JsVal :=
  if includesDot name then
    match splitDot name with
    | section :: field :: _ =>
        match ownProp form section with
        | Some (VObj fields) => ownProp fields field
        | _ => None
        end
    | _ => None
    end
  else ownProp form name.

(** The object [{name: value}], or [{section: {field: value}}] for a
    dotted name. *)
Definition patch (name value : string) : list (string * JsVal) :=
  if includesDot name then
    match splitDot name with
    | section :: field :: _ => [(section, VObj [(field, VStr value)])]
    | _ => []
    end
  else [(name, VStr value)].

(** The name avoids the property names with a meaning of their own: it is
    not [__proto__], and for a dotted name the section is neither empty nor
    a name inherited from [Object.prototype] and the field is not
    [__proto__]. *)
Definition plain (name : string) : bool :=
  if includesDot name then
    match splitDot name with
    | section :: field :: _ =>
        truthy (Some section) && negb (isPrototypeKey section)
        && negb (String.eqb field "__proto__")
    | _ => false
    end
  else negb (String.eqb name "__proto__").

(** The inputs [name] and [other] show different values of the form: they
    differ in the top-level property they read, or they read different
    fields of the same section. *)
Definition apart (name other : string) : bool :=
  let key n := if includesDot n then hd "" (splitDot n) else n in
  let field n := if includesDot n then nth 1 (splitDot n) "" else "" in
  negb (String.eqb (key name) (key other))
  || (includesDot name && includesDot other
      && negb (String.eqb (field name) (field other))).

(** The requests among the effects. *)
Definition requests (effects : list Effect) : list (string * list (string * JsVal)) :=
  omap (fun e => match e with
                 | UpdatePartnership id payload => Some (id, payload)
                 | _ => None
                 end) effects.

(** The toasts among the effects. *)
Definition toasts (effects : list Effect) : list (ToastKind * string) :=
  omap (fun e => match e with
                 | Toast kind message => Some (kind, message)
                 | _ => None
                 end) effects.

End EditTerms.

(** ** The reset-password screen *)

Module ResetPassword.

Record State := {
  email : string;
  newPassword : string;
  confirmPassword : string;
  loading : bool
}.

Definition setLoading (b : bool) (st : State) : State :=
  {| email := email st; newPassword := newPassword st;
     confirmPassword := confirmPassword st; loading := b |}.

Inductive Effect : Type :=
| ToastError (message : string)
| ToastSuccess (message : string)
| ResetPasswordRequest (email newPassword confirmPassword : string)
| Navigate (to : string).

(** How [resetPassword] settles.  [serverError] is
    [error.response.data.error] when [error.response], its [data] and
    that property are all there. *)
Inductive Settled : Type :=
| Resolved
| Rejected (serverError : option string).

(** [handleSubmit]; [answer] is how the request settles if it is sent.
    [length] counts code units, as [String.length] does on the strings of
    the embedding. *)
Definition handleSubmit (answer : Settled) (st : State) : State * list Effect :=
  if negb (truthy (Some (email st))) || negb (truthy (Some (newPassword st)))
     || negb (truthy (Some (confirmPassword st)))
  then (st, [ToastError "All fields are required"])
  else if (String.length (newPassword st) <? 8)%nat
          || (12 <? String.length (newPassword st))%nat
  then (st, [ToastError "Password must be 8-12 characters"])
  else if negb (String.eqb (newPassword st) (confirmPassword st))
  then (st, [ToastError "Passwords do not match"])
  else
    let st := setLoading true st in
    let request :=
      ResetPasswordRequest (email st) (newPassword st) (confirmPassword st) in
    match answer with
    | Resolved =>
        (setLoading false st,
         [request; ToastSuccess "Password reset successfully. Please login.";
          Navigate "/"])
    | Rejected serverError =>
        (setLoading false st,
         [request;
          ToastError (if truthy serverError then default "" serverError
                      else "Failed to reset password")])
    end.

(** The requests and the toasts among the effects. *)
Definition requests (effects : list Effect) : list (string * string * string) :=
  omap (fun e => match e with
                 | ResetPasswordRequest e n c => Some (e, n, c)
                 | _ => None
                 end) effects.

Definition toasts (effects : list Effect) : list string :=
  omap (fun e => match e with
                 | ToastError m | ToastSuccess m => Some m
                 | _ => None
                 end) effects.

End ResetPassword.
(** * Properties *)

(** ** Status derivation *)

Lemma expiresWithin30Days_spec (expiration : Date) (now : Z) :
  expiresWithin30Days expiration now = true <-> within30Days expiration now.
Proof.
  unfold expiresWithin30Days, within30Days, msPerDay. destruct expiration as [t|].
  - rewrite Z.leb_le. split.
    + intros H. exists t. split; [reflexivity | lia].
    + intros (t' & [= <-] & H). lia.
  - split; [discriminate | intros (t & H & _); discriminate].
Qed.

(** What the code computes, case by case. *)
Lemma derivedStatus_active_case now p expiration :
  expirationDate p = Some expiration -> status p = Some "Active" ->
  derivedStatus now p
  = if expiresWithin30Days expiration now then "expiringSoon" else "active".
Proof. intros He Hs. unfold derivedStatus. rewrite He, Hs. reflexivity. Qed.

Lemma derivedStatus_other_case now p :
  ~ activeWithExpiration p ->
  derivedStatus now p
  = match status p with
    | Some (String c s) =>
        if String.eqb (toLowerCase (String c s)) "rejected" then "expired"
        else if String.eqb (toLowerCase (String c s)) "pending" then "prospect"
        else toLowerCase (String c s)
    | _ => "prospect"
    end.
Proof.
  intros Hnot. unfold derivedStatus.
  assert (Hguard : isPresent (expirationDate p) && bool_decide (status p = Some "Active")
                   = false).
  { apply not_true_is_false. intros H. apply andb_prop in H as [Hp Ha].
    apply Hnot. split.
    - destruct (expirationDate p) as [e|]; [eauto | discriminate].
    - apply bool_decide_eq_true in Ha. exact Ha. }
  rewrite Hguard. destruct (status p) as [[|c s]|]; reflexivity.
Qed.

(** C1: the status derivation used by both aggregators produces exactly
    one derived status for every record and clock reading, the one the
    precedence rule gives: "expiringSoon" or "active" for an "Active"
    record with an expiration date, else "expired" for a rejected record,
    else "prospect" for a pending record or a missing status, and else the
    lowercased status. *)
Theorem derivedStatus_precedence (now : Z) (p : Partnership) :
  DerivedStatus now p (derivedStatus now p) /\
  forall s, DerivedStatus now p s -> s = derivedStatus now p.
Proof.
  split.
  - destruct (expirationDate p) as [expiration|] eqn:He;
      [destruct (decide (status p = Some "Active")) as [Hs|Hs]|].
    + rewrite (derivedStatus_active_case _ _ _ He Hs).
      destruct (expiresWithin30Days expiration now) eqn:Hw.
      * eapply derive_expiringSoon; eauto. by apply expiresWithin30Days_spec.
      * eapply derive_active; eauto. rewrite <- expiresWithin30Days_spec. congruence.
    + assert (Hnot : ~ activeWithExpiration p) by (intros [_ H]; tauto).
      rewrite (derivedStatus_other_case _ _ Hnot).
      destruct (status p) as [[|c s]|] eqn:Hst.
      * apply derive_prospect_missing; [exact Hnot | by right].
      * destruct (String.eqb_spec (toLowerCase (String c s)) "rejected") as [Hr|Hr];
          [eapply derive_expired; eauto|].
        destruct (String.eqb_spec (toLowerCase (String c s)) "pending") as [Hp|Hp];
          [eapply derive_prospect_pending; eauto|].
        eapply derive_literal; eauto. intros [H|H]; rewrite Hst in H; discriminate.
      * apply derive_prospect_missing; [exact Hnot | by left].
    + assert (Hnot : ~ activeWithExpiration p) by (intros [[e H] _]; congruence).
      rewrite (derivedStatus_other_case _ _ Hnot).
      destruct (status p) as [[|c s]|] eqn:Hst.
      * apply derive_prospect_missing; [exact Hnot | by right].
      * destruct (String.eqb_spec (toLowerCase (String c s)) "rejected") as [Hr|Hr];
          [eapply derive_expired; eauto|].
        destruct (String.eqb_spec (toLowerCase (String c s)) "pending") as [Hp|Hp];
          [eapply derive_prospect_pending; eauto|].
        eapply derive_literal; eauto. intros [H|H]; rewrite Hst in H; discriminate.
      * apply derive_prospect_missing; [exact Hnot | by left].
  - intros s Hs. destruct Hs as [e He Hst Hw | e He Hst Hw | s Hnot Hst Hr
                                 | s Hnot Hst Hp | Hnot Hmiss | s Hnot Hst Hmiss Hr Hp].
    + rewrite (derivedStatus_active_case _ _ _ He Hst).
      apply expiresWithin30Days_spec in Hw. rewrite Hw. reflexivity.
    + rewrite (derivedStatus_active_case _ _ _ He Hst).
      destruct (expiresWithin30Days e now) eqn:Hb; [|reflexivity].
      exfalso. apply Hw. by apply expiresWithin30Days_spec.
    + rewrite (derivedStatus_other_case _ _ Hnot), Hst.
      destruct s as [|c s]; [discriminate|]. rewrite Hr. reflexivity.
    + rewrite (derivedStatus_other_case _ _ Hnot), Hst.
      destruct s as [|c s]; [discriminate|]. rewrite Hp. reflexivity.
    + rewrite (derivedStatus_other_case _ _ Hnot).
      destruct Hmiss as [-> | ->]; reflexivity.
    + rewrite (derivedStatus_other_case _ _ Hnot), Hst.
      destruct s as [|c s]; [exfalso; apply Hmiss; right; exact Hst|].
      apply String.eqb_neq in Hr, Hp. rewrite Hr, Hp. reflexivity.
Qed.

(** ** Tactics *)

(** Closes a decidable goal without variables by evaluating its decision
    procedure. *)
Ltac decide_by_compute := apply (bool_decide_unpack _); vm_compute; exact I.

(** ** Calendar *)

(** The calendar at known dates: the epoch, the leap day of 2000, the last
    day of 1969 and the sample clock reading. *)
Lemma civilFromDays_known :
  civilFromDays 0 = (1970, 1, 1) /\
  civilFromDays 11016 = (2000, 2, 29) /\
  civilFromDays (-1) = (1969, 12, 31) /\
  civilFromDays (Day Sample.clock) = (2023, 11, 14).
Proof. vm_compute. repeat split. Qed.

(** [daysFromCivil] inverts [civilFromDays] on every day of the hundred
    years from the epoch. *)
Lemma daysFromCivil_civilFromDays_range :
  Z.iter 36525
    (fun acc : Z * bool =>
       let '(y, m, d) := civilFromDays acc.1 in
       (acc.1 + 1, acc.2 && (daysFromCivil y m d =? acc.1)))
    (0, true)
  = (36525, true).
Proof. vm_compute. reflexivity. Qed.

(** Going back a week, a month and a year from the sample clock reading. *)
Lemma timeWindow_sample :
  Dashboard.timeWindow "Weekly" Sample.clock
  = (Sample.clock - Sample.days 7, Sample.clock - Sample.days 7) /\
  Dashboard.timeWindow "Monthly" Sample.clock
  = (Sample.clock - Sample.days 31, Sample.clock - Sample.days 31) /\
  Dashboard.timeWindow "Yearly" Sample.clock
  = (Sample.clock - Sample.days 365, Sample.clock - Sample.days 365) /\
  Dashboard.timeWindow "All Times" Sample.clock = (Sample.clock, 0).
Proof. vm_compute. repeat split. Qed.

(** ** Loops *)

Lemma forEach_app {A S} (f : S -> A -> Completion S) (l1 l2 : list A) (s : S) :
  forEach f (l1 ++ l2) s = s' ← forEach f l1 s; forEach f l2 s'.
Proof.
  revert s. induction l1 as [|x l1 IH]; intros s; simpl; [reflexivity|].
  destruct (f s x) as [s1| |]; simpl; [apply IH | reflexivity | reflexivity].
Qed.

(** A property of the accumulator that every normally completing step
    keeps holds at the end of a normally completing loop. *)
Lemma forEach_invariant {A S} (f : S -> A -> Completion S) (P : S -> Prop) :
  (forall s x s', P s -> f s x = Normal s' -> P s') ->
  forall l s s', P s -> forEach f l s = Normal s' -> P s'.
Proof.
  intros Hstep l. induction l as [|x l IH]; intros s s' Hs Hrun; simpl in Hrun.
  - congruence.
  - destruct (f s x) as [s1| |] eqn:Hfx; simpl in Hrun; try discriminate.
    eapply IH; [|exact Hrun]. eapply Hstep; eauto.
Qed.

(** ** Monthly time series *)

Module LineData.
Import Dashboard DashboardSpec.

(** The [reduce] over the college names leaves [series] under each name
    but the sentinel, and the rest of the accumulator as it was. *)
Lemma lookup_reduce_colleges {V} (series : V) (names : list string)
    (acc : gmap string V) (k : string) :
  foldl (fun acc college =>
           if String.eqb college "All Colleges" then acc
           else <[college := series]> acc) acc names !! k
  = if decide (k ∈ names /\ k <> "All Colleges") then Some series else acc !! k.
Proof.
  revert acc. induction names as [|c names IH]; intros acc; cbn [foldl].
  - rewrite decide_False; [reflexivity|]. intros [H _]. inversion H.
  - rewrite IH. destruct (decide (k ∈ names /\ k <> "All Colleges")) as [[Hk Hne]|Hk].
    + rewrite decide_True; [reflexivity|]. split; [by right | exact Hne].
    + destruct (String.eqb_spec c "All Colleges") as [->|Hc].
      * rewrite decide_False; [reflexivity|].
        intros [Hin Hne]. apply elem_of_cons in Hin as [->|Hin]; tauto.
      * rewrite lookup_insert. destruct (decide (c = k)) as [->|Hck].
        -- rewrite decide_True; [reflexivity|]. split; [by left | exact Hc].
        -- rewrite decide_False; [reflexivity|].
           intros [Hin Hne]. apply elem_of_cons in Hin as [->|Hin]; tauto.
Qed.

Lemma lineDataByCollege_lookup (k : string) :
  lineDataByCollege !! k = if decide (k ∈ colleges) then Some emptySeries else None.
Proof.
  unfold lineDataByCollege. rewrite lookup_reduce_colleges.
  destruct (decide (k ∈ colleges /\ k <> "All Colleges")) as [[Hk Hne]|Hk].
  - rewrite decide_True by exact Hk. reflexivity.
  - rewrite lookup_insert. destruct (decide ("All Colleges" = k)) as [<-|Hne].
    + rewrite decide_True by left. reflexivity.
    + rewrite lookup_empty, decide_False; [reflexivity|]. intros Hin. apply Hk.
      split; [exact Hin | congruence].
Qed.

Lemma emptySeries_lookup (s : string) :
  emptySeries !! s = if decide (s ∈ buckets) then Some zeros12 else None.
Proof.
  unfold emptySeries, buckets.
  repeat (rewrite lookup_insert; destruct (decide (_ = s)) as [<-|?];
          [rewrite decide_True by (apply (bool_decide_unpack _); vm_compute; exact I);
           reflexivity|]).
  rewrite lookup_empty, decide_False; [reflexivity|].
  intros Hin. repeat (apply elem_of_cons in Hin as [->|Hin]; [congruence|]).
  inversion Hin.
Qed.

Lemma lineDataByCollege_shaped : shaped lineDataByCollege.
Proof.
  intros c. rewrite lineDataByCollege_lookup.
  case_decide as Hc; [|exact Hc]. split; [exact Hc|].
  intros s. rewrite emptySeries_lookup.
  case_decide as Hs; [|exact Hs]. split; [exact Hs | reflexivity].
Qed.

Lemma increment_Normal data college derived i series slots :
  data !! college = Some series ->
  series !! derived = Some slots ->
  increment data college derived i
  = Normal (<[college := <[derived := alter Z.succ i slots]> series]> data).
Proof. intros Hc Hs. unfold increment, getProp. rewrite Hc, Hs. reflexivity. Qed.

(** A normally completing increment found its slots. *)
Lemma increment_inv data college derived i data' :
  increment data college derived i = Normal data' ->
  exists series slots,
    data !! college = Some series /\ series !! derived = Some slots /\
    data' = <[college := <[derived := alter Z.succ i slots]> series]> data.
Proof.
  unfold increment, getProp. intros H.
  destruct (data !! college) as [series|] eqn:Hc;
    [|destruct (isPrototypeKey college); discriminate].
  destruct (series !! derived) as [slots|] eqn:Hs;
    [|destruct (isPrototypeKey derived); discriminate].
  inversion H. eauto.
Qed.

Lemma increment_shaped data college derived i data' :
  shaped data -> increment data college derived i = Normal data' -> shaped data'.
Proof.
  intros Hsh Hinc. apply increment_inv in Hinc as (series & slots & Hc & Hs & ->).
  intros c. rewrite lookup_insert. case_decide as Hcc.
  - subst c. pose proof (Hsh college) as Hcol. rewrite Hc in Hcol.
    destruct Hcol as [Hin Hser]. split; [exact Hin|].
    intros s. rewrite lookup_insert. case_decide as Hss.
    + subst s. pose proof (Hser derived) as Hd. rewrite Hs in Hd.
      destruct Hd as [Hb Hlen]. split; [exact Hb|]. by rewrite length_alter.
    + apply Hser.
  - apply Hsh.
Qed.

Lemma visit_shaped now collegeFilter data p data' :
  shaped data -> visit now collegeFilter data p = Normal data' -> shaped data'.
Proof.
  intros Hsh. unfold visit.
  assert (Hskip : Normal data = Normal data' -> shaped data')
    by (intros H; injection H as <-; exact Hsh).
  destruct (createdAt p) as [created|]; [|exact Hskip].
  destruct (collegeOf p) as [[|c0 cs]|]; [exact Hskip| |exact Hskip].
  destruct (monthIndexOf now created) as [mi|]; [|exact Hskip].
  destruct ((0 <=? mi) && (mi <? 12)); [|exact Hskip].
  destruct (_ || _); [|exact Hskip].
  destruct (increment data _ _ _) as [d1| |] eqn:H1; simpl; try discriminate.
  intros H2. eapply increment_shaped; [|exact H2]. eapply increment_shaped; eauto.
Qed.

Lemma processLineData_shaped clock collegeFilter partnerships data :
  processLineData clock collegeFilter partnerships = Normal data -> shaped data.
Proof.
  unfold processLineData.
  apply (forEach_invariant (visit clock collegeFilter) shaped).
  - intros s x s' Hs Hv. eapply visit_shaped; eauto.
  - apply lineDataByCollege_shaped.
Qed.

Lemma namedColleges_spec (college : string) :
  college ∈ namedColleges ->
  college ∈ colleges /\ college <> "All Colleges" /\ college <> "".
Proof.
  intros Hin. split; [by right|].
  split; intros ->; revert Hin;
    apply (bool_decide_eq_false_1 (_ ∈ namedColleges)); vm_compute; reflexivity.
Qed.

Lemma slot_increment data college derived i series slots c s j :
  data !! college = Some series ->
  series !! derived = Some slots ->
  slot (<[college := <[derived := alter Z.succ i slots]> series]> data) c s j
  = if decide (c = college /\ s = derived /\ j = i)
    then Z.succ <$> slot data c s j else slot data c s j.
Proof.
  intros Hc Hs. unfold slot. rewrite lookup_insert.
  destruct (decide (college = c)) as [->|Hcc]; simpl.
  - rewrite Hc; simpl. rewrite lookup_insert.
    destruct (decide (derived = s)) as [->|Hss]; simpl.
    + rewrite Hs; simpl. rewrite list_lookup_alter.
      destruct (decide (i = j)) as [->|Hij].
      * rewrite decide_True by done. reflexivity.
      * rewrite decide_False by (intros (_ & _ & ->); done). reflexivity.
    + rewrite decide_False by (intros (_ & -> & _); done). reflexivity.
  - rewrite decide_False by (intros (-> & _ & _); done). reflexivity.
Qed.

(** On a shaped accumulator the counter of a listed college and a bucket
    exists for every month. *)
Lemma shaped_slot data college derived :
  shaped data -> college ∈ colleges -> derived ∈ buckets ->
  exists series slots,
    data !! college = Some series /\ series !! derived = Some slots /\
    length slots = 12%nat.
Proof.
  intros Hsh Hc Hs. pose proof (Hsh college) as H.
  destruct (data !! college) as [series|] eqn:Ec; [|tauto].
  destruct H as [_ H]. specialize (H derived).
  destruct (series !! derived) as [slots|] eqn:Es; [|tauto].
  destruct H as [_ Hlen]. exists series, slots. auto.
Qed.

(** What visiting one more record does once the records before it have
    been visited. *)
Lemma processLineData_snoc clock collegeFilter partnerships p :
  processLineData clock collegeFilter (partnerships ++ [p])
  = data ← processLineData clock collegeFilter partnerships;
    visit clock collegeFilter data p.
Proof.
  unfold processLineData. rewrite forEach_app.
  destruct (forEach _ partnerships _) as [d| |]; simpl; [|reflexivity|reflexivity].
  destruct (visit clock collegeFilter d p); reflexivity.
Qed.

(** C3 (amended): once the records before it have been visited, a record
    with a valid creation date, one of the eight named colleges, a derived
    status among the four buckets and a college that passes the filter (a)
    adds one to month 11 of that status in its own college's series and in
    the "All Colleges" series, and touches no other counter, when it was
    created in the current calendar month, and (b) gets month index -1 and
    leaves every series as it was when it was created twelve calendar
    months before the current month. *)
Theorem processLineData_current_month_and_boundary
    (clock : Z) (collegeFilter : string) (partnerships : list Partnership)
    (p : Partnership) (created : Z) (college : string)
    (data : gmap string (gmap string (list Z))) :
  processLineData clock collegeFilter partnerships = Normal data ->
  createdAt p = Some (Time created) ->
  collegeOf p = Some college ->
  college ∈ namedColleges ->
  derivedStatus clock p ∈ buckets ->
  collegeFilter = "All Colleges" \/ college = collegeFilter ->
  (YearFromTime created = YearFromTime clock ->
   MonthFromTime created = MonthFromTime clock ->
   exists data' n m,
     processLineData clock collegeFilter (partnerships ++ [p]) = Normal data' /\
     slot data college (derivedStatus clock p) 11 = Some n /\
     slot data' college (derivedStatus clock p) 11 = Some (n + 1) /\
     slot data "All Colleges" (derivedStatus clock p) 11 = Some m /\
     slot data' "All Colleges" (derivedStatus clock p) 11 = Some (m + 1) /\
     forall c s i,
       ~ (c = college /\ s = derivedStatus clock p /\ i = 11%nat) ->
       ~ (c = "All Colleges" /\ s = derivedStatus clock p /\ i = 11%nat) ->
       slot data' c s i = slot data c s i)
  /\
  ((YearFromTime created - YearFromTime clock) * 12
     + MonthFromTime created - MonthFromTime clock = -12 ->
   monthIndexOf clock (Time created) = Some (-1) /\
   processLineData clock collegeFilter (partnerships ++ [p]) = Normal data).
Proof.
  intros Hrun Hcreated Hcollege Hnamed Hbucket Hfilter.
  pose proof (processLineData_shaped _ _ _ _ Hrun) as Hsh.
  destruct (namedColleges_spec _ Hnamed) as (Hin & HnotAll & Hnonempty).
  rewrite processLineData_snoc, Hrun. simpl.
  unfold visit. rewrite Hcreated, Hcollege.
  destruct college as [|c0 cs]; [congruence|].
  set (college := String c0 cs) in *.
  set (derived := derivedStatus clock p) in *.
  unfold monthIndexOf. split.
  - intros Hy Hm. rewrite Hy, Hm.
    replace ((YearFromTime clock - YearFromTime clock) * 12 + MonthFromTime clock
             - (MonthFromTime clock - 11)) with 11 by lia.
    change ((0 <=? 11) && (11 <? 12)) with true. cbv iota.
    change (Z.to_nat 11) with 11%nat.
    assert (Hpass : String.eqb collegeFilter "All Colleges"
                    || String.eqb college collegeFilter = true).
    { destruct Hfilter as [->| <-].
      - reflexivity.
      - rewrite String.eqb_refl. apply orb_true_r. }
    rewrite Hpass.
    destruct (shaped_slot data college derived Hsh Hin Hbucket)
      as (series & slots & Hc & Hs & Hlen).
    rewrite (increment_Normal _ _ _ _ _ _ Hc Hs). simpl.
    set (data1 := <[college := _]> data).
    assert (Hsh1 : shaped data1).
    { eapply increment_shaped; [exact Hsh|].
      apply (increment_Normal _ _ _ 11%nat _ _ Hc Hs). }
    assert (HinAll : "All Colleges" ∈ colleges) by left.
    destruct (shaped_slot data1 "All Colleges" derived Hsh1 HinAll Hbucket)
      as (seriesA & slotsA & HcA & HsA & HlenA).
    rewrite (increment_Normal _ _ _ _ _ _ HcA HsA).
    assert (Hslot1 : forall c s i,
               slot data1 c s i
               = if decide (c = college /\ s = derived /\ i = 11%nat)
                 then Z.succ <$> slot data c s i else slot data c s i)
      by (intros; apply (slot_increment _ _ _ _ _ _ _ _ _ Hc Hs)).
    assert (Hslot2 := fun c s i => slot_increment _ _ _ 11%nat _ _ c s i HcA HsA).
    destruct (lookup_lt_is_Some_2 slots 11) as [n Hn]; [lia|].
    assert (Hslot0 : slot data college derived 11 = Some n)
      by (unfold slot; rewrite Hc; simpl; rewrite Hs; exact Hn).
    assert (HcA0 : data !! "All Colleges" = Some seriesA)
      by (unfold data1 in HcA; rewrite lookup_insert_ne in HcA by done; exact HcA).
    destruct (lookup_lt_is_Some_2 slotsA 11) as [m Hm']; [lia|].
    assert (HslotA0 : slot data "All Colleges" derived 11 = Some m)
      by (unfold slot; rewrite HcA0; simpl; rewrite HsA; exact Hm').
    eexists _, n, m. split; [reflexivity|].
    split; [exact Hslot0|].
    split.
    { rewrite Hslot2, decide_False by (intros (E & _ & _); congruence).
      rewrite Hslot1, decide_True by done. rewrite Hslot0. reflexivity. }
    split; [exact HslotA0|].
    split.
    { rewrite Hslot2, decide_True by done.
      rewrite Hslot1, decide_False by (intros (E & _ & _); congruence).
      rewrite HslotA0. reflexivity. }
    intros c s i Hne1 Hne2.
    rewrite Hslot2, decide_False by exact Hne2.
    rewrite Hslot1, decide_False by exact Hne1. reflexivity.
  - intros H12.
    replace ((YearFromTime created - YearFromTime clock) * 12 + MonthFromTime created
             - (MonthFromTime clock - 11)) with (-1) by lia.
    split; reflexivity.
Qed.

(** The theorem at [Sample.clock]: a School of Law agreement of the current
    month after a pending request of twelve months before, which itself
    changes nothing. *)
Lemma processLineData_current_month_and_boundary_witness :
  (exists data',
     processLineData Sample.clock "All Colleges"
       [Sample.pendingLastYear; Sample.expiringLaw] = Normal data' /\
     slot data' "School of Law" "expiringSoon" 11 = Some 1 /\
     slot data' "All Colleges" "expiringSoon" 11 = Some 1) /\
  processLineData Sample.clock "All Colleges" [Sample.pendingLastYear]
  = Normal lineDataByCollege.
Proof.
  assert (Hcentral : "Central" ∈ namedColleges) by decide_by_compute.
  assert (Hlaw : "School of Law" ∈ namedColleges) by decide_by_compute.
  assert (Hprospect : derivedStatus Sample.clock Sample.pendingLastYear ∈ buckets)
    by decide_by_compute.
  assert (Hexpiring : derivedStatus Sample.clock Sample.expiringLaw ∈ buckets)
    by decide_by_compute.
  destruct (processLineData_current_month_and_boundary
              Sample.clock "All Colleges" [] Sample.pendingLastYear
              (Sample.clock - Sample.days 359) "Central" lineDataByCollege
              eq_refl eq_refl eq_refl Hcentral Hprospect (or_introl eq_refl))
    as [_ Hold].
  destruct Hold as [_ Hold]; [vm_compute; reflexivity|].
  split; [|exact Hold].
  destruct (processLineData_current_month_and_boundary
              Sample.clock "All Colleges" [Sample.pendingLastYear] Sample.expiringLaw
              Sample.clock "School of Law" lineDataByCollege
              Hold eq_refl eq_refl Hlaw Hexpiring (or_introl eq_refl))
    as [Hnew _].
  destruct Hnew as (data' & n & m & Hrun & Hn & Hn' & Hm & Hm' & _);
    [reflexivity | reflexivity |].
  exists data'. split; [exact Hrun|].
  vm_compute in Hn. injection Hn as <-.
  vm_compute in Hm. injection Hm as <-.
  split; assumption.
Defined.

(** C3, as stated, fails: with the filter on "All Colleges", a record of the
    current month whose department is not one of [colleges] has both
    fields present, yet no series is incremented: the aggregator throws. *)
Lemma processLineData_unlisted_college_counterexample :
  createdAt Sample.pendingPhysics = Some (Time Sample.clock) /\
  collegeOf Sample.pendingPhysics = Some "Department of Physics" /\
  monthIndexOf Sample.clock (Time Sample.clock) = Some 11 /\
  processLineData Sample.clock "All Colleges" [Sample.pendingPhysics] = ThrowTypeError.
Proof. vm_compute. repeat split. Qed.

(** C9: with the filter on "All Colleges", a record created inside the
    twelve-month window whose department is present but is no key of
    [lineDataByCollege] indexes an undefined entry: whenever the records
    before it are visited normally, the aggregator throws a TypeError at
    that record, whatever follows it. *)
Theorem processLineData_unlisted_college_throws
    (clock : Z) (partnerships rest : list Partnership) (p : Partnership)
    (created monthIndex : Z) (college : string)
    (data : gmap string (gmap string (list Z))) :
  processLineData clock "All Colleges" partnerships = Normal data ->
  createdAt p = Some (Time created) ->
  monthIndexOf clock (Time created) = Some monthIndex ->
  0 <= monthIndex < 12 ->
  collegeOf p = Some college ->
  college <> "" ->
  college ∉ colleges ->
  isPrototypeKey college = false ->
  getProp lineDataByCollege college = Undefined /\
  processLineData clock "All Colleges" (partnerships ++ p :: rest) = ThrowTypeError.
Proof.
  intros Hrun Hcreated Hindex Hrange Hcollege Hnonempty Hunlisted Hproto.
  pose proof (processLineData_shaped _ _ _ _ Hrun) as Hsh.
  assert (Hundef : forall d, shaped d -> getProp d college = Undefined).
  { intros d Hd. unfold getProp. specialize (Hd college).
    destruct (d !! college); [tauto|]. rewrite Hproto. reflexivity. }
  split; [apply Hundef, lineDataByCollege_shaped|].
  assert (Hvisit : visit clock "All Colleges" data p = ThrowTypeError).
  { unfold visit. rewrite Hcreated, Hcollege.
    destruct college as [|c0 cs]; [congruence|].
    rewrite Hindex.
    replace ((0 <=? monthIndex) && (monthIndex <? 12)) with true
      by (symmetry; apply andb_true_intro; split; [apply Z.leb_le|apply Z.ltb_lt]; lia).
    rewrite String.eqb_refl. cbn [orb].
    assert (Hinc : forall derived i,
               increment data (String c0 cs) derived i = ThrowTypeError)
      by (intros; unfold increment; rewrite (Hundef data Hsh); reflexivity).
    rewrite Hinc. reflexivity. }
  unfold processLineData in *. rewrite forEach_app, Hrun.
  cbn [mbind Completion_bind cbind forEach]. rewrite Hvisit. reflexivity.
Qed.

(** The theorem at [Sample.clock]: the School of Music record, met first
    and followed by two records of listed colleges. *)
Lemma processLineData_unlisted_college_throws_witness :
  processLineData Sample.clock "All Colleges"
    [Sample.rejectedMusic; Sample.expiringLaw; Sample.pendingLastYear]
  = ThrowTypeError.
Proof.
  assert (Hunlisted : "School of Music" ∉ colleges) by decide_by_compute.
  assert (Hrange : 0 <= 10 < 12) by lia.
  assert (Hnonempty : "School of Music" <> "") by discriminate.
  assert (Hindex : monthIndexOf Sample.clock (Time (Sample.clock - Sample.days 30))
                   = Some 10) by (vm_compute; reflexivity).
  destruct (processLineData_unlisted_college_throws
              Sample.clock [] [Sample.expiringLaw; Sample.pendingLastYear]
              Sample.rejectedMusic (Sample.clock - Sample.days 30) 10
              "School of Music" lineDataByCollege eq_refl eq_refl Hindex Hrange eq_refl
              Hnonempty Hunlisted eq_refl)
    as [_ Hthrow].
  exact Hthrow.
Defined.

End LineData.

(** ** Status and college aggregation *)

Module ChartData.
Import Dashboard DashboardSpec.

(** Measured from the clock reading itself, ten days to expiration give
    "expiringSoon" and sixty days give "active". *)
Lemma derivedStatus_ten_days (clock : Z) (p : Partnership) :
  status p = Some "Active" ->
  expirationDate p = Some (Time (clock + 10 * msPerDay)) ->
  derivedStatus clock p = "expiringSoon".
Proof.
  intros Hs He. unfold derivedStatus. rewrite Hs, He. cbn -[Z.leb Z.mul].
  unfold expiresWithin30Days, msPerDay.
  destruct (Z.leb_spec (clock + 10 * 86400000 - clock) (30 * (1000 * 60 * 60 * 24)));
    [reflexivity | lia].
Qed.

Lemma derivedStatus_sixty_days (clock : Z) (p : Partnership) :
  status p = Some "Active" ->
  expirationDate p = Some (Time (clock + 60 * msPerDay)) ->
  derivedStatus clock p = "active".
Proof.
  intros Hs He. unfold derivedStatus. rewrite Hs, He. cbn -[Z.leb Z.mul].
  unfold expiresWithin30Days, msPerDay.
  destruct (Z.leb_spec (clock + 60 * 86400000 - clock) (30 * (1000 * 60 * 60 * 24)));
    [lia | reflexivity].
Qed.

(** Outside the three named windows the [now] object is left alone. *)
Lemma timeWindow_all_times (timeFilter : string) (clock : Z) :
  timeFilter <> "Weekly" -> timeFilter <> "Monthly" -> timeFilter <> "Yearly" ->
  timeWindow timeFilter clock = (clock, 0).
Proof.
  intros Hw Hm Hy. unfold timeWindow.
  apply String.eqb_neq in Hw, Hm, Hy. rewrite Hw, Hm, Hy. reflexivity.
Qed.

(** C2 at its failing input: an "Active" record created at the clock
    reading and expiring ten days after it.  The status derivation applied
    to the clock reading, as [processLineData] applies it, gives
    "expiringSoon"; [processChartData] under the "Monthly" and the "Yearly"
    filter counts the record as "active", because [setMonth] and
    [setFullYear] have moved its [now] back by 31 and 365 days, and counts
    it as "expiringSoon" under "Weekly" (17 days) and "All Times" only.
    The same record with sixty days left is "active" under all four. *)
Theorem processChartData_window_shifts_now :
  let chart timeFilter p :=
    processChartData Sample.clock timeFilter "All Colleges" [p] in
  derivedStatus Sample.clock Sample.expiringLaw = "expiringSoon" /\
  (counted (chart "Monthly" Sample.expiringLaw) "expiringSoon" = Some 0%nat /\
   counted (chart "Monthly" Sample.expiringLaw) "active" = Some 1%nat) /\
  (counted (chart "Yearly" Sample.expiringLaw) "expiringSoon" = Some 0%nat /\
   counted (chart "Yearly" Sample.expiringLaw) "active" = Some 1%nat) /\
  (counted (chart "Weekly" Sample.expiringLaw) "expiringSoon" = Some 1%nat /\
   counted (chart "Weekly" Sample.expiringLaw) "active" = Some 0%nat) /\
  (counted (chart "All Times" Sample.expiringLaw) "expiringSoon" = Some 1%nat /\
   counted (chart "All Times" Sample.expiringLaw) "active" = Some 0%nat) /\
  counted (chart "Weekly" Sample.activeLaw) "active" = Some 1%nat /\
  counted (chart "Monthly" Sample.activeLaw) "active" = Some 1%nat /\
  counted (chart "Yearly" Sample.activeLaw) "active" = Some 1%nat /\
  counted (chart "All Times" Sample.activeLaw) "active" = Some 1%nat.
Proof. vm_compute. repeat split. Qed.

End ChartData.

(** ** Country heat map *)

Module Heatmap.
Import Dashboard.

Lemma createdSince_undated (startDate : Z) (p : Partnership) :
  createdAt p = None -> createdSince startDate p = false.
Proof. intros H. unfold createdSince. rewrite H. reflexivity. Qed.

(** C4 (amended): a record without [createdAt] is not counted by the
    country aggregator: under every time filter and college filter the
    result is that of the list without the record. *)
Theorem processHeatmapData_skips_undated
    (clock : Z) (timeFilter collegeFilter : string)
    (before after : list Partnership) (p : Partnership) :
  createdAt p = None ->
  processHeatmapData clock timeFilter collegeFilter (before ++ p :: after)
  = processHeatmapData clock timeFilter collegeFilter (before ++ after).
Proof.
  intros Hundated. unfold processHeatmapData.
  destruct (timeWindow timeFilter clock) as [now startDate].
  rewrite !filter_app, filter_cons_False; [reflexivity|].
  rewrite (createdSince_undated _ _ Hundated). intros [H _]. discriminate.
Qed.

(** The theorem on a list of three records: the undated School of Law
    record leaves the counts of the other two. *)
Lemma processHeatmapData_skips_undated_witness :
  processHeatmapData Sample.clock "All Times" "All Colleges"
    [Sample.expiringLaw; Sample.undatedLaw; Sample.pendingLastYear]
  = processHeatmapData Sample.clock "All Times" "All Colleges"
      [Sample.expiringLaw; Sample.pendingLastYear].
Proof.
  exact (processHeatmapData_skips_undated Sample.clock "All Times" "All Colleges"
           [Sample.expiringLaw] [Sample.pendingLastYear] Sample.undatedLaw eq_refl).
Defined.

(** C4, as stated, fails: the undated School of Law record matches the
    college filter, and its country, "Ethiopia", is not counted, even with
    no time window at all. *)
Lemma processHeatmapData_undated_counterexample :
  createdAt Sample.undatedLaw = None /\
  collegeOf Sample.undatedLaw = Some "School of Law" /\
  normalizeCountryName (countryOf Sample.undatedLaw) = Normal "Ethiopia" /\
  exists r,
    processHeatmapData Sample.clock "All Times" "School of Law" [Sample.undatedLaw]
    = Normal r /\
    countryCounts r !! "Ethiopia" = None /\ countryCounts r = ∅.
Proof.
  repeat split. eexists. split; [vm_compute; reflexivity|]. split; reflexivity.
Qed.

(** *** Country names *)

Lemma upperAscii_idempotent (c : ascii) : upperAscii (upperAscii c) = upperAscii c.
Proof. destruct c as [[] [] [] [] [] [] [] []]; reflexivity. Qed.

Lemma lowerAscii_upperAscii (c : ascii) : lowerAscii (upperAscii c) = lowerAscii c.
Proof. destruct c as [[] [] [] [] [] [] [] []]; reflexivity. Qed.

Lemma isSpace_upperAscii (c : ascii) : isSpace (upperAscii c) = isSpace c.
Proof. destruct c as [[] [] [] [] [] [] [] []]; reflexivity. Qed.

Lemma capitalize_cons (c : ascii) (s : string) :
  capitalize (String c s) = String (upperAscii c) s.
Proof. reflexivity. Qed.

(** Capitalizing a name does not change the key it is looked up under. *)
Lemma key_capitalize (c : ascii) (s : string) :
  toLowerCase (trim (String (upperAscii c) s)) = toLowerCase (trim (String c s)).
Proof.
  unfold trim. cbn [trimStart]. rewrite isSpace_upperAscii.
  destruct (isSpace c) eqn:Hsp; [reflexivity|].
  cbn [trimEnd]. rewrite isSpace_upperAscii, Hsp.
  destruct (trimEnd s); cbn [toLowerCase]; rewrite lowerAscii_upperAscii; reflexivity.
Qed.

(** The values of the alias table. *)
Lemma countryMap_values (key mappedName : string) :
  countryMap !! key = Some mappedName ->
  mappedName ∈ [ "United States"; "United Kingdom"; "South Korea";
                 "Russian Federation"; "China"; "Taiwan"; "Ethiopia" ].
Proof.
  intros H. unfold countryMap in H. apply elem_of_list_to_map_2 in H.
  repeat (apply elem_of_cons in H as [[= -> ->]|H];
          [apply (bool_decide_unpack _); vm_compute; exact I|]).
  inversion H.
Qed.

(** Wherever the normalization returns, its result is a fixed point: the
    aliases map to names that normalize to themselves, and an unmapped name
    keeps its key when its first letter is capitalized. *)
Lemma normalizeCountryName_idempotent (name : option string) (normalized : string) :
  normalizeCountryName name = Normal normalized ->
  normalizeCountryName (Some normalized) = Normal normalized.
Proof.
  unfold normalizeCountryName at 1.
  destruct name as [[|c0 cs]|]; try (intros [= <-]; reflexivity).
  destruct (getProp countryMap _) as [mappedName| |] eqn:Hget; [| discriminate |].
  - unfold getProp in Hget.
    destruct (countryMap !! _) as [m|] eqn:Hm;
      [|destruct (isPrototypeKey _); discriminate].
    injection Hget as ->. apply countryMap_values in Hm.
    repeat (apply elem_of_cons in Hm as [->|Hm]; [intros [= <-]; reflexivity|]).
    inversion Hm.
  - intros [= <-]. rewrite capitalize_cons. unfold normalizeCountryName.
    rewrite key_capitalize, Hget, capitalize_cons, upperAscii_idempotent.
    reflexivity.
Qed.

(** Missing and empty names go to "Unknown", which normalizes to itself. *)
Lemma normalizeCountryName_unknown :
  normalizeCountryName None = Normal "Unknown" /\
  normalizeCountryName (Some "") = Normal "Unknown" /\
  normalizeCountryName (Some "Unknown") = Normal "Unknown".
Proof. repeat split. Qed.

(** C8 at its failing input: the name "constructor" (in any letter case,
    with or without surrounding blanks) is looked up in the alias table
    under a key that the table inherits from [Object.prototype]; the value
    found is not a string, [mappedName.charAt] is not a function, and the
    normalization throws instead of returning a name.  The country
    aggregator throws with it. *)
Theorem normalizeCountryName_inherited_key_throws :
  normalizeCountryName (Some "constructor") = ThrowTypeError /\
  normalizeCountryName (Some " Constructor ") = ThrowTypeError /\
  processHeatmapData Sample.clock "All Times" "All Colleges"
    [ {| createdAt := Some (Time Sample.clock);
         expirationDate := None;
         status := Some "Pending";
         aauContact := Sample.contactOf "Central";
         partnerInstitution := Sample.institutionIn "constructor" |} ]
  = ThrowTypeError.
Proof. repeat split. Qed.

End Heatmap.

(** ** The record fetcher *)

Module FetcherFacts.
Import Fetcher.

Lemma fetchSettle_ready (outcome : Settled) (st : State) :
  loading (fetchSettle outcome st).1 = false.
Proof. destruct outcome as [[|[data|]]|message]; reflexivity. Qed.

(** C7: a fetch that has settled, resolved or rejected, leaves [loading]
    false; a rejected fetch also leaves the empty record list and shows an
    error toast; and in any history of college changes and settlements the
    component is not loading right after a settlement. *)
Theorem fetchPartnerships_reaches_ready :
  (forall (outcome : Settled) (st : State),
     loading (fetchPartnerships outcome st).1 = false) /\
  (forall (message : option string) (st : State),
     partnerships (fetchPartnerships (Rejected message) st).1 = [] /\
     loading (fetchPartnerships (Rejected message) st).1 = false /\
     exists text, ToastError text ∈ (fetchPartnerships (Rejected message) st).2) /\
  (forall (events : list Event) (outcome : Settled) (st : State),
     loading (run (events ++ [Settle outcome]) st) = false).
Proof.
  split; [|split].
  - intros outcome st. unfold fetchPartnerships, fetchStart.
    destruct (fetchSettle outcome _) as [st2 effects2] eqn:Hsettle.
    change st2 with (st2, effects2).1. rewrite <- Hsettle. apply fetchSettle_ready.
  - intros message st. repeat split.
    eexists. unfold fetchPartnerships, fetchStart, fetchSettle, fetchFailed. cbn [snd].
    apply elem_of_app. right. left.
  - intros events outcome st. unfold run. rewrite foldl_app. cbn [foldl step].
    apply fetchSettle_ready.
Qed.

End FetcherFacts.

(** ** The edit form *)

Module EditFacts.
Import EditPartnership.

(** Induction on values that reaches the values inside objects. *)
Lemma JsVal_nested_ind (P : JsVal -> Prop) :
  P VUndefined -> P VNull -> (forall s, P (VStr s)) -> (forall n, P (VNum n)) ->
  (forall fields, Forall (fun kv => P kv.2) fields -> P (VObj fields)) ->
  forall v, P v.
Proof.
  intros Hu Hn Hs Hz Ho.
  fix IH 1. intros [| | s | n | fields];
    [exact Hu | exact Hn | exact (Hs s) | exact (Hz n) |].
  apply Ho. induction fields as [|[k v] rest IHrest]; constructor;
    [exact (IH v) | exact IHrest].
Qed.

Lemma compareObjects_VObj fields obj2 path changes :
  compareObjects (VObj fields) obj2 path changes = compareFields obj2 path fields changes.
Proof. reflexivity. Qed.

Lemma compareFields_app obj2 path l1 l2 changes :
  compareFields obj2 path (l1 ++ l2) changes
  = changes' ← compareFields obj2 path l1 changes; compareFields obj2 path l2 changes'.
Proof.
  revert changes. induction l1 as [|[key v] l1 IH]; intros changes; [reflexivity|].
  cbn [app compareFields].
  match goal with |- context [mbind _ ?c] => destruct c as [ch| |] end;
    cbn [mbind Completion_bind cbind]; [apply IH | reflexivity | reflexivity].
Qed.

Lemma wellFormed_VObj fields :
  wellFormed (VObj fields) <->
  NoDup (map fst fields) /\ Forall (fun kv => wellFormed kv.2) fields.
Proof.
  cbn [wellFormed]. apply and_iff_compat_l.
  induction fields as [|[k v] rest IH].
  - split; [constructor | trivial].
  - rewrite Forall_cons, <- IH. reflexivity.
Qed.

Lemma ownProp_elem fields k v :
  NoDup (map fst fields) -> (k, v) ∈ fields -> ownProp fields k = Some v.
Proof.
  induction fields as [|[k' v'] rest IH]; intros Hnd Hin; [inversion Hin|].
  cbn [map fst] in Hnd. apply NoDup_cons in Hnd as [Hk' Hnd].
  cbn [ownProp]. apply elem_of_cons in Hin as [[= -> ->]|Hin].
  - rewrite String.eqb_refl. reflexivity.
  - destruct (String.eqb_spec k' k) as [->|_]; [|apply IH; assumption].
    exfalso. apply Hk'. apply list_elem_of_fmap. exists (k, v). auto.
Qed.

(** Where a property sits, and what overwriting it gives. *)
Lemma ownProp_split fields k v :
  ownProp fields k = Some v ->
  exists l1 l2,
    fields = (l1 ++ (k, v) :: l2)%list /\ (k ∉ map fst l1) /\
    forall v', setProp k v' fields = (l1 ++ (k, v') :: l2)%list.
Proof.
  induction fields as [|[k' v0] rest IH]; [discriminate|].
  cbn [ownProp]. destruct (String.eqb_spec k' k) as [->|Hne].
  - intros [= ->]. exists [], rest. split; [reflexivity|]. split; [apply not_elem_of_nil|].
    intros v'. cbn [setProp]. rewrite String.eqb_refl. reflexivity.
  - intros Hrest. destruct (IH Hrest) as (l1 & l2 & -> & Hnot & Hset).
    exists ((k', v0) :: l1), l2. split; [reflexivity|]. split.
    + cbn [map fst]. apply not_elem_of_cons. split; [congruence | exact Hnot].
    + intros v'. cbn [setProp app]. apply String.eqb_neq in Hne. rewrite Hne, Hset.
      reflexivity.
Qed.

Lemma strictNe_refl (v : JsVal) :
  match v with VObj _ => True | _ => strictNe v v = false end.
Proof.
  destruct v as [| | s | n | fields]; cbn; trivial.
  - rewrite String.eqb_refl. reflexivity.
  - rewrite Z.eqb_refl. reflexivity.
Qed.

(** Comparing properties with the object they were taken from records
    nothing. *)
Lemma compareFields_same_step (whole : list (string * JsVal)) path :
  forall fs changes,
    Forall (fun kv => ownProp whole kv.1 = Some kv.2 /\
                      forall p c, compareObjects kv.2 kv.2 p c = Normal c) fs ->
    compareFields (VObj whole) path fs changes = Normal changes.
Proof.
  induction fs as [|[key v] rest IH]; intros changes Hall; [reflexivity|].
  apply Forall_cons in Hall as [[Hown Hsame] Hall]. cbn [fst snd] in Hown, Hsame.
  cbn [compareFields readProp]. unfold getField. rewrite Hown.
  cbn [mbind Completion_bind cbind argument differs].
  pose proof (strictNe_refl v) as Hv.
  destruct v as [| | s | n | fields];
    try (rewrite Hv; cbn [mbind Completion_bind cbind]; apply IH, Hall).
  rewrite Hsame. cbn [mbind Completion_bind cbind]. apply IH, Hall.
Qed.

Lemma compareObjects_same (v : JsVal) :
  wellFormed v -> forall path changes, compareObjects v v path changes = Normal changes.
Proof.
  induction v as [| | s | n | fields IH] using JsVal_nested_ind; try reflexivity.
  intros Hwf path changes. apply wellFormed_VObj in Hwf as [Hnd Hwf].
  rewrite compareObjects_VObj. apply compareFields_same_step.
  apply Forall_forall. intros [k v] Hin. cbn [fst snd]. split.
  - apply ownProp_elem; assumption.
  - rewrite Forall_forall in IH, Hwf. apply (IH _ Hin), (Hwf _ Hin).
Qed.

(** The unchanged properties of a form are skipped. *)
Lemma compareFields_unchanged whole path fs changes :
  wellFormed (VObj whole) -> fs ⊆ whole ->
  compareFields (VObj whole) path fs changes = Normal changes.
Proof.
  intros Hwf Hsub. apply wellFormed_VObj in Hwf as [Hnd Hwf].
  apply compareFields_same_step, Forall_forall. intros [k v] Hin. cbn [fst snd].
  apply Hsub in Hin. split.
  - apply ownProp_elem; assumption.
  - intros p c. rewrite Forall_forall in Hwf. apply compareObjects_same, (Hwf _ Hin).
Qed.

(** *** The diff *)

(** C5: when the form differs from the loaded record in the top-level
    [region] only, [getChangedFields] returns the object whose single
    property is [region] with the new value, and that object is the
    payload of the one update request that [handleSubmit] sends. *)
Theorem getChangedFields_region_only
    (original : list (string * JsVal)) (old new : string) :
  wellFormed (VObj original) ->
  ownProp original "region" = Some (VStr old) ->
  new <> old ->
  getChangedFields (setProp "region" (VStr new) original) (VObj original)
  = Normal [("region", VStr new)]
  /\
  forall (toastHasInfo : bool) (id : string) (answer : Settled unit) (st : State),
  exists st' rest,
    handleSubmit toastHasInfo id answer
      (setFormData (setProp "region" (VStr new) original)
         (setOriginalData (VObj original) st))
    = Normal (st', UpdatePartnership id [("region", VStr new)] :: rest) /\
    forall id' payload, UpdatePartnership id' payload ∉ rest.
Proof.
  intros Hwf Hown Hne.
  assert (Hdiff : getChangedFields (setProp "region" (VStr new) original) (VObj original)
                  = Normal [("region", VStr new)]).
  { destruct (ownProp_split _ _ _ Hown) as (l1 & l2 & Heq & Hnot & Hset).
    unfold getChangedFields. rewrite compareObjects_VObj, Hset, compareFields_app.
    rewrite (compareFields_unchanged original "" l1 [] Hwf)
      by (rewrite Heq; intros x Hx; apply elem_of_app; by left).
    cbn [mbind Completion_bind cbind compareFields readProp].
    unfold getField. rewrite Hown.
    cbn [mbind Completion_bind cbind differs strictNe].
    apply String.eqb_neq in Hne. rewrite Hne. cbn [negb].
    change (recordChange [] (pathTo "" "region") "region" (VStr new))
      with (Normal [("region", VStr new)] : Completion (list (string * JsVal))).
    cbn [mbind Completion_bind cbind].
    apply (compareFields_unchanged original "" l2 _ Hwf).
    rewrite Heq. intros x Hx. apply elem_of_app. right. by right. }
  split; [exact Hdiff|].
  intros toastHasInfo id answer st. unfold handleSubmit.
  cbn [formData originalData setError setSubmitting setFormData setOriginalData].
  rewrite Hdiff. destruct answer as [[]|message].
  - eexists _, _. split; [reflexivity|].
    intros id' payload Hin. repeat (apply elem_of_cons in Hin as [Hin|Hin]; [discriminate|]).
    inversion Hin.
  - eexists _, _. split; [reflexivity|].
    intros id' payload Hin. repeat (apply elem_of_cons in Hin as [Hin|Hin]; [discriminate|]).
    inversion Hin.
Qed.

Lemma nairobi_wellFormed : wellFormed (VObj Sample.nairobi).
Proof.
  unfold Sample.nairobi. cbn [wellFormed map fst].
  repeat split; apply (bool_decide_unpack _); vm_compute; exact I.
Qed.

(** The theorem on the sample form, with the region changed from "Africa"
    to "East Africa". *)
Lemma getChangedFields_region_only_witness :
  getChangedFields (setProp "region" (VStr "East Africa") Sample.nairobi)
    (VObj Sample.nairobi)
  = Normal [("region", VStr "East Africa")].
Proof.
  assert (Hne : "East Africa" <> "Africa") by discriminate.
  exact (proj1 (getChangedFields_region_only Sample.nairobi "Africa" "East Africa"
                  nairobi_wellFormed eq_refl Hne)).
Defined.

(** *** Submitting *)

(** C6 at its failing inputs.  The page takes [toast] from
    react-hot-toast, which has no [info]: for every submission where
    [getChangedFields] returns the empty object, [toast.info] throws inside
    the [try] block and the [catch] block runs.  No request is sent, the
    one notification shown is the error toast "Failed to update
    partnership", [error] ends as the message of the TypeError and
    [submitting] false; [formData], [originalData] and [loading] are as
    they were. *)
Theorem handleSubmit_no_changes_is_error
    (id : string) (answer : Settled unit) (st : State) :
  getChangedFields (formData st) (originalData st) = Normal [] ->
  exists st',
    handleSubmit false id answer st
    = Normal (st', [Toast Error "Failed to update partnership"]) /\
    error st' = Some TypeErrorMessage /\
    submitting st' = false /\
    formData st' = formData st /\
    originalData st' = originalData st /\
    loading st' = loading st.
Proof.
  intros Hnone. unfold handleSubmit.
  cbn [formData originalData setError setSubmitting].
  rewrite Hnone. eexists. split; [reflexivity|]. repeat split.
Qed.

(** The sample form just loaded and submitted untouched: the page had no
    error, and the submission ends with the error toast and the TypeError
    as its error. *)
Lemma handleSubmit_no_changes_is_error_witness :
  error (fetchPartnership (Resolved Sample.nairobi) initialState).1 = None /\
  exists st',
    handleSubmit false "42" (Resolved ())
      (fetchPartnership (Resolved Sample.nairobi) initialState).1
    = Normal (st', [Toast Error "Failed to update partnership"]) /\
    error st' = Some TypeErrorMessage.
Proof.
  split; [reflexivity|].
  destruct (handleSubmit_no_changes_is_error "42" (Resolved ())
              (fetchPartnership (Resolved Sample.nairobi) initialState).1)
    as (st' & Hrun & Herror & _).
  - vm_compute. reflexivity.
  - exists st'. split; assumption.
Defined.

(** *** Submitting after a failed load *)

Lemma setProp_nonempty k v fields : setProp k v fields <> [].
Proof.
  destruct fields as [|[k' v'] rest]; cbn [setProp]; [discriminate|].
  destruct (String.eqb k' k); discriminate.
Qed.

Lemma handleChange_nonempty name value prev next :
  prev <> [] -> handleChange name value prev = Normal next -> next <> [].
Proof.
  intros Hprev. unfold handleChange.
  destruct (includesDot name).
  - destruct (splitDot name) as [|section [|field rest]];
      try (intros [= <-]; exact Hprev).
    destruct (getField prev section) as [[| | s | n | fields]| |];
      try discriminate; intros [= <-]; apply setProp_nonempty.
  - intros [= <-]. apply setProp_nonempty.
Qed.

Lemma edit_nonempty events formData formData' :
  formData <> [] -> edit events formData = Normal formData' -> formData' <> [].
Proof.
  unfold edit.
  apply (forEach_invariant (fun prev e => handleChange e.1 e.2 prev) (fun f => f <> [])).
  intros s x s' Hs Hx. eapply handleChange_nonempty; eauto.
Qed.

(** Compared with [null], a form with at least one property throws at its
    first property. *)
Lemma getChangedFields_null formData :
  formData <> [] -> getChangedFields formData VNull = ThrowTypeError.
Proof.
  destruct formData as [|[key v] rest]; [congruence|]. intros _.
  unfold getChangedFields. rewrite compareObjects_VObj. cbn [compareFields readProp].
  destruct v; reflexivity.
Qed.

(** C10: when the load of the record fails, the form is shown ([loading]
    is false) with [originalData] still null; whatever is then typed into
    it, [getChangedFields] throws a TypeError instead of returning a diff,
    and [handleSubmit] ends in its [catch] block without sending a
    request. *)
Theorem getChangedFields_after_failed_load
    (message : Message) (events : list (string * string))
    (formData' : list (string * JsVal)) :
  let st := (fetchPartnership (Rejected message) initialState).1 in
  edit events (formData st) = Normal formData' ->
  loading st = false /\
  originalData st = VNull /\
  getChangedFields formData' (originalData st) = ThrowTypeError /\
  forall (toastHasInfo : bool) (id : string) (answer : Settled unit),
    handleSubmit toastHasInfo id answer (setFormData formData' st)
    = Normal (submitFailed TypeErrorMessage
                (setError None (setSubmitting true (setFormData formData' st)))).
Proof.
  intros st Hedit.
  assert (Hnonempty : formData' <> []).
  { eapply edit_nonempty; [|exact Hedit]. discriminate. }
  assert (Hthrow : getChangedFields formData' VNull = ThrowTypeError)
    by (apply getChangedFields_null, Hnonempty).
  split; [reflexivity|]. split; [reflexivity|]. split; [exact Hthrow|].
  intros toastHasInfo id answer. unfold handleSubmit.
  cbn [formData originalData setError setSubmitting setFormData st fetchPartnership
       fst setLoading initialState].
  rewrite Hthrow. reflexivity.
Qed.

(** The theorem after a failed load and two edits. *)
Lemma getChangedFields_after_failed_load_witness :
  exists formData',
    edit [("region", "East Africa"); ("aauContact.email", "abebe@aau.edu.et")]
      (formData initialState) = Normal formData' /\
    getChangedFields formData' VNull = ThrowTypeError.
Proof.
  eexists. split; [vm_compute; reflexivity|].
  refine (proj1 (proj2 (proj2
    (getChangedFields_after_failed_load (Text "Request failed with status code 404")
       [("region", "East Africa"); ("aauContact.email", "abebe@aau.edu.et")]
       _ _)))).
  vm_compute. reflexivity.
Defined.

End EditFacts.

(** * Further properties *)

(** ** The calendar behind the time window *)

Module CalendarFacts.

Lemma allFrom_spec (n : nat) (z : Z) (P : Z -> bool) :
  allFrom n z P = true -> forall k, z <= k < z + Z.of_nat n -> P k = true.
Proof.
  revert z. induction n as [|n IH]; intros z Hall k Hk; [lia|].
  cbn [allFrom] in Hall. apply andb_prop in Hall as [Hz Hrest].
  destruct (Z.eq_dec k z) as [->|Hne]; [exact Hz|].
  apply (IH (z + 1) Hrest). lia.
Qed.

(** One era of 400 years, day by day. *)
Lemma civilRoundTrip_era : allFrom (Z.to_nat 146097) (-719468) civilRoundTrip = true.
Proof. vm_cast_no_check (eq_refl true). Qed.

Lemma monthSteps_era : allFrom (Z.to_nat 4800) 0 monthSteps = true.
Proof. vm_cast_no_check (eq_refl true). Qed.

(** The calendar repeats every 146097 days, 400 years later. *)
Lemma civilFromDays_shift (z k : Z) :
  civilFromDays (z + 146097 * k)
  = let '(y, m, d) := civilFromDays z in (y + 400 * k, m, d).
Proof.
  unfold civilFromDays.
  replace (z + 146097 * k + 719468) with (z + 719468 + k * 146097) by lia.
  rewrite Z.div_add by lia.
  replace (z + 719468 + k * 146097 - ((z + 719468) / 146097 + k) * 146097)
    with (z + 719468 - (z + 719468) / 146097 * 146097) by lia.
  set (doe := z + 719468 - (z + 719468) / 146097 * 146097).
  set (yoe := (doe - doe / 1460 + doe / 36524 - doe / 146096) / 365).
  set (doy := doe - (365 * yoe + yoe / 4 - yoe / 100)).
  set (mp := (5 * doy + 2) / 153).
  set (m := if mp <? 10 then mp + 3 else mp - 9).
  cbv beta iota.
  destruct (m <=? 2); do 2 (apply (f_equal2 pair); [|reflexivity]); lia.
Qed.

Lemma daysFromCivil_shift (y m d k : Z) :
  daysFromCivil (y + 400 * k) m d = daysFromCivil y m d + 146097 * k.
Proof.
  assert (Hera : forall y0, daysFromCivil_from y0 k).
  { intros y0. unfold daysFromCivil_from. rewrite Z.div_add by lia. split; lia. }
  unfold daysFromCivil. cbv zeta. destruct (m <=? 2).
  - replace (y + 400 * k - 1) with (y - 1 + k * 400) by lia.
    destruct (Hera (y - 1)) as [-> ->]. lia.
  - replace (y + 400 * k) with (y + k * 400) by lia.
    destruct (Hera y) as [-> ->]. lia.
Qed.

Lemma daysFromCivil_day (y m d : Z) :
  daysFromCivil y m d = daysFromCivil y m 1 + d - 1.
Proof. unfold daysFromCivil. lia. Qed.

(** Every day number is the day number of its civil date, and that date
    has a month from 1 to 12 and a day from 1 to 31. *)
Lemma civilFromDays_roundtrip (z : Z) :
  let '(y, m, d) := civilFromDays z in
  daysFromCivil y m d = z /\ 1 <= m <= 12 /\ 1 <= d <= 31.
Proof.
  set (q := (z + 719468) / 146097).
  set (z0 := z - 146097 * q).
  assert (Hz0 : -719468 <= z0 < -719468 + Z.of_nat (Z.to_nat 146097)).
  { pose proof (Z.mod_pos_bound (z + 719468) 146097 ltac:(lia)) as Hm.
    pose proof (Z.div_mod (z + 719468) 146097 ltac:(lia)) as Hd.
    unfold z0, q. lia. }
  pose proof (allFrom_spec _ _ _ civilRoundTrip_era z0 Hz0) as Hcheck.
  replace z with (z0 + 146097 * q) by (unfold z0; lia).
  rewrite civilFromDays_shift. unfold civilRoundTrip in Hcheck.
  destruct (civilFromDays z0) as [[y m] d].
  apply andb_prop in Hcheck as [Hcheck Hd31].
  apply andb_prop in Hcheck as [Hcheck Hd1].
  apply andb_prop in Hcheck as [Hcheck Hm12].
  apply andb_prop in Hcheck as [Hround Hm1].
  rewrite daysFromCivil_shift. lia.
Qed.

Lemma MakeDay_shift (y m x k : Z) :
  MakeDay (y + 400 * k) m x = MakeDay y m x + 146097 * k.
Proof.
  unfold MakeDay.
  replace (y + 400 * k + m / 12) with (y + m / 12 + 400 * k) by lia.
  rewrite daysFromCivil_shift. lia.
Qed.

Lemma MakeDay_date (y m x : Z) : MakeDay y m x = MakeDay y m 1 + x - 1.
Proof. unfold MakeDay. lia. Qed.

(** The length of the month before a month, and of the year before it. *)
Lemma MakeDay_steps (y m : Z) :
  0 <= m <= 11 ->
  28 <= MakeDay y m 1 - MakeDay y (m - 1) 1 <= 31 /\
  365 <= MakeDay y m 1 - MakeDay (y - 1) m 1 <= 366.
Proof.
  intros Hm.
  set (q := y / 400). set (y0 := y mod 400).
  assert (Hy : y = y0 + 400 * q)
    by (unfold y0, q; pose proof (Z.div_mod y 400 ltac:(lia)); lia).
  assert (Hy0 : 0 <= y0 < 400) by (apply Z.mod_pos_bound; lia).
  assert (Hi : 0 <= y0 * 12 + m < 0 + Z.of_nat (Z.to_nat 4800)) by lia.
  pose proof (allFrom_spec _ _ _ monthSteps_era _ Hi) as Hcheck.
  unfold monthSteps in Hcheck.
  replace ((y0 * 12 + m) / 12) with y0 in Hcheck
    by (apply Z.div_unique with m; lia).
  replace ((y0 * 12 + m) mod 12) with m in Hcheck
    by (apply Z.mod_unique with y0; lia).
  rewrite Hy.
  replace (y0 + 400 * q - 1) with (y0 - 1 + 400 * q) by lia.
  rewrite !MakeDay_shift.
  apply andb_prop in Hcheck as [Hcheck H4].
  apply andb_prop in Hcheck as [Hcheck H3].
  apply andb_prop in Hcheck as [H1 H2].
  lia.
Qed.

End CalendarFacts.

(** ** The time window, for every clock reading *)

Module TimeWindow.
Import Dashboard CalendarFacts.

(** The calendar fields of a time value name its own day. *)
Lemma MakeDay_today (t : Z) :
  MakeDay (YearFromTime t) (MonthFromTime t) (DateFromTime t) = Day t /\
  0 <= MonthFromTime t <= 11.
Proof.
  unfold YearFromTime, MonthFromTime, DateFromTime.
  pose proof (civilFromDays_roundtrip (Day t)) as H.
  destruct (civilFromDays (Day t)) as [[y m] d]. cbn [fst snd].
  destruct H as (Hround & Hm & Hd). split; [|lia].
  unfold MakeDay.
  replace ((m - 1) / 12) with 0 by (apply Z.div_unique with (m - 1); lia).
  replace ((m - 1) mod 12) with (m - 1) by (apply Z.mod_unique with 0; lia).
  replace (y + 0) with y by lia. replace (m - 1 + 1) with m by lia.
  rewrite daysFromCivil_day in Hround. lia.
Qed.

Lemma MakeDate_back (t k : Z) : MakeDate (Day t - k) (TimeWithinDay t) = t - k * msPerDay.
Proof.
  unfold MakeDate, Day, TimeWithinDay, msPerDay.
  pose proof (Z.div_mod t 86400000 ltac:(lia)). lia.
Qed.

(** [now.setDate(now.getDate() - 7)] *)
Lemma setDate_week (t : Z) : setDate t (DateFromTime t - 7) = t - 7 * msPerDay.
Proof.
  unfold setDate. destruct (MakeDay_today t) as [Htoday _].
  rewrite MakeDay_date. rewrite MakeDay_date in Htoday.
  replace (MakeDay (YearFromTime t) (MonthFromTime t) 1 + (DateFromTime t - 7) - 1)
    with (Day t - 7) by lia.
  apply MakeDate_back.
Qed.

(** [now.setMonth(now.getMonth() - 1)] *)
Lemma setMonth_month (t : Z) :
  exists k, 28 <= k <= 31 /\ setMonth t (MonthFromTime t - 1) = t - k * msPerDay.
Proof.
  unfold setMonth. destruct (MakeDay_today t) as [Htoday Hm].
  destruct (MakeDay_steps (YearFromTime t) (MonthFromTime t) Hm) as [Hlen _].
  set (k := MakeDay (YearFromTime t) (MonthFromTime t) 1
            - MakeDay (YearFromTime t) (MonthFromTime t - 1) 1) in *.
  exists k. split; [exact Hlen|].
  rewrite MakeDay_date. rewrite MakeDay_date in Htoday.
  replace (MakeDay (YearFromTime t) (MonthFromTime t - 1) 1 + DateFromTime t - 1)
    with (Day t - k) by (unfold k; lia).
  apply MakeDate_back.
Qed.

(** [now.setFullYear(now.getFullYear() - 1)] *)
Lemma setFullYear_year (t : Z) :
  exists k, 365 <= k <= 366 /\ setFullYear t (YearFromTime t - 1) = t - k * msPerDay.
Proof.
  unfold setFullYear. destruct (MakeDay_today t) as [Htoday Hm].
  destruct (MakeDay_steps (YearFromTime t) (MonthFromTime t) Hm) as [_ Hlen].
  set (k := MakeDay (YearFromTime t) (MonthFromTime t) 1
            - MakeDay (YearFromTime t - 1) (MonthFromTime t) 1) in *.
  exists k. split; [exact Hlen|].
  rewrite MakeDay_date. rewrite MakeDay_date in Htoday.
  replace (MakeDay (YearFromTime t - 1) (MonthFromTime t) 1 + DateFromTime t - 1)
    with (Day t - k) by (unfold k; lia).
  apply MakeDate_back.
Qed.

Lemma timeWindow_weekly (clock : Z) :
  timeWindow "Weekly" clock = (clock - 7 * msPerDay, clock - 7 * msPerDay).
Proof.
  unfold timeWindow. cbn [String.eqb Ascii.eqb Bool.eqb andb].
  rewrite setDate_week. reflexivity.
Qed.

Lemma timeWindow_monthly (clock : Z) :
  exists k, 28 <= k <= 31 /\
    timeWindow "Monthly" clock = (clock - k * msPerDay, clock - k * msPerDay).
Proof.
  destruct (setMonth_month clock) as (k & Hk & Hset). exists k. split; [exact Hk|].
  unfold timeWindow. cbn [String.eqb Ascii.eqb Bool.eqb andb]. rewrite Hset. reflexivity.
Qed.

Lemma timeWindow_yearly (clock : Z) :
  exists k, 365 <= k <= 366 /\
    timeWindow "Yearly" clock = (clock - k * msPerDay, clock - k * msPerDay).
Proof.
  destruct (setFullYear_year clock) as (k & Hk & Hset). exists k. split; [exact Hk|].
  unfold timeWindow. cbn [String.eqb Ascii.eqb Bool.eqb andb]. rewrite Hset. reflexivity.
Qed.

(** For every clock reading, the window starts exactly seven days back
    under "Weekly", 28 to 31 days back under "Monthly" and 365 or 366 days
    back under "Yearly"; and in each case [now] itself ends up at the start
    of the window. *)
Theorem timeWindow_bounds (clock : Z) :
  timeWindow "Weekly" clock = (clock - 7 * msPerDay, clock - 7 * msPerDay) /\
  (exists k, 28 <= k <= 31 /\
     timeWindow "Monthly" clock = (clock - k * msPerDay, clock - k * msPerDay)) /\
  (exists k, 365 <= k <= 366 /\
     timeWindow "Yearly" clock = (clock - k * msPerDay, clock - k * msPerDay)).
Proof.
  split; [|split].
  - apply timeWindow_weekly.
  - apply timeWindow_monthly.
  - apply timeWindow_yearly.
Qed.

End TimeWindow.

(** ** Status and college aggregation, for every input *)

Module ChartFacts.
Import Dashboard DashboardSpec DashboardTerms.

(** The two halves of [processChartData]. *)
Lemma processChartData_inv clock timeFilter collegeFilter partnerships r :
  processChartData clock timeFilter collegeFilter partnerships = Normal r ->
  let now := (timeWindow timeFilter clock).1 in
  let processed :=
    map (fun p => (p, derivedStatus now p)) (windowed clock timeFilter partnerships) in
  forEach (fun acc (q : Partnership * string) => tally acc q.2) processed
    (<["active" := 0%nat]> (<["expiringSoon" := 0%nat]>
       (<["expired" := 0%nat]> (<["prospect" := 0%nat]> ∅))))
  = Normal (totalData r) /\
  collegeData r
  = foldl (fun (acc : gmap string StatusCounts) college =>
             if String.eqb college "All Colleges" then acc
             else
               let collegePartnerships :=
                 filter (fun q : Partnership * string =>
                           collegeOf q.1 = Some college
                           ∨ collegeFilter = "All Colleges") processed in
               <[college := {| active := countStatus "active" collegePartnerships;
                               expiringSoon := countStatus "expiringSoon" collegePartnerships;
                               expired := countStatus "expired" collegePartnerships;
                               prospect := countStatus "prospect" collegePartnerships |}]> acc)
          ∅ colleges.
Proof.
  unfold processChartData, windowed.
  destruct (timeWindow timeFilter clock) as [now startDate]. cbn [fst snd].
  destruct (forEach _ _ _) as [total| |]; cbn [mbind Completion_bind cbind mret Completion_ret];
    try discriminate.
  intros [= <-]. split; reflexivity.
Qed.

(** What a run of tallies leaves under each key. *)
Lemma forEach_tally (l : list (Partnership * string)) (acc acc' : gmap string nat) :
  forEach (fun acc (q : Partnership * string) => tally acc q.2) l acc = Normal acc' ->
  forall k,
    acc' !! k
    = match acc !! k with
      | Some n => Some (n + countStatus k l)%nat
      | None => if decide (countStatus k l = 0%nat) then None else Some (countStatus k l)
      end.
Proof.
  revert acc. induction l as [|[p s] l IH]; intros acc Hrun k.
  - injection Hrun as <-. unfold countStatus. cbn.
    destruct (acc !! k); [f_equal; lia | reflexivity].
  - cbn [forEach] in Hrun.
    destruct (tally acc (p, s).2) as [acc1| |] eqn:Ht;
      cbn [mbind Completion_bind cbind] in Hrun; try discriminate.
    rewrite (IH _ Hrun k). cbn [snd] in Ht. unfold tally, getProp in Ht.
    assert (Hcount : countStatus k ((p, s) :: l)
                     = if decide (s = k) then S (countStatus k l) else countStatus k l).
    { unfold countStatus. rewrite filter_cons. cbn [snd].
      destruct (decide (s = k)); reflexivity. }
    rewrite Hcount. clear Hcount.
    destruct (acc !! s) as [n|] eqn:Hs.
    + injection Ht as <-. rewrite lookup_insert.
      destruct (decide (s = k)) as [->|Hne].
      * rewrite Hs. f_equal; lia.
      * reflexivity.
    + destruct (isPrototypeKey s); [discriminate|]. injection Ht as <-.
      rewrite lookup_insert. destruct (decide (s = k)) as [->|Hne].
      * rewrite Hs. rewrite (decide_False (P := S _ = 0%nat)) by lia. f_equal; lia.
      * reflexivity.
Qed.

(** The count of a bucket in [totalData]. *)
Lemma totalData_bucket clock timeFilter collegeFilter partnerships r bucket :
  processChartData clock timeFilter collegeFilter partnerships = Normal r ->
  bucket ∈ buckets ->
  totalData r !! bucket
  = Some (countStatus bucket
            (map (fun p => (p, derivedStatus (timeWindow timeFilter clock).1 p))
                 (windowed clock timeFilter partnerships))).
Proof.
  intros Hrun Hb. destruct (processChartData_inv _ _ _ _ _ Hrun) as [Htotal _].
  rewrite (forEach_tally _ _ _ Htotal bucket).
  repeat (apply elem_of_cons in Hb as [->|Hb]; [reflexivity|]). inversion Hb.
Qed.

(** The [reduce] over the college names, with an entry that depends on
    the name. *)
Lemma lookup_reduce_entries {V} (entry : string -> V) (names : list string)
    (acc : gmap string V) (k : string) :
  foldl (fun acc college =>
           if String.eqb college "All Colleges" then acc
           else <[college := entry college]> acc) acc names !! k
  = if decide (k ∈ names /\ k <> "All Colleges") then Some (entry k) else acc !! k.
Proof.
  revert acc. induction names as [|c names IH]; intros acc; cbn [foldl].
  - rewrite decide_False; [reflexivity|]. intros [H _]. inversion H.
  - rewrite IH. destruct (decide (k ∈ names /\ k <> "All Colleges")) as [[Hk Hne]|Hk].
    + rewrite decide_True; [reflexivity|]. split; [by right | exact Hne].
    + destruct (String.eqb_spec c "All Colleges") as [->|Hc].
      * rewrite decide_False; [reflexivity|].
        intros [Hin Hne]. apply elem_of_cons in Hin as [->|Hin]; tauto.
      * rewrite lookup_insert. destruct (decide (c = k)) as [->|Hck].
        -- rewrite decide_True; [reflexivity|]. split; [by left | exact Hc].
        -- rewrite decide_False; [reflexivity|].
           intros [Hin Hne]. apply elem_of_cons in Hin as [->|Hin]; tauto.
Qed.

(** With the filter on "All Colleges", the entry of every named college
    holds the totals over all colleges: the four counts of [totalData]. *)
Theorem processChartData_all_colleges_entries
    (clock : Z) (timeFilter : string) (partnerships : list Partnership)
    (r : ChartData) :
  processChartData clock timeFilter "All Colleges" partnerships = Normal r ->
  exists a s e p,
    totalData r !! "active" = Some a /\
    totalData r !! "expiringSoon" = Some s /\
    totalData r !! "expired" = Some e /\
    totalData r !! "prospect" = Some p /\
    forall college, college ∈ namedColleges ->
      collegeData r !! college
      = Some {| active := a; expiringSoon := s; expired := e; prospect := p |}.
Proof.
  intros Hrun. destruct (processChartData_inv _ _ _ _ _ Hrun) as [_ Hcolleges].
  eexists _, _, _, _.
  split; [apply (totalData_bucket _ _ _ _ _ _ Hrun); decide_by_compute|].
  split; [apply (totalData_bucket _ _ _ _ _ _ Hrun); decide_by_compute|].
  split; [apply (totalData_bucket _ _ _ _ _ _ Hrun); decide_by_compute|].
  split; [apply (totalData_bucket _ _ _ _ _ _ Hrun); decide_by_compute|].
  intros college Hnamed. rewrite Hcolleges.
  rewrite (lookup_reduce_entries
             (fun college =>
                let collegePartnerships :=
                  filter (fun q : Partnership * string =>
                            collegeOf q.1 = Some college
                            ∨ "All Colleges" = "All Colleges") _ in
                {| active := countStatus "active" collegePartnerships;
                   expiringSoon := countStatus "expiringSoon" collegePartnerships;
                   expired := countStatus "expired" collegePartnerships;
                   prospect := countStatus "prospect" collegePartnerships |})).
  destruct (LineData.namedColleges_spec _ Hnamed) as (Hin & HnotAll & _).
  rewrite decide_True by (split; assumption). cbv zeta.
  set (processed := map _ _).
  assert (Hall : filter (fun q : Partnership * string =>
                           collegeOf q.1 = Some college
                           ∨ "All Colleges" = "All Colleges") processed = processed).
  { induction processed as [|q l IH]; [reflexivity|].
    rewrite filter_cons_True by (right; reflexivity). rewrite IH. reflexivity. }
  rewrite Hall. reflexivity.
Qed.

(** *** Every windowed record is counted once *)

Lemma sumCounts_comm (j1 j2 : string) (z1 z2 y : nat) :
  (z1 + (z2 + y) = z2 + (z1 + y))%nat.
Proof. lia. Qed.

Lemma sumCounts_insert_new (m : gmap string nat) k n :
  m !! k = None -> sumCounts (<[k := n]> m) = (n + sumCounts m)%nat.
Proof.
  intros Hk. unfold sumCounts. apply map_fold_insert_L; [|exact Hk].
  intros. apply sumCounts_comm; assumption.
Qed.

Lemma sumCounts_insert_old (m : gmap string nat) k n n' :
  m !! k = Some n -> (sumCounts (<[k := n']> m) + n = n' + sumCounts m)%nat.
Proof.
  intros Hk. rewrite <- (insert_delete_eq m k n').
  rewrite sumCounts_insert_new by apply lookup_delete_eq.
  unfold sumCounts.
  rewrite (map_fold_delete_L _ _ k n m); [lia | | exact Hk].
  intros. apply sumCounts_comm; assumption.
Qed.

Lemma tally_sumCounts acc key acc' :
  tally acc key = Normal acc' -> sumCounts acc' = S (sumCounts acc).
Proof.
  unfold tally, getProp. destruct (acc !! key) as [n|] eqn:Hk.
  - intros [= <-]. pose proof (sumCounts_insert_old acc key n (S n) Hk). lia.
  - destruct (isPrototypeKey key); [discriminate|]. intros [= <-].
    rewrite sumCounts_insert_new by exact Hk. reflexivity.
Qed.

Lemma forEach_tally_sumCounts (l : list (Partnership * string)) acc acc' :
  forEach (fun acc (q : Partnership * string) => tally acc q.2) l acc = Normal acc' ->
  sumCounts acc' = (length l + sumCounts acc)%nat.
Proof.
  revert acc. induction l as [|q l IH]; intros acc Hrun.
  - injection Hrun as <-. reflexivity.
  - cbn [forEach] in Hrun. destruct (tally acc q.2) as [acc1| |] eqn:Ht;
      cbn [mbind Completion_bind cbind] in Hrun; try discriminate.
    rewrite (IH _ Hrun), (tally_sumCounts _ _ _ Ht). cbn [length]. lia.
Qed.

Lemma lowerAscii_idempotent (c : ascii) : lowerAscii (lowerAscii c) = lowerAscii c.
Proof. destruct c as [[] [] [] [] [] [] [] []]; reflexivity. Qed.

Lemma toLowerCase_idempotent (s : string) : toLowerCase (toLowerCase s) = toLowerCase s.
Proof.
  induction s as [|c s IH]; [reflexivity|].
  cbn [toLowerCase]. rewrite lowerAscii_idempotent, IH. reflexivity.
Qed.

(** A lowercased status is a name every object literal inherits only
    when it is "constructor" or "__proto__": the other inherited names have
    a capital letter. *)
Lemma toLowerCase_prototype_key (s : string) :
  isPrototypeKey (toLowerCase s) = true ->
  toLowerCase s ∈ ["constructor"; "__proto__"].
Proof.
  intros H. unfold isPrototypeKey in H. apply existsb_exists in H as (k & Hin & Hk).
  apply String.eqb_eq in Hk. pose proof (toLowerCase_idempotent s) as Hi.
  rewrite Hk in *. cbn in Hin.
  repeat (destruct Hin as [<-|Hin]; [try discriminate; decide_by_compute|]).
  destruct Hin.
Qed.

(** The derived status of a record is inherited by [totalData] only when
    the record's own status lowercases to such a name. *)
Lemma derivedStatus_own_key (now : Z) (p : Partnership) :
  (forall s, status p = Some s -> toLowerCase s ∉ ["constructor"; "__proto__"]) ->
  isPrototypeKey (derivedStatus now p) = false.
Proof.
  intros Hstatus.
  destruct (expirationDate p) as [expiration|] eqn:He;
    [destruct (decide (status p = Some "Active")) as [Hs|Hs]|].
  - rewrite (derivedStatus_active_case _ _ _ He Hs).
    destruct (expiresWithin30Days expiration now); reflexivity.
  - assert (Hnot : ~ activeWithExpiration p) by (intros [_ H]; tauto).
    rewrite (derivedStatus_other_case _ _ Hnot).
    destruct (status p) as [[|c s]|] eqn:Hst; try reflexivity.
    destruct (String.eqb _ "rejected"); [reflexivity|].
    destruct (String.eqb _ "pending"); [reflexivity|].
    apply not_true_is_false. intros Hkey.
    exact (Hstatus _ eq_refl (toLowerCase_prototype_key _ Hkey)).
  - assert (Hnot : ~ activeWithExpiration p) by (intros [[e H] _]; congruence).
    rewrite (derivedStatus_other_case _ _ Hnot).
    destruct (status p) as [[|c s]|] eqn:Hst; try reflexivity.
    destruct (String.eqb _ "rejected"); [reflexivity|].
    destruct (String.eqb _ "pending"); [reflexivity|].
    apply not_true_is_false. intros Hkey.
    exact (Hstatus _ eq_refl (toLowerCase_prototype_key _ Hkey)).
Qed.

(** A run of tallies over keys that are not inherited completes. *)
Lemma forEach_tally_completes (l : list (Partnership * string)) (acc : gmap string nat) :
  (forall q, q ∈ l -> isPrototypeKey q.2 = false) ->
  exists acc',
    forEach (fun acc (q : Partnership * string) => tally acc q.2) l acc = Normal acc'.
Proof.
  revert acc. induction l as [|q l IH]; intros acc Hkeys.
  - exists acc. reflexivity.
  - assert (Hq : exists acc1, tally acc q.2 = Normal acc1).
    { unfold tally, getProp. rewrite (Hkeys q) by (by left).
      destruct (acc !! q.2); eexists; reflexivity. }
    destruct Hq as [acc1 Hq].
    destruct (IH acc1) as [acc' Hacc']; [intros q' Hq'; apply Hkeys; by right|].
    exists acc'. cbn [forEach]. rewrite Hq. exact Hacc'.
Qed.

(** When no record in the time window has a status that lowercases to
    "constructor" or "__proto__", the two names a lowercased status can
    share with what [totalData] inherits, the aggregation completes and the
    counts of [totalData], the four buckets and any fallback status
    together, add up to the number of records in the window: each is
    counted exactly once. *)
Theorem processChartData_counts_every_record
    (clock : Z) (timeFilter collegeFilter : string)
    (partnerships : list Partnership) :
  (forall p s, p ∈ windowed clock timeFilter partnerships -> status p = Some s ->
     toLowerCase s ∉ ["constructor"; "__proto__"]) ->
  exists r,
    processChartData clock timeFilter collegeFilter partnerships = Normal r /\
    sumCounts (totalData r) = length (windowed clock timeFilter partnerships).
Proof.
  intros Hstatus.
  destruct (forEach_tally_completes
              (map (fun p => (p, derivedStatus (timeWindow timeFilter clock).1 p))
                   (windowed clock timeFilter partnerships))
              (<["active" := 0%nat]> (<["expiringSoon" := 0%nat]>
                 (<["expired" := 0%nat]> (<["prospect" := 0%nat]> ∅)))))
    as [total Htotal].
  { intros q Hq. apply list_elem_of_fmap in Hq as (p & -> & Hp). cbn [snd].
    apply derivedStatus_own_key. intros s Hs. exact (Hstatus p s Hp Hs). }
  assert (Hrun : exists r,
             processChartData clock timeFilter collegeFilter partnerships = Normal r).
  { revert Htotal. unfold processChartData, windowed.
    destruct (timeWindow timeFilter clock) as [now startDate]. cbn [fst snd].
    intros ->. cbn [mbind Completion_bind cbind mret Completion_ret].
    eexists. reflexivity. }
  destruct Hrun as [r Hrun]. exists r. split; [exact Hrun|].
  destruct (processChartData_inv _ _ _ _ _ Hrun) as [Htotal' _].
  rewrite (forEach_tally_sumCounts _ _ _ Htotal'), length_map.
  assert (H0 : sumCounts (<["active" := 0%nat]> (<["expiringSoon" := 0%nat]>
                 (<["expired" := 0%nat]> (<["prospect" := 0%nat]> ∅)))) = 0%nat)
    by (vm_compute; reflexivity).
  rewrite H0. lia.
Qed.

(** Three records of which one is undated: the aggregation completes and
    two are counted. *)
Lemma processChartData_counts_every_record_witness :
  exists r,
    processChartData Sample.clock "Monthly" "All Colleges"
      [Sample.expiringLaw; Sample.undatedLaw; Sample.pendingPhysics] = Normal r /\
    sumCounts (totalData r) = 2%nat.
Proof.
  destruct (processChartData_counts_every_record Sample.clock "Monthly" "All Colleges"
              [Sample.expiringLaw; Sample.undatedLaw; Sample.pendingPhysics])
    as (r & Hrun & Hsum).
  - intros p s Hp Hs. apply list_elem_of_filter in Hp as [_ Hp].
    repeat (apply elem_of_cons in Hp as [->|Hp];
            [injection Hs as <-; decide_by_compute|]).
    inversion Hp.
  - exists r. split; [exact Hrun|]. rewrite Hsum. vm_compute. reflexivity.
Defined.

(** The entries of the named colleges under "All Colleges", on two sample
    records, neither of them of the college "Central". *)
Lemma processChartData_all_colleges_entries_witness :
  match processChartData Sample.clock "All Times" "All Colleges"
          [Sample.expiringLaw; Sample.pendingPhysics] with
  | Normal r =>
      collegeData r !! "Central"
      = Some {| active := 0; expiringSoon := 1; expired := 0; prospect := 1 |}
  | _ => False
  end.
Proof.
  destruct (processChartData _ _ _ _) as [r| |] eqn:Hrun;
    [|apply (f_equal completes) in Hrun; vm_compute in Hrun; discriminate..].
  destruct (processChartData_all_colleges_entries _ _ _ _ Hrun)
    as (a & s & e & p & Ha & Hs & He & Hp & Hentries).
  rewrite (Hentries "Central") by decide_by_compute.
  change (counted (Normal r) "active" = Some a) in Ha.
  change (counted (Normal r) "expiringSoon" = Some s) in Hs.
  change (counted (Normal r) "expired" = Some e) in He.
  change (counted (Normal r) "prospect" = Some p) in Hp.
  rewrite <- Hrun in Ha, Hs, He, Hp. vm_compute in Ha, Hs, He, Hp.
  injection Ha as <-. injection Hs as <-. injection He as <-. injection Hp as <-.
  reflexivity.
Defined.

(** *** Which records can count as expiring soon *)

(** A lowercased status is never the bucket name "expiringSoon". *)
Lemma toLowerCase_not_expiringSoon (s : string) : toLowerCase s <> "expiringSoon".
Proof.
  intros H. pose proof (toLowerCase_idempotent s) as Hi. rewrite H in Hi. discriminate.
Qed.

(** Only an "Active" record whose valid expiration date lies at most
    thirty days after [now] derives "expiringSoon". *)
Lemma derivedStatus_expiringSoon_inv (now : Z) (p : Partnership) :
  derivedStatus now p = "expiringSoon" -> expiresBy (now + 30 * msPerDay) p = true.
Proof.
  intros Hd. unfold expiresBy.
  destruct (expirationDate p) as [expiration|] eqn:He;
    [destruct (decide (status p = Some "Active")) as [Hs|Hs]|].
  - rewrite (derivedStatus_active_case _ _ _ He Hs) in Hd.
    rewrite bool_decide_eq_true_2 by exact Hs. cbn [andb].
    unfold expiresWithin30Days in Hd. destruct expiration as [t|]; [|discriminate].
    destruct (Z.leb_spec (t - now) (30 * (1000 * 60 * 60 * 24))); [|discriminate].
    apply Z.leb_le. unfold msPerDay. lia.
  - exfalso. assert (Hnot : ~ activeWithExpiration p) by (intros [_ H]; tauto).
    rewrite (derivedStatus_other_case _ _ Hnot) in Hd.
    destruct (status p) as [[|c s]|]; try discriminate.
    destruct (String.eqb _ "rejected"); [discriminate|].
    destruct (String.eqb _ "pending"); [discriminate|].
    exact (toLowerCase_not_expiringSoon _ Hd).
  - exfalso. assert (Hnot : ~ activeWithExpiration p) by (intros [[e H] _]; congruence).
    rewrite (derivedStatus_other_case _ _ Hnot) in Hd.
    destruct (status p) as [[|c s]|]; try discriminate.
    destruct (String.eqb _ "rejected"); [discriminate|].
    destruct (String.eqb _ "pending"); [discriminate|].
    exact (toLowerCase_not_expiringSoon _ Hd).
Qed.

Lemma expiresBy_mono (limit limit' : Z) (p : Partnership) :
  limit <= limit' -> expiresBy limit p = true -> expiresBy limit' p = true.
Proof.
  intros Hle. unfold expiresBy. destruct (bool_decide _); [|discriminate]. cbn [andb].
  destruct (expirationDate p) as [[t|]|]; try discriminate.
  rewrite !Z.leb_le. lia.
Qed.

Lemma countStatus_bound (derive : Partnership -> string) (keep : Partnership -> bool)
    (window : Partnership -> Prop) `{!forall p, Decision (window p)}
    (bucket : string) (l : list Partnership) :
  (forall p, derive p = bucket -> keep p = true) ->
  (countStatus bucket (map (fun p => (p, derive p)) (filter window l))
   <= length (filter (fun p => keep p = true) l))%nat.
Proof.
  intros Hkeep. unfold countStatus.
  induction l as [|p l IH]; [reflexivity|].
  rewrite (filter_cons window). destruct (decide (window p)).
  - cbn [map]. rewrite !filter_cons. cbn [snd].
    destruct (decide (derive p = bucket)) as [Hd|Hd].
    + rewrite decide_True by (apply Hkeep, Hd). cbn [length]. lia.
    + destruct (decide (keep p = true)); cbn [length]; lia.
  - rewrite (filter_cons (fun p => keep p = true)).
    destruct (decide (keep p = true)); cbn [length]; lia.
Qed.

(** The day offsets, from the clock reading, up to which a record can
    still count as expiring soon: thirty days are measured from a [now]
    that the window has moved back. *)
Theorem processChartData_expiringSoon_limit
    (clock offset : Z) (timeFilter collegeFilter : string)
    (partnerships : list Partnership) (r : ChartData) (n : nat) :
  (timeFilter, offset) ∈ [("Weekly", 23); ("Monthly", 2); ("Yearly", -335)] ->
  processChartData clock timeFilter collegeFilter partnerships = Normal r ->
  totalData r !! "expiringSoon" = Some n ->
  (n <= length (filter (fun p => expiresBy (clock + offset * msPerDay) p = true)
                       partnerships))%nat.
Proof.
  intros Hfilter Hrun Hn.
  rewrite (totalData_bucket _ _ _ _ _ "expiringSoon" Hrun) in Hn by decide_by_compute.
  injection Hn as <-.
  unfold windowed. apply countStatus_bound.
  - intros p Hd. apply derivedStatus_expiringSoon_inv in Hd.
    eapply expiresBy_mono; [|exact Hd].
    pose proof (TimeWindow.timeWindow_weekly clock) as Hw.
    destruct (TimeWindow.timeWindow_monthly clock) as (k & Hk & Hm).
    destruct (TimeWindow.timeWindow_yearly clock) as (k' & Hk' & Hy).
    repeat (apply elem_of_cons in Hfilter as [[= -> ->]|Hfilter]).
    + rewrite Hw. cbn [fst]. unfold msPerDay. lia.
    + rewrite Hm. cbn [fst]. unfold msPerDay. lia.
    + rewrite Hy. cbn [fst]. unfold msPerDay. lia.
    + inversion Hfilter.
Qed.

(** Under "Monthly" the sample record that expires in ten days is beyond
    the limit of two, and nothing counts as expiring soon. *)
Lemma processChartData_expiringSoon_limit_witness :
  counted (processChartData Sample.clock "Monthly" "All Colleges"
             [Sample.expiringLaw; Sample.activeLaw]) "expiringSoon"
  = Some 0%nat.
Proof.
  assert (Hin : ("Monthly", 2) ∈ [("Weekly", 23); ("Monthly", 2); ("Yearly", -335)])
    by decide_by_compute.
  destruct (processChartData _ _ _ _) as [r| |] eqn:Hrun;
    [|apply (f_equal completes) in Hrun; vm_compute in Hrun; discriminate..].
  cbn [counted]. destruct (totalData r !! "expiringSoon") as [n|] eqn:Hn.
  - pose proof (processChartData_expiringSoon_limit _ 2 _ _ _ _ n Hin Hrun Hn) as Hle.
    vm_compute in Hle. f_equal. lia.
  - change (counted (Normal r) "expiringSoon" = None) in Hn.
    rewrite <- Hrun in Hn. vm_compute in Hn. discriminate.
Defined.

End ChartFacts.

(** ** Monthly time series, for every input *)

Module LineFacts.
Import Dashboard DashboardSpec DashboardTerms LineData.

(** *** Shape of the result *)

Lemma lineDataByCollege_nonneg : counters_nonneg lineDataByCollege.
Proof.
  intros c s i n. unfold slot. rewrite lineDataByCollege_lookup.
  destruct (decide (c ∈ colleges)); [|discriminate]. cbn.
  rewrite emptySeries_lookup. destruct (decide (s ∈ buckets)); [|discriminate]. cbn.
  intros H. apply list_elem_of_lookup_2 in H.
  repeat (apply elem_of_cons in H as [->|H]; [lia|]). inversion H.
Qed.

Lemma increment_nonneg data college derived i data' :
  counters_nonneg data -> increment data college derived i = Normal data' ->
  counters_nonneg data'.
Proof.
  intros Hnn Hinc. apply increment_inv in Hinc as (series & slots & Hc & Hs & ->).
  intros c s j n. rewrite (slot_increment _ _ _ _ _ _ c s j Hc Hs).
  destruct (decide _) as [_|_]; [|apply Hnn].
  destruct (slot data c s j) as [m|] eqn:Hm; [|discriminate].
  intros [= <-]. specialize (Hnn _ _ _ _ Hm). lia.
Qed.

Lemma visit_nonneg now collegeFilter data p data' :
  counters_nonneg data -> visit now collegeFilter data p = Normal data' ->
  counters_nonneg data'.
Proof.
  intros Hnn. unfold visit.
  assert (Hskip : Normal data = Normal data' -> counters_nonneg data')
    by (intros H; injection H as <-; exact Hnn).
  destruct (createdAt p) as [created|]; [|exact Hskip].
  destruct (collegeOf p) as [[|c0 cs]|]; [exact Hskip| |exact Hskip].
  destruct (monthIndexOf now created) as [mi|]; [|exact Hskip].
  destruct ((0 <=? mi) && (mi <? 12)); [|exact Hskip].
  destruct (_ || _); [|exact Hskip].
  destruct (increment data _ _ _) as [d1| |] eqn:H1;
    cbn [mbind Completion_bind cbind]; try discriminate.
  intros H2. eapply increment_nonneg; [|exact H2]. eapply increment_nonneg; eauto.
Qed.

(** Whenever the aggregation completes, its result has an entry for each
    of the nine names of [colleges] and for no other name, each entry has
    the four buckets and no other, and each bucket holds twelve counters,
    none of them negative. *)
Theorem processLineData_result_shape
    (clock : Z) (collegeFilter : string) (partnerships : list Partnership)
    (data : gmap string (gmap string (list Z))) :
  processLineData clock collegeFilter partnerships = Normal data ->
  (forall college, is_Some (data !! college) <-> college ∈ colleges) /\
  (forall college series, data !! college = Some series ->
     (forall bucket, is_Some (series !! bucket) <-> bucket ∈ buckets) /\
     forall bucket slots, series !! bucket = Some slots ->
       length slots = 12%nat /\ Forall (fun n => 0 <= n) slots).
Proof.
  intros Hrun. pose proof (processLineData_shaped _ _ _ _ Hrun) as Hsh.
  assert (Hnn : counters_nonneg data).
  { revert Hrun. unfold processLineData.
    apply (forEach_invariant (visit clock collegeFilter) counters_nonneg).
    - intros s x s' Hs Hv. eapply visit_nonneg; eauto.
    - apply lineDataByCollege_nonneg. }
  split.
  - intros college. specialize (Hsh college).
    destruct (data !! college); split; intros H; try tauto; try (by eexists).
    destruct H as [? H]. discriminate.
  - intros college series Hc. pose proof (Hsh college) as Hcol. rewrite Hc in Hcol.
    destruct Hcol as [_ Hser]. split.
    + intros bucket. specialize (Hser bucket).
      destruct (series !! bucket); split; intros H; try tauto; try (by eexists).
      destruct H as [? H]. discriminate.
    + intros bucket slots Hb. pose proof (Hser bucket) as Hbk. rewrite Hb in Hbk.
      destruct Hbk as [_ Hlen]. split; [exact Hlen|].
      apply Forall_lookup. intros i n Hi. apply (Hnn college bucket i n).
      unfold slot. rewrite Hc. cbn. rewrite Hb. exact Hi.
Qed.

(** The shape after two sample records. *)
Lemma processLineData_result_shape_witness :
  match processLineData Sample.clock "All Colleges"
          [Sample.expiringLaw; Sample.pendingLastYear] with
  | Normal data => is_Some (data !! "Central") /\ ~ is_Some (data !! "Department of Physics")
  | _ => False
  end.
Proof.
  destruct (processLineData _ _ _) as [data| |] eqn:Hrun;
    [|apply (f_equal completes) in Hrun; vm_compute in Hrun; discriminate..].
  destruct (processLineData_result_shape _ _ _ _ Hrun) as [Hkeys _].
  split.
  - apply Hkeys. decide_by_compute.
  - intros H. apply Hkeys in H. revert H.
    apply (bool_decide_eq_false_1 (_ ∈ colleges)). vm_compute. reflexivity.
Defined.

(** *** Records that are passed over *)

Lemma visit_passedOver clock collegeFilter data p :
  passedOver clock collegeFilter p = true -> visit clock collegeFilter data p = Normal data.
Proof.
  unfold passedOver, visit.
  destruct (createdAt p) as [created|]; [|reflexivity].
  destruct (collegeOf p) as [[|c0 cs]|]; try reflexivity.
  destruct (monthIndexOf clock created) as [mi|]; [|reflexivity].
  destruct ((0 <=? mi) && (mi <? 12)); [|reflexivity].
  cbn [negb orb].
  destruct (String.eqb collegeFilter "All Colleges" || String.eqb (String c0 cs) collegeFilter);
    [discriminate | reflexivity].
Qed.

(** A record without creation date or college, with an invalid creation
    date, created before the eleventh month back or after the current
    month, or of another college than the filter names, changes nothing:
    the result, or the failure, is that of the list without it.  This
    holds whatever its college is, listed or not. *)
Theorem processLineData_passes_over
    (clock : Z) (collegeFilter : string)
    (before after : list Partnership) (p : Partnership) :
  passedOver clock collegeFilter p = true ->
  processLineData clock collegeFilter (before ++ p :: after)
  = processLineData clock collegeFilter (before ++ after).
Proof.
  intros Hp. unfold processLineData. rewrite !forEach_app.
  destruct (forEach _ before _) as [data| |]; cbn [mbind Completion_bind cbind forEach];
    try reflexivity.
  rewrite (visit_passedOver _ _ _ _ Hp). reflexivity.
Qed.

(** A record of an unlisted department created thirteen months ago is
    passed over, where the same department inside the window throws. *)
Lemma processLineData_passes_over_witness :
  passedOver Sample.clock "All Colleges"
    {| createdAt := Some (Time (Sample.clock - Sample.days 400));
       expirationDate := None;
       status := Some "Pending";
       aauContact := Sample.contactOf "Department of Physics";
       partnerInstitution := None |} = true /\
  processLineData Sample.clock "All Colleges"
    [Sample.expiringLaw;
     {| createdAt := Some (Time (Sample.clock - Sample.days 400));
        expirationDate := None;
        status := Some "Pending";
        aauContact := Sample.contactOf "Department of Physics";
        partnerInstitution := None |}]
  = processLineData Sample.clock "All Colleges" [Sample.expiringLaw].
Proof.
  assert (Hp : passedOver Sample.clock "All Colleges"
                 {| createdAt := Some (Time (Sample.clock - Sample.days 400));
                    expirationDate := None;
                    status := Some "Pending";
                    aauContact := Sample.contactOf "Department of Physics";
                    partnerInstitution := None |} = true)
    by (vm_compute; reflexivity).
  split; [exact Hp|].
  exact (processLineData_passes_over Sample.clock "All Colleges"
           [Sample.expiringLaw] [] _ Hp).
Defined.

(** *** The aggregate series *)

Lemma forEach_invariant_in {A S} (f : S -> A -> Completion S) (P : S -> Prop)
    (l : list A) :
  (forall s x s', x ∈ l -> P s -> f s x = Normal s' -> P s') ->
  forall s s', P s -> forEach f l s = Normal s' -> P s'.
Proof.
  induction l as [|x l IH]; intros Hstep s s' Hs Hrun; cbn [forEach] in Hrun.
  - congruence.
  - destruct (f s x) as [s1| |] eqn:Hfx; cbn [mbind Completion_bind cbind] in Hrun;
      try discriminate.
    eapply IH; [|eapply Hstep; [left|exact Hs|exact Hfx]|exact Hrun].
    intros s0 y s0' Hy. apply Hstep. by right.
Qed.

Lemma slotOr0_increment data college derived i series slots c s j :
  data !! college = Some series ->
  series !! derived = Some slots ->
  (i < length slots)%nat ->
  slotOr0 (<[college := <[derived := alter Z.succ i slots]> series]> data) c s j
  = slotOr0 data c s j + (if decide (c = college /\ s = derived /\ j = i) then 1 else 0).
Proof.
  intros Hc Hs Hi. unfold slotOr0. rewrite (slot_increment _ _ _ _ _ _ c s j Hc Hs).
  destruct (decide _) as [(-> & -> & ->)|_]; [|lia].
  unfold slot. rewrite Hc. cbn. rewrite Hs. cbn.
  destruct (lookup_lt_is_Some_2 slots i Hi) as [n ->]. cbn. lia.
Qed.

Lemma foldr_bump (f g : string -> Z) (keys : list string) (c : string) (delta : Z) :
  NoDup keys ->
  (forall k, g k = f k + (if decide (k = c) then delta else 0)) ->
  foldr (fun k total => g k + total) 0 keys
  = foldr (fun k total => f k + total) 0 keys + (if decide (c ∈ keys) then delta else 0).
Proof.
  intros Hnd Hg. induction Hnd as [|k keys Hk Hnd IH]; cbn [foldr].
  - rewrite decide_False by apply not_elem_of_nil. lia.
  - rewrite IH, Hg. destruct (decide (k = c)) as [->|Hne].
    + rewrite (decide_True (P := c ∈ c :: keys)) by left.
      rewrite (decide_False (P := c ∈ keys)) by exact Hk. lia.
    + destruct (decide (c ∈ keys)) as [Hin|Hin].
      * rewrite (decide_True (P := c ∈ k :: keys)) by (by right). lia.
      * rewrite (decide_False (P := c ∈ k :: keys)); [lia|].
        intros H. apply elem_of_cons in H as [->|H]; tauto.
Qed.

Lemma namedColleges_NoDup : NoDup namedColleges.
Proof. decide_by_compute. Qed.

Lemma sumNamed_increment data college derived i series slots s j :
  data !! college = Some series ->
  series !! derived = Some slots ->
  (i < length slots)%nat ->
  sumNamed (<[college := <[derived := alter Z.succ i slots]> series]> data) s j
  = sumNamed data s j
    + (if decide (college ∈ namedColleges)
       then (if decide (s = derived /\ j = i) then 1 else 0) else 0).
Proof.
  intros Hc Hs Hi. unfold sumNamed.
  rewrite (foldr_bump (fun k => slotOr0 data k s j) _ namedColleges college
             (if decide (s = derived /\ j = i) then 1 else 0) namedColleges_NoDup);
    [reflexivity|].
  intros k. rewrite (slotOr0_increment _ _ _ _ _ _ k s j Hc Hs Hi).
  destruct (decide (k = college)) as [->|Hne].
  - destruct (decide (s = derived /\ j = i)) as [[-> ->]|Hn].
    + rewrite decide_True by done. reflexivity.
    + rewrite decide_False by (intros (_ & ? & ?); tauto). reflexivity.
  - rewrite decide_False by (intros (? & _ & _); tauto). reflexivity.
Qed.

(** The invariant of the loop: the accumulator is shaped and the "All
    Colleges" counters are the sums of the named colleges' counters. *)
Lemma visit_aggregate clock collegeFilter data p data' :
  collegeOf p <> Some "All Colleges" ->
  shaped data /\
  (forall s j, slotOr0 data "All Colleges" s j = sumNamed data s j) ->
  visit clock collegeFilter data p = Normal data' ->
  shaped data' /\
  (forall s j, slotOr0 data' "All Colleges" s j = sumNamed data' s j).
Proof.
  intros HnotAll [Hsh Hsum] Hvisit.
  split; [eapply visit_shaped; eauto|].
  revert Hvisit. unfold visit.
  assert (Hskip : Normal data = Normal data' ->
                  forall s j, slotOr0 data' "All Colleges" s j = sumNamed data' s j)
    by (intros H; injection H as <-; exact Hsum).
  destruct (createdAt p) as [created|]; [|exact Hskip].
  destruct (collegeOf p) as [[|c0 cs]|] eqn:Hcollege; [exact Hskip| |exact Hskip].
  destruct (monthIndexOf clock created) as [mi|]; [|exact Hskip].
  destruct ((0 <=? mi) && (mi <? 12)) eqn:Hrange; [|exact Hskip].
  destruct (_ || _); [|exact Hskip].
  apply andb_prop in Hrange as [Hlo Hhi]. apply Z.leb_le in Hlo. apply Z.ltb_lt in Hhi.
  set (college := String c0 cs) in *. set (derived := derivedStatus clock p).
  set (i := Z.to_nat mi).
  destruct (increment data college derived i) as [data1| |] eqn:H1;
    cbn [mbind Completion_bind cbind]; try discriminate.
  intros H2.
  pose proof (increment_shaped _ _ _ _ _ Hsh H1) as Hsh1.
  apply increment_inv in H1 as (series & slots & Hc & Hs & ->).
  apply increment_inv in H2 as (seriesA & slotsA & HcA & HsA & ->).
  assert (Hlen : (i < length slots)%nat).
  { pose proof (Hsh college) as H. rewrite Hc in H. destruct H as [_ H].
    specialize (H derived). rewrite Hs in H. destruct H as [_ ->]. unfold i. lia. }
  assert (HlenA : (i < length slotsA)%nat).
  { pose proof (Hsh1 "All Colleges") as H. rewrite HcA in H. destruct H as [_ H].
    specialize (H derived). rewrite HsA in H. destruct H as [_ ->]. unfold i. lia. }
  assert (Hnamed : college ∈ namedColleges).
  { pose proof (Hsh college) as H. rewrite Hc in H. destruct H as [H _].
    apply elem_of_cons in H as [H|H]; [congruence | exact H]. }
  assert (HallNot : "All Colleges" ∉ namedColleges) by decide_by_compute.
  intros s j.
  rewrite (slotOr0_increment _ _ _ _ _ _ "All Colleges" s j HcA HsA HlenA).
  rewrite (slotOr0_increment _ _ _ _ _ _ "All Colleges" s j Hc Hs Hlen).
  rewrite (sumNamed_increment _ _ _ _ _ _ s j HcA HsA HlenA).
  rewrite (sumNamed_increment _ _ _ _ _ _ s j Hc Hs Hlen).
  rewrite (decide_False (P := "All Colleges" ∈ namedColleges)) by exact HallNot.
  rewrite (decide_True (P := college ∈ namedColleges)) by exact Hnamed.
  rewrite Hsum.
  rewrite (decide_False (P := "All Colleges" = college /\ _))
    by (intros (E & _ & _); congruence).
  destruct (decide (s = derived /\ j = i)) as [[-> ->]|Hn].
  - rewrite decide_True by done. lia.
  - rewrite decide_False by (intros (_ & ? & ?); tauto). lia.
Qed.

Lemma lineDataByCollege_zero c s j : slotOr0 lineDataByCollege c s j = 0.
Proof.
  unfold slotOr0. destruct (slot lineDataByCollege c s j) as [n|] eqn:Hn; [|reflexivity].
  cbn. revert Hn. unfold slot. rewrite lineDataByCollege_lookup.
  destruct (decide (c ∈ colleges)); [|discriminate]. cbn.
  rewrite emptySeries_lookup. destruct (decide (s ∈ buckets)); [|discriminate]. cbn.
  intros H. apply list_elem_of_lookup_2 in H.
  repeat (apply elem_of_cons in H as [->|H]; [reflexivity|]). inversion H.
Qed.

(** When no record names "All Colleges" itself as its college, every
    counter of the "All Colleges" series is the sum of the counters of the
    eight named colleges for the same status and month. *)
Theorem processLineData_aggregate_is_sum
    (clock : Z) (collegeFilter : string) (partnerships : list Partnership)
    (data : gmap string (gmap string (list Z))) :
  (forall p, p ∈ partnerships -> collegeOf p <> Some "All Colleges") ->
  processLineData clock collegeFilter partnerships = Normal data ->
  forall derived i, slotOr0 data "All Colleges" derived i = sumNamed data derived i.
Proof.
  intros Hnone Hrun.
  refine (proj2 (forEach_invariant_in (visit clock collegeFilter)
                   (fun d => shaped d /\
                             forall s j, slotOr0 d "All Colleges" s j = sumNamed d s j)
                   partnerships _ lineDataByCollege data _ Hrun)).
  - intros s x s' Hx Hs Hv. eapply visit_aggregate; eauto.
  - split; [apply lineDataByCollege_shaped|].
    intros s j. rewrite lineDataByCollege_zero. unfold sumNamed.
    induction namedColleges as [|k keys IH]; [reflexivity|].
    cbn [foldr]. rewrite lineDataByCollege_zero, <- IH. reflexivity.
Qed.

(** Two colleges in the current month: the aggregate holds both. *)
Lemma processLineData_aggregate_is_sum_witness :
  match processLineData Sample.clock "All Colleges"
          [Sample.expiringLaw; Sample.activeLaw; Sample.pendingLastYear] with
  | Normal data =>
      slotOr0 data "All Colleges" "active" 11 = sumNamed data "active" 11
  | _ => False
  end.
Proof.
  destruct (processLineData _ _ _) as [data| |] eqn:Hrun;
    [|apply (f_equal completes) in Hrun; vm_compute in Hrun; discriminate..].
  assert (Hnone : forall p,
             p ∈ [Sample.expiringLaw; Sample.activeLaw; Sample.pendingLastYear] ->
             collegeOf p <> Some "All Colleges").
  { intros p Hp. repeat (apply elem_of_cons in Hp as [->|Hp]; [discriminate|]).
    inversion Hp. }
  exact (processLineData_aggregate_is_sum _ _ _ _ Hnone Hrun "active" 11%nat).
Defined.

End LineFacts.

(** ** Country heat map, for every input *)

Module HeatmapFacts.
Import Dashboard DashboardSpec DashboardTerms.

(** *** Country names *)

Lemma isPrototypeKey_lowercase (s : string) :
  isPrototypeKey (toLowerCase s) = true <->
  toLowerCase s ∈ ["constructor"; "__proto__"].
Proof.
  split.
  - apply ChartFacts.toLowerCase_prototype_key.
  - intros H. repeat (apply elem_of_cons in H as [->|H]; [reflexivity|]). inversion H.
Qed.

(** The normalization never leaves the fragment modelled and never
    returns the empty name; it throws exactly on the names whose trimmed
    lowercase form is "constructor" or "__proto__". *)
Theorem normalizeCountryName_outcomes (name : option string) :
  normalizeCountryName name <> Exotic /\
  normalizeCountryName name <> Normal "" /\
  (normalizeCountryName name = ThrowTypeError <->
   exists s, name = Some s /\ toLowerCase (trim s) ∈ ["constructor"; "__proto__"]).
Proof.
  unfold normalizeCountryName. destruct name as [[|c0 cs]|].
  - repeat split; try discriminate. intros (s & [= <-] & H). cbn in H.
    repeat (apply elem_of_cons in H as [H|H]; [discriminate|]). inversion H.
  - unfold getProp.
    destruct (countryMap !! toLowerCase (trim (String c0 cs))) as [mapped|] eqn:Hm.
    + assert (Hne : mapped <> "").
      { apply Heatmap.countryMap_values in Hm.
        repeat (apply elem_of_cons in Hm as [->|Hm]; [discriminate|]). inversion Hm. }
      destruct mapped as [|m0 ms]; [congruence|]. cbn [truthy].
      repeat split; try discriminate.
      intros (s & [= <-] & H).
      repeat (apply elem_of_cons in H as [H|H]; [rewrite H in Hm; discriminate|]).
      inversion H.
    + destruct (isPrototypeKey (toLowerCase (trim (String c0 cs)))) eqn:Hk.
      * repeat split; try discriminate. intros _. exists (String c0 cs).
        split; [reflexivity|]. by apply isPrototypeKey_lowercase.
      * repeat split; try discriminate. intros (s & [= <-] & H).
        apply isPrototypeKey_lowercase in H. congruence.
  - repeat split; try discriminate. intros (s & [= ] & _).
Qed.

Lemma capitalize_value (v : string) :
  v ∈ [ "United States"; "United Kingdom"; "South Korea";
        "Russian Federation"; "China"; "Taiwan"; "Ethiopia" ] ->
  capitalize v = v /\ truthy (Some v) = true.
Proof.
  intros H. repeat (apply elem_of_cons in H as [->|H]; [split; reflexivity|]). inversion H.
Qed.

(** A name whose trimmed lowercase form is a key of the alias table is
    given the name the table holds, whatever its letter case and the
    blanks around it. *)
Theorem normalizeCountryName_alias (name canonical : string) :
  countryMap !! toLowerCase (trim name) = Some canonical ->
  normalizeCountryName (Some name) = Normal canonical.
Proof.
  intros Hkey. destruct name as [|c0 cs]; [vm_compute in Hkey; discriminate|].
  unfold normalizeCountryName, getProp. rewrite Hkey.
  destruct (capitalize_value _ (Heatmap.countryMap_values _ _ Hkey)) as [-> ->].
  reflexivity.
Qed.

Lemma normalizeCountryName_alias_witness :
  normalizeCountryName (Some "  Great BRITAIN ") = Normal "United Kingdom".
Proof.
  apply (normalizeCountryName_alias "  Great BRITAIN " "United Kingdom").
  vm_compute. reflexivity.
Defined.

(** *** Names in the ASCII range *)

Lemma upperAscii_isAscii (c : ascii) :
  (N_of_ascii c <? 128)%N = true -> (N_of_ascii (upperAscii c) <? 128)%N = true.
Proof. destruct c as [[] [] [] [] [] [] [] []]; intros H; solve [reflexivity | discriminate]. Qed.

Lemma capitalize_isAscii (s : string) : isAscii s = true -> isAscii (capitalize s) = true.
Proof.
  destruct s as [|c s]; [reflexivity|]. rewrite Heatmap.capitalize_cons.
  cbn [isAscii]. intros H. apply andb_prop in H as [Hc Hs].
  rewrite (upperAscii_isAscii _ Hc), Hs. reflexivity.
Qed.

(** On a name in the ASCII range, whatever the normalization returns is
    again in the ASCII range and normalizes to itself. *)
Theorem normalizeCountryName_ascii_fixed_point
    (name : option string) (normalized : string) :
  (forall s, name = Some s -> isAscii s = true) ->
  normalizeCountryName name = Normal normalized ->
  isAscii normalized = true /\
  normalizeCountryName (Some normalized) = Normal normalized.
Proof.
  intros Hascii Hrun.
  split; [|exact (Heatmap.normalizeCountryName_idempotent name normalized Hrun)].
  revert Hrun. unfold normalizeCountryName.
  destruct name as [[|c0 cs]|]; try (intros [= <-]; reflexivity).
  destruct (getProp countryMap _) as [mappedName| |] eqn:Hget; [| discriminate |].
  - unfold getProp in Hget.
    destruct (countryMap !! _) as [m|] eqn:Hm;
      [|destruct (isPrototypeKey _); discriminate].
    injection Hget as ->. apply Heatmap.countryMap_values in Hm.
    repeat (apply elem_of_cons in Hm as [->|Hm]; [intros [= <-]; reflexivity|]).
    inversion Hm.
  - intros [= <-]. apply capitalize_isAscii, Hascii. reflexivity.
Qed.

(** A name outside the alias table: its first letter is capitalized, and
    the result normalizes to itself. *)
Lemma normalizeCountryName_ascii_fixed_point_witness :
  isAscii "GErmany" = true /\
  normalizeCountryName (Some "GErmany") = Normal "GErmany".
Proof.
  apply (normalizeCountryName_ascii_fixed_point (Some "gErmany") "GErmany").
  - intros s [= <-]. reflexivity.
  - vm_compute. reflexivity.
Defined.

(** *** Counts *)







(** *** Names that the count object inherits *)








End HeatmapFacts.

(** ** The distribution chart *)

Module PieFacts.
Import Dashboard DashboardSpec Pie.

Lemma assign_fresh {V} (k : string) (v : V) (o : list (string * V)) :
  k ∉ map fst o -> assign k v o = (o ++ [(k, v)])%list.
Proof.
  induction o as [|[k' v'] o IH]; intros Hk; [reflexivity|].
  cbn [map fst] in Hk. apply not_elem_of_cons in Hk as [Hne Hk].
  cbn [assign app]. destruct (String.eqb_spec k' k) as [->|_]; [congruence|].
  rewrite IH by exact Hk. reflexivity.
Qed.

(** The slices the [reduce] has collected after a run of names. *)
Lemma reduce_slices (partnerships : list Partnership) (names : list string)
    (acc : list (string * nat)) :
  NoDup names -> "All Colleges" ∉ names ->
  (forall k, k ∈ map fst acc -> k ∉ names) ->
  foldl (fun (acc : list (string * nat)) college =>
           if negb (String.eqb college "All Colleges") then
             let count := countCollege partnerships college in
             if (0 <? count)%nat then assign college count acc else acc
           else acc) acc names
  = (acc ++ filter (fun cn : string * nat => (0 < cn.2)%nat)
              (map (fun c => (c, countCollege partnerships c)) names))%list.
Proof.
  intros Hnd. revert acc. induction Hnd as [|c names Hc Hnd IH]; intros acc Hall Hacc.
  - cbn. rewrite app_nil_r. reflexivity.
  - apply not_elem_of_cons in Hall as [HcAll Hall].
    cbn [foldl map]. rewrite filter_cons. cbn [snd].
    destruct (String.eqb_spec c "All Colleges") as [->|_]; [congruence|]. cbn [negb].
    cbv zeta. destruct (Nat.ltb_spec 0 (countCollege partnerships c)) as [Hpos|Hzero].
    + rewrite decide_True by exact Hpos.
      rewrite assign_fresh by (intros Hin; apply (Hacc _ Hin); left).
      rewrite IH; [rewrite <- app_assoc; reflexivity | exact Hall |].
      intros k Hk. rewrite map_app in Hk. apply elem_of_app in Hk as [Hk|Hk].
      * intros Hin. apply (Hacc _ Hk). by right.
      * cbn in Hk. apply elem_of_cons in Hk as [->|Hk]; [exact Hc | inversion Hk].
    + rewrite decide_False by lia. apply IH; [exact Hall|].
      intros k Hk Hin. apply (Hacc _ Hk). by right.
Qed.

Lemma processPieData_slices_eq (partnerships : list Partnership) :
  labels (processPieData partnerships)
  = map fst (filter (fun cn : string * nat => (0 < cn.2)%nat)
               (map (fun c => (c, countCollege partnerships c)) namedColleges)) /\
  data (processPieData partnerships)
  = map snd (filter (fun cn : string * nat => (0 < cn.2)%nat)
               (map (fun c => (c, countCollege partnerships c)) namedColleges)).
Proof.
  unfold processPieData. cbn [labels data].
  change colleges with ("All Colleges" :: namedColleges). cbn [foldl String.eqb Ascii.eqb
    Bool.eqb andb negb].
  rewrite reduce_slices.
  - split; reflexivity.
  - apply LineFacts.namedColleges_NoDup.
  - decide_by_compute.
  - intros k Hk. inversion Hk.
Qed.

Lemma collegeIn_cons (c : string) (names : list string) (p : Partnership) :
  c ∉ names ->
  (if decide (collegeIn (c :: names) p = true) then 1 else 0)%nat
  = ((if decide (collegeOf p = Some c) then 1 else 0)
     + (if decide (collegeIn names p = true) then 1 else 0))%nat.
Proof.
  intros Hc. unfold collegeIn. destruct (collegeOf p) as [college|].
  - destruct (decide (Some college = Some c)) as [[= ->]|Hne].
    + rewrite (bool_decide_eq_true_2 (c ∈ c :: names)) by left.
      rewrite (bool_decide_eq_false_2 (c ∈ names)) by exact Hc.
      destruct (decide (true = true)); [|congruence].
      destruct (decide (false = true)); [discriminate | reflexivity].
    + destruct (decide (college ∈ names)) as [Hin|Hin].
      * rewrite (bool_decide_eq_true_2 (college ∈ c :: names)) by (by right).
        rewrite (bool_decide_eq_true_2 (college ∈ names)) by exact Hin.
        destruct (decide (true = true)); [reflexivity | congruence].
      * rewrite (bool_decide_eq_false_2 (college ∈ c :: names)).
        -- rewrite (bool_decide_eq_false_2 (college ∈ names)) by exact Hin.
           destruct (decide (false = true)); [discriminate | reflexivity].
        -- intros H. apply elem_of_cons in H as [->|H]; [congruence | tauto].
  - destruct (decide (None = Some c)); [discriminate|].
    destruct (decide (false = true)); [discriminate | reflexivity].
Qed.

Lemma countCollege_cons (p : Partnership) (ps : list Partnership) (c : string) :
  countCollege (p :: ps) c
  = ((if decide (collegeOf p = Some c) then 1 else 0) + countCollege ps c)%nat.
Proof.
  unfold countCollege. rewrite filter_cons.
  destruct (decide (collegeOf p = Some c)); reflexivity.
Qed.

(** What one more record adds to the counts of a run of distinct names. *)
Lemma sum_countCollege (names : list string) (partnerships : list Partnership) :
  NoDup names ->
  sum_list (map (countCollege partnerships) names)
  = length (filter (fun p => collegeIn names p = true) partnerships).
Proof.
  intros Hnd. induction partnerships as [|p ps IH].
  - cbn. clear Hnd. induction names as [|c names IHn]; [reflexivity|]. cbn. exact IHn.
  - rewrite filter_cons.
    assert (Hstep : sum_list (map (countCollege (p :: ps)) names)
                    = ((if decide (collegeIn names p = true) then 1 else 0)
                       + sum_list (map (countCollege ps) names))%nat).
    { clear IH. induction Hnd as [|c names Hc Hnd IHn].
      - cbn [map sum_list]. unfold collegeIn.
        destruct (collegeOf p).
        + rewrite bool_decide_eq_false_2 by apply not_elem_of_nil.
          destruct (decide (false = true)); [discriminate | reflexivity].
        + destruct (decide (false = true)); [discriminate | reflexivity].
      - cbn [map sum_list]. rewrite IHn, countCollege_cons, (collegeIn_cons _ _ _ Hc).
        unfold id. lia. }
    rewrite Hstep, IH. destruct (decide (collegeIn names p = true)); cbn [length]; lia.
Qed.

Lemma sum_positive (l : list (string * nat)) :
  sum_list (map snd (filter (fun cn : string * nat => (0 < cn.2)%nat) l))
  = sum_list (map snd l).
Proof.
  induction l as [|[c n] l IH]; [reflexivity|].
  rewrite filter_cons. cbn [snd]. destruct (decide (0 < n)%nat) as [Hn|Hn].
  - cbn [map sum_list snd]. rewrite IH. reflexivity.
  - cbn [map sum_list snd]. rewrite IH. unfold id. lia.
Qed.

(** The distribution chart has one slice for each named college that
    some record names, in the order of [colleges], with the number of
    those records as its value; no slice is empty, there are at most as
    many slices as colours, and the slices add up to the number of records
    that name one of the eight colleges. *)
Theorem processPieData_slices (partnerships : list Partnership) :
  let pie := processPieData partnerships in
  length (labels pie) = length (data pie) /\
  (length (labels pie) <= length (backgroundColor pie))%nat /\
  labels pie `sublist_of` namedColleges /\
  (forall college n,
     (college, n) ∈ zip (labels pie) (data pie) <->
     college ∈ namedColleges /\ n = countCollege partnerships college /\ (0 < n)%nat) /\
  sum_list (data pie)
  = length (filter (fun p => collegeIn namedColleges p = true) partnerships).
Proof.
  cbv zeta. destruct (processPieData_slices_eq partnerships) as [Hl Hd].
  rewrite Hl, Hd.
  set (slices := filter (fun cn : string * nat => (0 < cn.2)%nat)
                   (map (fun c => (c, countCollege partnerships c)) namedColleges)).
  assert (Hzip : zip (map fst slices) (map snd slices) = slices).
  { clear. induction slices as [|[c n] l IH]; [reflexivity|]. cbn. rewrite IH. reflexivity. }
  assert (Hsub : slices `sublist_of`
                 map (fun c => (c, countCollege partnerships c)) namedColleges)
    by apply sublist_filter.
  split; [rewrite !length_map; reflexivity|].
  split.
  { rewrite length_map. apply sublist_length in Hsub. rewrite length_map in Hsub.
    exact Hsub. }
  split.
  { unfold slices. clear. induction namedColleges as [|c l IH]; [constructor|].
    cbn [map]. rewrite filter_cons. cbn [snd].
    destruct (decide (0 < countCollege partnerships c)%nat).
    - cbn [map fst]. by apply sublist_skip.
    - by apply sublist_cons. }
  split.
  { intros college n. rewrite Hzip. unfold slices.
    rewrite list_elem_of_filter, list_elem_of_fmap. cbn [snd]. split.
    - intros (Hpos & c & [= -> ->] & Hin). auto.
    - intros (Hin & -> & Hpos). split; [exact Hpos|]. exists college. auto. }
  unfold slices. rewrite sum_positive.
  rewrite <- (sum_countCollege namedColleges partnerships LineFacts.namedColleges_NoDup).
  reflexivity.
Qed.

End PieFacts.

(** ** The edit form, field by field *)

Module EditFieldFacts.
Import EditPartnership EditTerms EditFacts.

(** *** Reading and writing properties *)

Lemma ownProp_setProp_eq k v fields : ownProp (setProp k v fields) k = Some v.
Proof.
  induction fields as [|[k' v'] rest IH]; cbn [setProp ownProp].
  - rewrite String.eqb_refl. reflexivity.
  - destruct (String.eqb_spec k' k) as [->|Hne]; cbn [ownProp].
    + rewrite String.eqb_refl. reflexivity.
    + apply String.eqb_neq in Hne. rewrite Hne. exact IH.
Qed.

Lemma ownProp_setProp_ne k k' v fields :
  k <> k' -> ownProp (setProp k v fields) k' = ownProp fields k'.
Proof.
  intros Hne. induction fields as [|[k0 v0] rest IH]; cbn [setProp ownProp].
  - apply String.eqb_neq in Hne. rewrite Hne. reflexivity.
  - destruct (String.eqb_spec k0 k) as [->|Hk0]; cbn [ownProp].
    + apply String.eqb_neq in Hne. rewrite Hne. reflexivity.
    + destruct (String.eqb k0 k'); [reflexivity | exact IH].
Qed.

Lemma setProp_setProp k v v' fields :
  setProp k v' (setProp k v fields) = setProp k v' fields.
Proof.
  induction fields as [|[k0 v0] rest IH]; cbn [setProp].
  - rewrite String.eqb_refl. reflexivity.
  - destruct (String.eqb_spec k0 k) as [->|Hne]; cbn [setProp].
    + rewrite String.eqb_refl. reflexivity.
    + apply String.eqb_neq in Hne. rewrite Hne, IH. reflexivity.
Qed.

Lemma setProp_same k v fields : ownProp fields k = Some v -> setProp k v fields = fields.
Proof.
  induction fields as [|[k0 v0] rest IH]; cbn [setProp ownProp]; [discriminate|].
  destruct (String.eqb_spec k0 k) as [->|Hne].
  - intros [= ->]. reflexivity.
  - intros H. rewrite (IH H). reflexivity.
Qed.

(** *** Dotted names *)

Lemma includesDot_splitDot (s : string) :
  includesDot s = true -> exists a b rest, splitDot s = a :: b :: rest.
Proof.
  induction s as [|c s IH]; [discriminate|]. cbn [includesDot splitDot].
  destruct (Ascii.eqb c ".") eqn:Hc; cbn [orb].
  - intros _. destruct (splitDot s) as [|b rest] eqn:Hs.
    + destruct s; cbn in Hs; [discriminate|].
      destruct (Ascii.eqb _ "."); [discriminate|]. destruct (splitDot s); discriminate.
    + eauto.
  - intros H. destruct (IH H) as (a & b & rest & ->). eauto.
Qed.

Lemma splitDot_nonempty (s : string) : splitDot s <> [].
Proof.
  destruct s as [|c s]; cbn [splitDot]; [discriminate|].
  destruct (Ascii.eqb c "."); [discriminate|]. destruct (splitDot s); discriminate.
Qed.

(** The parts of a split name have no dot. *)
Lemma splitDot_parts (s part : string) : part ∈ splitDot s -> includesDot part = false.
Proof.
  revert part. induction s as [|c s IH]; intros part; cbn [splitDot].
  - intros H. apply elem_of_cons in H as [->|H]; [reflexivity | inversion H].
  - destruct (Ascii.eqb c ".") eqn:Hc.
    + intros H. apply elem_of_cons in H as [->|H]; [reflexivity | apply IH, H].
    + destruct (splitDot s) as [|h t] eqn:Hs.
      * intros H. apply elem_of_cons in H as [->|H]; [|inversion H].
        cbn. rewrite Hc. reflexivity.
      * intros H. apply elem_of_cons in H as [->|H].
        -- cbn [includesDot]. rewrite Hc. apply IH. left.
        -- apply IH. by right.
Qed.

(** Joining a dot-free section and a dot-free field with a dot gives a
    name that splits into the two. *)
Lemma splitDot_join (section field : string) :
  includesDot section = false -> includesDot field = false ->
  includesDot (section +:+ "." +:+ field) = true /\
  splitDot (section +:+ "." +:+ field) = [section; field].
Proof.
  intros Hs Hf.
  assert (Hfield : splitDot field = [field]).
  { clear Hs. induction field as [|c f IH]; [reflexivity|].
    cbn [includesDot] in Hf. apply orb_false_elim in Hf as [Hc Hf].
    cbn [splitDot]. rewrite Hc, (IH Hf). reflexivity. }
  induction section as [|c s IH].
  - change ("" +:+ "." +:+ field) with (String "." field).
    cbn [includesDot splitDot]. rewrite Ascii.eqb_refl, Hfield. split; reflexivity.
  - cbn [includesDot] in Hs. apply orb_false_elim in Hs as [Hc Hs].
    destruct (IH Hs) as [Hi Hsp].
    change (String c s +:+ "." +:+ field) with (String c (s +:+ "." +:+ field)).
    cbn [includesDot splitDot]. rewrite Hc, Hi, Hsp. split; reflexivity.
Qed.

(** *** One changed property *)

Lemma ownProp_elem_of fields k v : ownProp fields k = Some v -> (k, v) ∈ fields.
Proof.
  induction fields as [|[k' v'] rest IH]; cbn [ownProp]; [discriminate|].
  destruct (String.eqb_spec k' k) as [->|_].
  - intros [= ->]. left.
  - intros H. right. apply IH, H.
Qed.

Lemma wellFormed_section whole section fields :
  wellFormed (VObj whole) -> ownProp whole section = Some (VObj fields) ->
  wellFormed (VObj fields).
Proof.
  intros Hwf Hown. apply wellFormed_VObj in Hwf as [_ Hall].
  rewrite Forall_forall in Hall. apply (Hall _ (ownProp_elem_of _ _ _ Hown)).
Qed.

(** The loop over an object that differs from [whole] in the value of
    one property, which is now a string, records that property. *)
Lemma compareFields_one_change whole path k new v0 changes :
  wellFormed (VObj whole) ->
  ownProp whole k = Some v0 ->
  strictNe (VStr new) v0 = true ->
  compareFields (VObj whole) path (setProp k (VStr new) whole) changes
  = recordChange changes (pathTo path k) k (VStr new).
Proof.
  intros Hwf Hown Hne.
  destruct (ownProp_split _ _ _ Hown) as (l1 & l2 & Heq & Hnot & Hset).
  rewrite Hset, compareFields_app.
  rewrite (compareFields_unchanged whole path l1 changes Hwf)
    by (rewrite Heq; intros x Hx; apply elem_of_app; by left).
  cbn [mbind Completion_bind cbind compareFields readProp].
  unfold getField. rewrite Hown.
  cbn [mbind Completion_bind cbind differs]. rewrite Hne.
  destruct (recordChange changes (pathTo path k) k (VStr new)) as [ch| |];
    cbn [mbind Completion_bind cbind]; try reflexivity.
  apply (compareFields_unchanged whole path l2 _ Hwf).
  rewrite Heq. intros x Hx. apply elem_of_app. right. by right.
Qed.

(** The loop over an object that differs from [whole] in one section
    goes into that section and nowhere else. *)
Lemma compareFields_section_change whole path section fields fields' changes :
  wellFormed (VObj whole) ->
  ownProp whole section = Some (VObj fields) ->
  compareFields (VObj whole) path (setProp section (VObj fields') whole) changes
  = compareObjects (VObj fields') (VObj fields) (pathTo path section) changes.
Proof.
  intros Hwf Hown.
  destruct (ownProp_split _ _ _ Hown) as (l1 & l2 & Heq & Hnot & Hset).
  rewrite Hset, compareFields_app.
  rewrite (compareFields_unchanged whole path l1 changes Hwf)
    by (rewrite Heq; intros x Hx; apply elem_of_app; by left).
  cbn [mbind Completion_bind cbind compareFields readProp].
  unfold getField. rewrite Hown.
  cbn [mbind Completion_bind cbind argument].
  destruct (compareObjects (VObj fields') (VObj fields) (pathTo path section) changes)
    as [ch| |]; cbn [mbind Completion_bind cbind]; try reflexivity.
  apply (compareFields_unchanged whole path l2 _ Hwf).
  rewrite Heq. intros x Hx. apply elem_of_app. right. by right.
Qed.

Lemma strictNe_strings new old : new <> old -> strictNe (VStr new) (VStr old) = true.
Proof. intros H. cbn. apply String.eqb_neq in H. rewrite H. reflexivity. Qed.

(** After [handleChange] has put a new string into one input of a loaded
    form, the diff against the loaded record is exactly that input: the
    object [{name: value}], or [{section: {field: value}}] for a dotted
    name. *)
Theorem handleChange_then_getChangedFields
    (original : list (string * JsVal)) (name old new : string) :
  wellFormed (VObj original) ->
  plain name = true ->
  fieldOf name original = Some (VStr old) ->
  new <> old ->
  exists formData',
    handleChange name new original = Normal formData' /\
    getChangedFields formData' (VObj original) = Normal (patch name new).
Proof.
  intros Hwf Hplain Hfield Hne.
  unfold handleChange, plain, fieldOf, patch in *.
  destruct (includesDot name) eqn:Hdot.
  - destruct (includesDot_splitDot _ Hdot) as (section & field & rest & Hsplit).
    rewrite Hsplit in *.
    destruct (ownProp original section) as [[| | | |fields]|] eqn:Hsec; try discriminate.
    unfold getField. rewrite Hsec. eexists. split; [reflexivity|].
    apply andb_prop in Hplain as [Hplain Hproto].
    apply andb_prop in Hplain as [Hnonempty Hinherited].
    apply negb_true_iff in Hproto, Hinherited.
    assert (Hsd : includesDot section = false)
      by (apply (splitDot_parts name); rewrite Hsplit; left).
    assert (Hfd : includesDot field = false)
      by (apply (splitDot_parts name); rewrite Hsplit; right; left).
    unfold getChangedFields. rewrite compareObjects_VObj.
    rewrite (compareFields_section_change _ _ _ _ _ _ Hwf Hsec).
    rewrite compareObjects_VObj.
    rewrite (compareFields_one_change _ _ _ _ _ _
               (wellFormed_section _ _ _ Hwf Hsec) Hfield (strictNe_strings _ _ Hne)).
    assert (Hpath : pathTo (pathTo "" section) field = section +:+ "." +:+ field).
    { unfold pathTo at 2. cbn [truthy]. unfold pathTo. rewrite Hnonempty. reflexivity. }
    rewrite Hpath. destruct (splitDot_join section field Hsd Hfd) as [Hi Hs].
    unfold recordChange. rewrite Hi, Hs.
    assert (Hundef : getField [] section = Undefined)
      by (unfold getField; cbn [ownProp]; rewrite Hinherited; reflexivity).
    rewrite Hundef. cbn [setProp].
    assert (Hown : getField [(section, VObj [])] section = Own (VObj []))
      by (unfold getField; cbn [ownProp]; rewrite String.eqb_refl; reflexivity).
    rewrite Hown, Hproto. cbn [setProp]. rewrite String.eqb_refl. reflexivity.
  - eexists. split; [reflexivity|].
    apply negb_true_iff in Hplain.
    unfold getChangedFields. rewrite compareObjects_VObj.
    rewrite (compareFields_one_change _ _ _ _ _ _ Hwf Hfield (strictNe_strings _ _ Hne)).
    unfold recordChange, pathTo. cbn [truthy]. rewrite Hdot, Hplain. reflexivity.
Qed.

(** The e-mail address of the university's contact, changed on the sample
    form. *)
Lemma handleChange_then_getChangedFields_witness :
  exists formData',
    handleChange "aauContact.email" "abebe.k@aau.edu.et" Sample.nairobi = Normal formData' /\
    getChangedFields formData' (VObj Sample.nairobi)
    = Normal [("aauContact", VObj [("email", VStr "abebe.k@aau.edu.et")])].
Proof.
  assert (Hne : "abebe.k@aau.edu.et" <> "abebe@aau.edu.et") by discriminate.
  exact (handleChange_then_getChangedFields Sample.nairobi "aauContact.email"
           "abebe@aau.edu.et" "abebe.k@aau.edu.et" nairobi_wellFormed eq_refl eq_refl Hne).
Defined.

(** *** What an edit touches *)

(** [handleChange] makes its input show the value typed and leaves what
    every other input shows. *)
Theorem handleChange_sets_only_its_field
    (name value : string) (prev next : list (string * JsVal)) :
  handleChange name value prev = Normal next ->
  fieldOf name next = Some (VStr value) /\
  forall other, apart name other = true -> fieldOf other next = fieldOf other prev.
Proof.
  unfold handleChange, fieldOf, apart. destruct (includesDot name) eqn:Hdot.
  - destruct (includesDot_splitDot _ Hdot) as (section & field & rest & Hsplit).
    rewrite Hsplit. cbn [hd nth]. unfold getField.
    intros Hnext.
    assert (Hshape : exists fields',
               next = setProp section (VObj fields') prev /\
               ownProp fields' field = Some (VStr value) /\
               forall f, f <> field ->
                 ownProp fields' f
                 = match ownProp prev section with
                   | Some (VObj fields) => ownProp fields f
                   | _ => None
                   end).
    { destruct (ownProp prev section) as [[| | | |fields]|] eqn:Hsec;
        try (destruct (isPrototypeKey section)); try discriminate;
        injection Hnext as <-; eexists; (split; [reflexivity|]); split;
        try apply ownProp_setProp_eq;
        try (cbn [ownProp]; rewrite String.eqb_refl; reflexivity);
        intros f Hf; try (apply ownProp_setProp_ne; congruence);
        cbn [ownProp]; apply not_eq_sym, String.eqb_neq in Hf; rewrite Hf; reflexivity. }
    destruct Hshape as (fields' & -> & Hset & Hframe). split.
    + rewrite ownProp_setProp_eq. exact Hset.
    + intros other Hother. destruct (includesDot other) eqn:Hod.
      * destruct (includesDot_splitDot _ Hod) as (s' & f' & rest' & Hsplit').
        rewrite Hsplit' in *. cbn [hd nth andb] in Hother.
        destruct (String.eqb_spec section s') as [<-|Hs]; cbn [negb orb] in Hother.
        -- apply negb_true_iff, String.eqb_neq in Hother.
           rewrite ownProp_setProp_eq. apply Hframe. congruence.
        -- rewrite ownProp_setProp_ne by exact Hs. reflexivity.
      * cbn [andb orb] in Hother. rewrite orb_false_r in Hother.
        apply negb_true_iff, String.eqb_neq in Hother.
        apply ownProp_setProp_ne. exact Hother.
  - intros [= <-]. split; [apply ownProp_setProp_eq|].
    intros other Hother. destruct (includesDot other) eqn:Hod.
    + destruct (includesDot_splitDot _ Hod) as (s' & f' & rest' & Hsplit').
      rewrite Hsplit' in *. cbn [hd nth andb orb] in Hother.
      rewrite orb_false_r in Hother. apply negb_true_iff, String.eqb_neq in Hother.
      rewrite ownProp_setProp_ne by exact Hother. reflexivity.
    + cbn [andb orb] in Hother. rewrite orb_false_r in Hother.
      apply negb_true_iff, String.eqb_neq in Hother.
      apply ownProp_setProp_ne. exact Hother.
Qed.

(** Typing a region on the sample form: the region shows it, the
    country and the partner's address are as before. *)
Lemma handleChange_sets_only_its_field_witness :
  exists next,
    handleChange "region" "East Africa" Sample.nairobi = Normal next /\
    fieldOf "region" next = Some (VStr "East Africa") /\
    fieldOf "country" next = Some (VStr "Kenya") /\
    fieldOf "partnerInstitution.address" next = Some (VStr "Nairobi").
Proof.
  eexists. split; [reflexivity|].
  destruct (handleChange_sets_only_its_field "region" "East Africa" Sample.nairobi _ eq_refl)
    as [Hset Hframe].
  split; [exact Hset|]. split.
  - rewrite (Hframe "country") by reflexivity. reflexivity.
  - rewrite (Hframe "partnerInstitution.address") by reflexivity. reflexivity.
Defined.

(** *** Typing a value back *)

(** Typing another value into an input and then the value it showed
    restores the form object, and the restored form has nothing to save. *)
Theorem handleChange_revert
    (original : list (string * JsVal)) (name old new : string) :
  wellFormed (VObj original) ->
  fieldOf name original = Some (VStr old) ->
  exists formData',
    handleChange name new original = Normal formData' /\
    handleChange name old formData' = Normal original /\
    getChangedFields original (VObj original) = Normal [].
Proof.
  intros Hwf Hfield.
  assert (Hsame : getChangedFields original (VObj original) = Normal [])
    by (apply (compareObjects_same (VObj original) Hwf)).
  unfold handleChange, fieldOf in *. destruct (includesDot name) eqn:Hdot.
  - destruct (includesDot_splitDot _ Hdot) as (section & field & rest & Hsplit).
    rewrite Hsplit in *.
    destruct (ownProp original section) as [[| | | |fields]|] eqn:Hsec; try discriminate.
    unfold getField. rewrite Hsec. eexists. split; [reflexivity|].
    rewrite ownProp_setProp_eq, !setProp_setProp.
    rewrite (setProp_same field _ fields Hfield), (setProp_same section _ original Hsec).
    split; [reflexivity | exact Hsame].
  - eexists. split; [reflexivity|]. rewrite setProp_setProp.
    rewrite (setProp_same name _ original Hfield). split; [reflexivity | exact Hsame].
Qed.

Lemma handleChange_revert_witness :
  exists formData',
    handleChange "partnerInstitution.website" "nairobi.ac.ke" Sample.nairobi
    = Normal formData' /\
    handleChange "partnerInstitution.website" "uonbi.ac.ke" formData'
    = Normal Sample.nairobi.
Proof.
  destruct (handleChange_revert Sample.nairobi "partnerInstitution.website"
              "uonbi.ac.ke" "nairobi.ac.ke" nairobi_wellFormed eq_refl)
    as (formData' & H1 & H2 & _).
  exists formData'. split; assumption.
Defined.

(** *** Submitting *)

(** Submitting the form as it was loaded sends no request, whatever the
    record is. *)
Theorem handleSubmit_after_load
    (formattedData : list (string * JsVal)) (toastHasInfo : bool) (id : string)
    (answer : Settled unit) (st : State) :
  wellFormed (VObj formattedData) ->
  exists st' effects,
    handleSubmit toastHasInfo id answer
      (fetchPartnership (Resolved formattedData) st).1 = Normal (st', effects) /\
    requests effects = [] /\
    formData st' = formattedData.
Proof.
  intros Hwf. unfold handleSubmit.
  cbn [fetchPartnership fst formData originalData setError setSubmitting setLoading
       setOriginalData setFormData].
  change (getChangedFields formattedData (VObj formattedData))
    with (compareObjects (VObj formattedData) (VObj formattedData) "" []).
  rewrite (compareObjects_same (VObj formattedData) Hwf).
  destruct toastHasInfo; eexists _, _; (split; [reflexivity|]); split; reflexivity.
Qed.

Lemma handleSubmit_after_load_witness :
  exists st' effects,
    handleSubmit false "42" (Resolved ())
      (fetchPartnership (Resolved Sample.nairobi) initialState).1 = Normal (st', effects) /\
    requests effects = [].
Proof.
  destruct (handleSubmit_after_load Sample.nairobi false "42" (Resolved ()) initialState
              nairobi_wellFormed) as (st' & effects & Hrun & Hreq & _).
  exists st', effects. split; assumption.
Defined.

(** Whenever [handleSubmit] completes: the form, the loaded record and
    the loading flag are as they were and [submitting] is false; exactly
    one toast is shown; at most one request is sent, it is for the page's
    record, and its payload is the non-empty diff; and the page navigates
    away only after a request that resolved. *)
Theorem handleSubmit_outcome
    (toastHasInfo : bool) (id : string) (answer : Settled unit)
    (st st' : State) (effects : list Effect) :
  handleSubmit toastHasInfo id answer st = Normal (st', effects) ->
  formData st' = formData st /\
  originalData st' = originalData st /\
  loading st' = loading st /\
  submitting st' = false /\
  length (toasts effects) = 1%nat /\
  (requests effects = [] \/
   exists payload,
     requests effects = [(id, payload)] /\ payload <> [] /\
     getChangedFields (formData st) (originalData st) = Normal payload) /\
  (forall to, Navigate to ∈ effects ->
     to = "/partnership" /\ answer = Resolved () /\ requests effects <> []).
Proof.
  unfold handleSubmit.
  cbn [formData originalData setError setSubmitting].
  destruct (getChangedFields (formData st) (originalData st)) as [[|change changes]| |];
    try discriminate.
  - destruct toastHasInfo; intros [= <- <-];
      (refine (conj eq_refl (conj eq_refl (conj eq_refl (conj eq_refl
                (conj eq_refl (conj (or_introl eq_refl) _)))))));
      intros to Hin; repeat (apply elem_of_cons in Hin as [Hin|Hin]; [discriminate|]);
      inversion Hin.
  - destruct answer as [[]|message]; intros [= <- <-];
      (refine (conj eq_refl (conj eq_refl (conj eq_refl (conj eq_refl
                (conj eq_refl (conj (or_intror _) _)))))));
      try (eexists; split; [reflexivity|]; split; [discriminate | reflexivity]).
    + intros to Hin.
      repeat (apply elem_of_cons in Hin as [Hin|Hin]; [try discriminate|]).
      * injection Hin as ->. repeat split. discriminate.
      * inversion Hin.
    + intros to Hin.
      repeat (apply elem_of_cons in Hin as [Hin|Hin]; [discriminate|]). inversion Hin.
  - intros [= <- <-].
    refine (conj eq_refl (conj eq_refl (conj eq_refl (conj eq_refl
              (conj eq_refl (conj (or_introl eq_refl) _)))))).
    intros to Hin. repeat (apply elem_of_cons in Hin as [Hin|Hin]; [discriminate|]).
    inversion Hin.
Qed.

(** A rejected save of an edited region. *)
Lemma handleSubmit_outcome_witness :
  exists st' effects,
    handleSubmit true "42" (Rejected (Text "Network Error"))
      (setFormData (setProp "region" (VStr "East Africa") Sample.nairobi)
         Sample.afterFailedSave) = Normal (st', effects) /\
    submitting st' = false /\ length (toasts effects) = 1%nat.
Proof.
  destruct (handleSubmit true "42" (Rejected (Text "Network Error"))
              (setFormData (setProp "region" (VStr "East Africa") Sample.nairobi)
                 Sample.afterFailedSave)) as [[st' effects]| |] eqn:Hrun;
    [|apply (f_equal completes) in Hrun; vm_compute in Hrun; discriminate..].
  exists st', effects. split; [reflexivity|].
  destruct (handleSubmit_outcome _ _ _ _ _ _ Hrun) as (_ & _ & _ & Hsub & Htoast & _).
  split; assumption.
Defined.

End EditFieldFacts.

(** ** The reset-password screen *)

Module ResetPasswordFacts.
Import ResetPassword.

Lemma truthy_nonempty (s : string) : truthy (Some s) = true <-> s <> "".
Proof. destruct s; cbn; split; congruence. Qed.

(** A reset request is sent exactly when the e-mail address is not
    empty, the new password has 8 to 12 characters and the confirmation
    equals it; the request then carries the three fields as typed and
    [loading] ends false.  Otherwise nothing is sent and the state is left
    as it was.  Either way exactly one toast is shown. *)
Theorem handleSubmit_sends_iff_valid (answer : Settled) (st : State) :
  let valid :=
    email st <> "" /\
    (8 <= String.length (newPassword st) <= 12)%nat /\
    confirmPassword st = newPassword st in
  length (toasts (handleSubmit answer st).2) = 1%nat /\
  (valid ->
   requests (handleSubmit answer st).2
   = [(email st, newPassword st, confirmPassword st)] /\
   (handleSubmit answer st).1 = setLoading false st) /\
  (~ valid ->
   requests (handleSubmit answer st).2 = [] /\ (handleSubmit answer st).1 = st).
Proof.
  cbv zeta. unfold handleSubmit.
  destruct (truthy (Some (email st))) eqn:He; cbn [negb orb].
  2:{ split; [reflexivity|]. split; [|intros _; split; reflexivity].
      intros (Hne & _). apply truthy_nonempty in Hne. congruence. }
  destruct (truthy (Some (newPassword st))) eqn:Hn; cbn [negb orb].
  2:{ split; [reflexivity|]. split; [|intros _; split; reflexivity].
      intros (_ & Hlen & _). destruct (newPassword st); [cbn in Hlen; lia | discriminate]. }
  destruct (truthy (Some (confirmPassword st))) eqn:Hc; cbn [negb orb].
  2:{ split; [reflexivity|]. split; [|intros _; split; reflexivity].
      intros (_ & _ & Heq). rewrite Heq in Hc. congruence. }
  destruct (Nat.ltb_spec (String.length (newPassword st)) 8) as [Hshort|Hlo]; cbn [orb].
  { split; [reflexivity|]. split; [|intros _; split; reflexivity]. intros (_ & Hlen & _). lia. }
  destruct (Nat.ltb_spec 12 (String.length (newPassword st))) as [Hlong|Hhi]; cbn [orb].
  { split; [reflexivity|]. split; [|intros _; split; reflexivity]. intros (_ & Hlen & _). lia. }
  destruct (String.eqb_spec (newPassword st) (confirmPassword st)) as [Heq|Hneq]; cbn [negb].
  2:{ split; [reflexivity|]. split; [|intros _; split; reflexivity].
      intros (_ & _ & Heq). congruence. }
  assert (Hvalid : email st <> "" /\
                   (8 <= String.length (newPassword st) <= 12)%nat /\
                   confirmPassword st = newPassword st).
  { split; [by apply truthy_nonempty|]. split; [lia | congruence]. }
  destruct answer as [|serverError]; cbn [fst snd]; (split; [reflexivity|]);
    (split; [intros _; split; reflexivity | intros Hnot; tauto]).
Qed.

(** A well-formed submission that the server rejects without a text of
    its own, and a password that is too long. *)
Lemma handleSubmit_sends_iff_valid_witness :
  requests (handleSubmit (Rejected None)
              {| email := "abebe@aau.edu.et"; newPassword := "s3cretPass";
                 confirmPassword := "s3cretPass"; loading := false |}).2
  = [("abebe@aau.edu.et", "s3cretPass", "s3cretPass")] /\
  requests (handleSubmit Resolved
              {| email := "abebe@aau.edu.et"; newPassword := "s3cretPassword";
                 confirmPassword := "s3cretPassword"; loading := false |}).2
  = [].
Proof.
  split.
  - destruct (handleSubmit_sends_iff_valid (Rejected None)
                {| email := "abebe@aau.edu.et"; newPassword := "s3cretPass";
                   confirmPassword := "s3cretPass"; loading := false |})
      as (_ & Hvalid & _).
    apply Hvalid. cbn. repeat split; try discriminate; lia.
  - destruct (handleSubmit_sends_iff_valid Resolved
                {| email := "abebe@aau.edu.et"; newPassword := "s3cretPassword";
                   confirmPassword := "s3cretPassword"; loading := false |})
      as (_ & _ & Hinvalid).
    apply Hinvalid. cbn. intros (_ & Hlen & _). lia.
Defined.

End ResetPasswordFacts.
